(** * Taskify: the task routes and the authentication middleware

    A shallow embedding of [server/routes/tasks.js] (the six task
    handlers) and [server/middleware/authMiddleware.js], together with
    the parts of the document store the handlers call; then of the
    server entry point ([connectDB] and the exported handler), and of
    the client: token storage and interceptors, route guards, the task
    list and the task dialog.

    Conventions of the embedding.
    - A request body field is a JSON scalar as JavaScript sees it
      ([JsVal]); [truthy] is JavaScript's boolean coercion.
    - JavaScript exceptions are an error monad ([Completion]): a
      computation finishes normally or throws an error that carries its
      [name], the only property the [catch] blocks inspect.
    - The document store is explicit state ([DB]): two collections kept
      in insertion order.  A handler maps a store to a store and a
      response.
    - What the JavaScript engine and the libraries decide (which strings
      are dates, which tokens verify, which strings are object
      identifiers) is the interface [Runtime].
    - A task is the fields the handlers read and write: identifier,
      owner, title, description, due date, status, priority.  What a
      stored document holds besides them (its timestamps, its version
      key) the handlers never read; the list route can sort by it, and
      for that the runtime gives the value of any other path of a
      document ([otherPath]).
    - Numbers of the browser (the menu position of the task list) are
      binary64 floating-point numbers ([spec_float] at precision 53).

    Not modelled: a failure of the store itself (a lost connection),
    objects and arrays as values of a body field or of a query
    parameter, and how the store moves its own timestamps on a write. *)

From Stdlib Require Import ZArith NArith Ascii String List DecimalString.
From stdpp Require Import base decidable option list sorting strings.
From Stdlib Require Import SpecFloat.
From stdpp Require Import gmap.

Open Scope string_scope.
Open Scope Z_scope.

(** ** JavaScript values and exceptions *)

Inductive JsVal : Type :=
| JUndefined
| JNull
| JBool (b : bool)
| JNum (n : Z)
| JStr (s : string).

(** [!!v] of JavaScript. *)
Definition truthy (v : JsVal) : bool :=
  match v with
  | JUndefined | JNull => false
  | JBool b => b
  | JNum n => negb (n =? 0)
  | JStr s => negb (String.eqb s "")
  end.

(** [a || b] of JavaScript. *)
Definition js_or (a b : JsVal) : JsVal := if truthy a then a else b.

Inductive Completion (A : Type) : Type :=
| Normal (a : A)
| Throw (name : string).
Arguments Normal {A} a.
Arguments Throw {A} name.

(** The error monad, with stdpp's [x ← c; k] notation. *)
#[global] Instance Completion_ret : MRet Completion := fun A a => Normal a.
#[global] Instance Completion_bind : MBind Completion := fun A B k c =>
  match c with
  | Normal a => k a
  | Throw e => Throw e
  end.

(** ** Strings: [trim], [startsWith], [substring] *)

(** White space and line terminators of ECMAScript among the code units
    below 256: TAB, LF, VT, FF, CR, SP and NBSP. *)
Definition isWhiteSpace (a : ascii) : bool :=
  let n := N_of_ascii a in
  ((9 <=? n)%N && (n <=? 13)%N) || (n =? 32)%N || (n =? 160)%N.

Fixpoint trimStart (s : string) : string :=
  match s with
  | EmptyString => EmptyString
  | String a s' => if isWhiteSpace a then trimStart s' else s
  end.

Fixpoint trimEnd (s : string) : string :=
  match s with
  | EmptyString => EmptyString
  | String a s' =>
      match trimEnd s' with
      | EmptyString => if isWhiteSpace a then EmptyString else String a EmptyString
      | r => String a r
      end
  end.

Definition String_trim (s : string) : string := trimEnd (trimStart s).

(** [v.trim()]: a method of strings only; on anything else the call
    throws a [TypeError]. *)
Definition trim (v : JsVal) : Completion string :=
  match v with
  | JStr s => Normal (String_trim s)
  | _ => Throw "TypeError"
  end.

Fixpoint startsWith (s p : string) {struct p} : bool :=
  match p with
  | EmptyString => true
  | String b p' =>
      match s with
      | EmptyString => false
      | String a s' => Ascii.eqb a b && startsWith s' p'
      end
  end.

(** [s.substring(n)]. *)
Fixpoint substring (s : string) (n : nat) {struct n} : string :=
  match n with
  | O => s
  | S n' => match s with EmptyString => EmptyString | String _ s' => substring s' n' end
  end.

(** [Number.prototype.toString] on an integer. *)
Definition Number_toString (n : Z) : string :=
  match n with
  | Z0 => "0"
  | Zpos p => NilEmpty.string_of_uint (Pos.to_uint p)
  | Zneg p => String "-" (NilEmpty.string_of_uint (Pos.to_uint p))
  end.

(** An object identifier of the store: the 96-bit value. *)
Definition ObjectId : Type := N.

(** ** Values of the store and their sort order *)

(** The value of a document path as the store compares it when sorting.
    A path the document does not have reads as [BNull]. *)
Inductive BsonVal : Type :=
| BNull
| BNumber (n : Z)
| BString (s : string)
| BObjectId (o : ObjectId)
| BDate (ms : Z).

(** The store's order across types: null, then numbers, then strings,
    then object identifiers, then dates. *)
Definition bson_rank (v : BsonVal) : N :=
  match v with
  | BNull => 1
  | BNumber _ => 2
  | BString _ => 3
  | BObjectId _ => 7
  | BDate _ => 9
  end.

(** Strings compare code unit by code unit; a proper prefix is smaller. *)
Fixpoint string_leb (a b : string) : bool :=
  match a, b with
  | EmptyString, _ => true
  | String _ _, EmptyString => false
  | String x a', String y b' =>
      if (N_of_ascii x <? N_of_ascii y)%N then true
      else if (N_of_ascii x =? N_of_ascii y)%N then string_leb a' b'
      else false
  end.

Definition bson_leb (a b : BsonVal) : bool :=
  match a, b with
  | BNumber x, BNumber y => x <=? y
  | BString x, BString y => string_leb x y
  | BObjectId x, BObjectId y => (x <=? y)%N
  | BDate x, BDate y => x <=? y
  | _, _ => (bson_rank a <=? bson_rank b)%N
  end.

(** ** The runtime interface *)

(** The decoded payload of a bearer token; [None]: no [userId] in it. *)
Record JwtPayload : Type := { jwt_userId : option string }.

Class Runtime : Type := {
  (** the store's cast of a string to an object identifier; [None] is
      the [CastError] *)
  castObjectId : string -> option ObjectId;
  (** [new Date(v).getTime()]; [None] is [NaN], the invalid date *)
  Date_getTime : JsVal -> option Z;
  (** [jwt.verify(token, process.env.JWT_SECRET)] *)
  jwt_verify : string -> Completion JwtPayload;
  (** whether the store takes a string that is not empty as the path of
      a sort; the query fails when it does not *)
  sortPath : string -> bool;
  (** what the task document with this identifier holds under a path
      that is none of the seven of [Task.t] ([createdAt], [updatedAt],
      [__v], ...); [BNull] where it holds nothing *)
  otherPath : string -> ObjectId -> BsonVal
}.

(** ** Generic collection helpers *)

Fixpoint remove_first {A} (p : A -> bool) (l : list A) : list A :=
  match l with
  | [] => []
  | x :: l' => if p x then l' else x :: remove_first p l'
  end.

Fixpoint update_first {A} (p : A -> bool) (f : A -> A) (l : list A) : list A :=
  match l with
  | [] => []
  | x :: l' => if p x then f x :: l' else x :: update_first p f l'
  end.

(** The store's cast of a value to a string path.  [None] stands for
    [null] and [undefined], which are left as they are. *)
Definition castString (v : JsVal) : option string :=
  match v with
  | JUndefined | JNull => None
  | JBool true => Some "true"
  | JBool false => Some "false"
  | JNum n => Some (Number_toString n)
  | JStr s => Some s
  end.

(** ** The User model *)

Module User.

Record t : Type := {
  _id : ObjectId;
  username : string;
  email : string;
  password : string
}.

(** What leaves the model: [select('-password')], and the
    ['username email'] projection of [populate]. *)
Record view : Type := {
  v_id : ObjectId;
  v_username : string;
  v_email : string
}.

Definition select (u : t) : view :=
  {| v_id := _id u; v_username := username u; v_email := email u |}.

Definition has_id (i : ObjectId) (u : t) : bool := (_id u =? i)%N.

Section Queries.
Context {rt : Runtime}.

(** [User.findById(id).select('-password')].  [findById(undefined)] is
    the query for a null identifier, which no document has. *)
Definition findById (coll : list t) (id : option string) : Completion (option view) :=
  match id with
  | None => Normal None
  | Some s =>
      match castObjectId s with
      | None => Throw "CastError"
      | Some i => Normal (select <$> List.find (has_id i) coll)
      end
  end.

End Queries.
End User.

(** ** The Task model *)

Module Task.

Record t : Type := {
  _id : ObjectId;
  userId : ObjectId;
  title : string;
  description : string;
  dueDate : Z;
  status : string;
  priority : string
}.

Definition statusEnum : list string := ["pending"; "in-progress"; "completed"].
Definition priorityEnum : list string := ["low"; "medium"; "high"].

Definition member (s : string) (l : list string) : bool :=
  existsb (String.eqb s) l.

(** Modelled from the spec: the validators of the Task schema
    ([server/models/Task.js], not among the sources): title non-empty
    and at most 200 characters, description at most 1000 characters,
    status one of pending | in-progress | completed, priority one of
    low | medium | high. *)
Definition validate (d : t) : bool :=
  (0 <? String.length (title d))%nat
  && (String.length (title d) <=? 200)%nat
  && (String.length (description d) <=? 1000)%nat
  && member (status d) statusEnum
  && member (priority d) priorityEnum.

(** A task as the responses carry it: [populate('userId', 'username
    email')] replaces the owner reference by the owner's view, or by
    null when the user is gone. *)
Record populated : Type := {
  doc : t;
  owner : option User.view
}.

Definition populate (us : list User.t) (d : t) : populated :=
  {| doc := d; owner := User.select <$> List.find (User.has_id (userId d)) us |}.

(** The query object of the list route: the owner, and the status when
    one was given. *)
Record Query : Type := {
  q_userId : ObjectId;
  q_status : option string
}.

Definition matches (q : Query) (d : t) : bool :=
  (userId d =? q_userId q)%N
  && match q_status q with
     | Some s => String.eqb (status d) s
     | None => true
     end.

(** The filter [{ _id: id, userId: owner }]. *)
Definition owned_by (id owner : ObjectId) (d : t) : bool :=
  (_id d =? id)%N && (userId d =? owner)%N.

Definition has_id (id : ObjectId) (d : t) : bool := (_id d =? id)%N.

Definition set_status (s : string) (d : t) : t :=
  {| _id := _id d; userId := userId d; title := title d;
     description := description d; dueDate := dueDate d;
     status := s; priority := priority d |}.

Definition set_priority (s : string) (d : t) : t :=
  {| _id := _id d; userId := userId d; title := title d;
     description := description d; dueDate := dueDate d;
     status := status d; priority := s |}.

Definition set_title (s : string) (d : t) : t :=
  {| _id := _id d; userId := userId d; title := s;
     description := description d; dueDate := dueDate d;
     status := status d; priority := priority d |}.

Definition set_description (s : string) (d : t) : t :=
  {| _id := _id d; userId := userId d; title := title d;
     description := s; dueDate := dueDate d;
     status := status d; priority := priority d |}.

Definition set_dueDate (ms : Z) (d : t) : t :=
  {| _id := _id d; userId := userId d; title := title d;
     description := description d; dueDate := ms;
     status := status d; priority := priority d |}.

(** [new Task({ userId, title, description, dueDate, status, priority })]
    with the identifier the constructor generates.  The string paths
    cast what they are given; the schema defaults fill a path left
    undefined. *)
Definition new (id owner : ObjectId) (ti de : string) (due : Z) (st pr : JsVal) : t :=
  {| _id := id; userId := owner; title := ti; description := de; dueDate := due;
     status := default "pending" (castString st);
     priority := default "medium" (castString pr) |}.

(** [new Task(...).save()]: validation, then the insert, which the
    unique index on [_id] refuses for an identifier already present. *)
Definition insert (coll : list t) (d : t) : Completion (list t) :=
  if negb (validate d) then Throw "ValidationError"
  else if existsb (has_id (_id d)) coll then Throw "MongoServerError"
  else Normal (coll ++ [d])%list.

(** [task.save()] on a loaded document: validation, then the update of
    the document with that [_id]. *)
Definition save (coll : list t) (d : t) : Completion (list t) :=
  if negb (validate d) then Throw "ValidationError"
  else Normal (update_first (has_id (_id d)) (fun _ => d) coll).

Section Queries.
Context {rt : Runtime}.

(** The value of a path of the document, for sorting. *)
Definition get (path : string) (d : t) : BsonVal :=
  if String.eqb path "_id" then BObjectId (_id d)
  else if String.eqb path "userId" then BObjectId (userId d)
  else if String.eqb path "title" then BString (title d)
  else if String.eqb path "description" then BString (description d)
  else if String.eqb path "dueDate" then BDate (dueDate d)
  else if String.eqb path "status" then BString (status d)
  else if String.eqb path "priority" then BString (priority d)
  else otherPath path (_id d).

(** [{ [path]: dir }]: ascending for a positive [dir], descending
    otherwise. *)
Definition sort_le (path : string) (dir : Z) (a b : t) : Prop :=
  if 0 <? dir then bson_leb (get path a) (get path b)
  else bson_leb (get path b) (get path a).

#[global] Instance sort_le_dec path dir a b : Decision (sort_le path dir a b).
Proof. unfold sort_le. destruct (0 <? dir); apply _. Defined.

(** Whether the store takes [path] as the path of a sort: never the
    empty path; for the others the runtime says. *)
Definition sortable (path : string) : bool :=
  negb (String.eqb path "") && sortPath path.

(** [Task.find(query).sort(sortObject)]: the query fails when the store
    refuses the path of the sort.  The store does not say in which order
    it returns documents that compare equal; the sort here fixes one. *)
Definition find (coll : list t) (q : Query) (path : string) (dir : Z)
  : Completion (list t) :=
  if sortable path
  then Normal (merge_sort (sort_le path dir) (List.filter (matches q) coll))
  else Throw "MongoServerError".

(** [Task.findOne({ _id: id, userId: owner })]. *)
Definition findOne (coll : list t) (id : string) (owner : ObjectId)
  : Completion (option t) :=
  match castObjectId id with
  | None => Throw "CastError"
  | Some i => Normal (List.find (owned_by i owner) coll)
  end.

(** [Task.findOneAndDelete({ _id: id, userId: owner })]: the removed
    document and the collection without it. *)
Definition findOneAndDelete (coll : list t) (id : string) (owner : ObjectId)
  : Completion (option t * list t) :=
  match castObjectId id with
  | None => Throw "CastError"
  | Some i =>
      Normal (List.find (owned_by i owner) coll, remove_first (owned_by i owner) coll)
  end.

(** [Task.findOneAndUpdate({ _id: id, userId: owner }, { status },
    { new: true, runValidators: true })]: the filter is cast, then the
    update is cast and its validators run, then the first matching
    document is updated and returned as updated. *)
Definition findOneAndUpdate (coll : list t) (id : string) (owner : ObjectId)
    (st : JsVal) : Completion (option t * list t) :=
  match castObjectId id with
  | None => Throw "CastError"
  | Some i =>
      match castString st with
      | None => Normal (List.find (owned_by i owner) coll, coll)
      | Some s =>
          if negb (member s statusEnum) then Throw "ValidationError"
          else Normal (set_status s <$> List.find (owned_by i owner) coll,
                       update_first (owned_by i owner) (set_status s) coll)
      end
  end.

End Queries.
End Task.

(** ** The store *)

Record DB : Type := {
  users : list User.t;
  tasks : list Task.t
}.

Definition with_tasks (db : DB) (ts : list Task.t) : DB :=
  {| users := users db; tasks := ts |}.

(** ** Requests and responses *)

Inductive Payload : Type :=
| NoPayload
| RawTask (task : Task.t)
| OneTask (task : Task.populated)
| ManyTasks (tasks : list Task.populated) (count : nat).

(** [res.status(code).json({ message, ... })]. *)
Record Response : Type := {
  statusCode : Z;
  message : string;
  payload : Payload
}.

Definition json (c : Z) (m : string) : Response :=
  {| statusCode := c; message := m; payload := NoPayload |}.

Definition json_task (c : Z) (m : string) (us : list User.t) (d : Task.t) : Response :=
  {| statusCode := c; message := m; payload := OneTask (Task.populate us d) |}.

(** [req.body] of the task routes, one JSON scalar per field read. *)
Record Body : Type := {
  title : JsVal;
  description : JsVal;
  dueDate : JsVal;
  status : JsVal;
  priority : JsVal
}.

(** A body with one field replaced. *)
Definition with_title (v : JsVal) (b : Body) : Body :=
  {| title := v; description := description b; dueDate := dueDate b;
     status := status b; priority := priority b |}.

Definition with_description (v : JsVal) (b : Body) : Body :=
  {| title := title b; description := v; dueDate := dueDate b;
     status := status b; priority := priority b |}.

Definition with_dueDate (v : JsVal) (b : Body) : Body :=
  {| title := title b; description := description b; dueDate := v;
     status := status b; priority := priority b |}.

Definition with_status (v : JsVal) (b : Body) : Body :=
  {| title := title b; description := description b; dueDate := dueDate b;
     status := v; priority := priority b |}.

Definition with_priority (v : JsVal) (b : Body) : Body :=
  {| title := title b; description := description b; dueDate := dueDate b;
     status := status b; priority := v |}.

(** The body [{}]. *)
Definition empty_body : Body :=
  {| title := JUndefined; description := JUndefined; dueDate := JUndefined;
     status := JUndefined; priority := JUndefined |}.

(** [req.query] of the list route; [None]: the parameter is not in the
    URL. *)
Record ListQuery : Type := {
  lq_status : option string;
  lq_sortBy : option string;
  lq_order : option string
}.

(** [try { body } catch (error) { handler }]: an exception leaves the
    store as the handler found it. *)
Definition try_catch (db : DB) (body : Completion (DB * Response))
    (handler : string -> Response) : DB * Response :=
  match body with
  | Normal r => r
  | Throw e => (db, handler e)
  end.

(** The [catch] block of the routes with an [:id]. *)
Definition catch_id (m : string) (e : string) : Response :=
  if String.eqb e "CastError" then json 400 "Invalid task ID" else json 500 m.

Section Routes.
Context {rt : Runtime}.

(** *** [authMiddleware] *)

(** The outcome is a response, or the user attached to the request when
    [next()] is called. *)
Definition authMiddleware (db : DB) (authHeader : option string) : Response + User.view :=
  match authHeader with
  | None => inl (json 401 "No token provided, authorization denied")
  | Some h =>
      if String.eqb h "" then inl (json 401 "No token provided, authorization denied")
      else if negb (startsWith h "Bearer ") then inl (json 401 "Invalid token format")
      else
        let token := substring h 7 in
        if String.eqb token "" then inl (json 401 "No token provided, authorization denied")
        else
          match (decoded ← jwt_verify token;
                 User.findById (users db) (jwt_userId decoded)) with
          | Normal None => inl (json 401 "Token is not valid")
          | Normal (Some user) => inr user
          | Throw e =>
              if String.eqb e "JsonWebTokenError" then inl (json 401 "Token is not valid")
              else if String.eqb e "TokenExpiredError" then inl (json 401 "Token has expired")
              else inl (json 500 "Server error in authentication")
          end
  end.

(** *** [router.get('/')] *)

Definition router_get (db : DB) (user : User.view) (q : ListQuery) : DB * Response :=
  try_catch db
    (let sortBy := default "dueDate" (lq_sortBy q) in
     let order := default "asc" (lq_order q) in
     let query :=
       {| Task.q_userId := User.v_id user;
          Task.q_status :=
            match lq_status q with
            | Some s => if truthy (JStr s) then Some s else None
            | None => None
            end |} in
     let dir := if String.eqb order "desc" then -1 else 1 in
     found ← Task.find (tasks db) query sortBy dir;
     let ts := Task.populate (users db) <$> found in
     Normal (db, {| statusCode := 200; message := "Tasks retrieved successfully";
                    payload := ManyTasks ts (length ts) |}))
    (fun _ => json 500 "Server error while fetching tasks").

(** *** [router.get('/:id')] *)

Definition router_get_id (db : DB) (user : User.view) (id : string) : DB * Response :=
  try_catch db
    (found ← Task.findOne (tasks db) id (User.v_id user);
     match found with
     | None => Normal (db, json 404 "Task not found")
     | Some task =>
         Normal (db, json_task 200 "Task retrieved successfully" (users db) task)
     end)
    (catch_id "Server error while fetching task").

(** *** [router.post('/')] *)

(** [newId] is the identifier [new Task] generates. *)
Definition router_post (db : DB) (user : User.view) (newId : ObjectId) (body : Body)
  : DB * Response :=
  try_catch db
    (if negb (truthy (title body)) || negb (truthy (dueDate body)) then
       Normal (db, json 400 "Title and due date are required")
     else
       match Date_getTime (dueDate body) with
       | None => Normal (db, json 400 "Invalid due date format")
       | Some dueDateObj =>
           ti ← trim (title body);
           de ← (if truthy (description body) then trim (description body)
                 else Normal "");
           let task :=
             Task.new newId (User.v_id user) ti de dueDateObj
               (js_or (status body) (JStr "pending"))
               (js_or (priority body) (JStr "medium")) in
           coll ← Task.insert (tasks db) task;
           Normal (with_tasks db coll,
                   json_task 201 "Task created successfully" (users db) task)
       end)
    (fun _ => json 500 "Server error while creating task").

(** *** [router.put('/:id')] *)

(** [task.status = status] and [task.priority = priority]: the path
    casts the value assigned. *)
Definition assign (set : string -> Task.t -> Task.t) (v : JsVal) (task : Task.t) : Task.t :=
  match castString v with
  | Some s => set s task
  | None => task
  end.

(** The field updates of the route, one definition per line of the
    source: [if (title) task.title = title.trim();] and so on. *)
Definition update_title (body : Body) (task : Task.t) : Completion Task.t :=
  if truthy (title body) then
    ti ← trim (title body); Normal (Task.set_title ti task)
  else Normal task.

Definition update_description (body : Body) (task : Task.t) : Completion Task.t :=
  match description body with
  | JUndefined => Normal task
  | d => de ← trim d; Normal (Task.set_description de task)
  end.

Definition update_status (body : Body) (task : Task.t) : Task.t :=
  if truthy (status body) then assign Task.set_status (status body) task else task.

Definition update_priority (body : Body) (task : Task.t) : Task.t :=
  if truthy (priority body) then assign Task.set_priority (priority body) task else task.

Definition update_fields (body : Body) (task : Task.t) : Completion Task.t :=
  task1 ← update_title body task;
  task2 ← update_description body task1;
  Normal (update_priority body (update_status body task2)).

Definition router_put (db : DB) (user : User.view) (id : string) (body : Body)
  : DB * Response :=
  try_catch db
    (found ← Task.findOne (tasks db) id (User.v_id user);
     match found with
     | None => Normal (db, json 404 "Task not found")
     | Some task =>
         let validated :=
           if truthy (dueDate body) then
             match Date_getTime (dueDate body) with
             | None => None
             | Some dueDateObj => Some (Task.set_dueDate dueDateObj task)
             end
           else Some task in
         match validated with
         | None => Normal (db, json 400 "Invalid due date format")
         | Some task0 =>
             task' ← update_fields body task0;
             coll ← Task.save (tasks db) task';
             Normal (with_tasks db coll,
                     json_task 200 "Task updated successfully" (users db) task')
         end
     end)
    (catch_id "Server error while updating task").

(** *** [router.delete('/:id')] *)

Definition router_delete (db : DB) (user : User.view) (id : string) : DB * Response :=
  try_catch db
    (r ← Task.findOneAndDelete (tasks db) id (User.v_id user);
     match r.1 with
     | None => Normal (with_tasks db r.2, json 404 "Task not found")
     | Some task =>
         Normal (with_tasks db r.2,
                 {| statusCode := 200; message := "Task deleted successfully";
                    payload := RawTask task |})
     end)
    (catch_id "Server error while deleting task").

(** *** [router.patch('/:id/status')] *)

Definition router_patch_status (db : DB) (user : User.view) (id : string) (body : Body)
  : DB * Response :=
  try_catch db
    (if negb (truthy (status body)) then Normal (db, json 400 "Status is required")
     else
       r ← Task.findOneAndUpdate (tasks db) id (User.v_id user) (status body);
       match r.1 with
       | None => Normal (with_tasks db r.2, json 404 "Task not found")
       | Some task =>
           Normal (with_tasks db r.2,
                   json_task 200 "Task status updated successfully" (users db) task)
       end)
    (catch_id "Server error while updating task status").

(** *** The router: [router.use(authMiddleware)], then the route *)

Inductive Request : Type :=
| GET_tasks (q : ListQuery)
| GET_task (id : string)
| POST_task (body : Body)
| PUT_task (id : string) (body : Body)
| DELETE_task (id : string)
| PATCH_task_status (id : string) (body : Body).

Definition handle (db : DB) (user : User.view) (newId : ObjectId) (req : Request)
  : DB * Response :=
  match req with
  | GET_tasks q => router_get db user q
  | GET_task id => router_get_id db user id
  | POST_task body => router_post db user newId body
  | PUT_task id body => router_put db user id body
  | DELETE_task id => router_delete db user id
  | PATCH_task_status id body => router_patch_status db user id body
  end.

Definition router (db : DB) (authHeader : option string) (newId : ObjectId)
    (req : Request) : DB * Response :=
  match authMiddleware db authHeader with
  | inl resp => (db, resp)
  | inr user => handle db user newId req
  end.

End Routes.

(** ** A sample runtime and sample data *)

Module Sample.

Definition hexDigit (a : ascii) : option N :=
  let n := N_of_ascii a in
  if ((48 <=? n) && (n <=? 57))%N then Some (n - 48)%N
  else if ((97 <=? n) && (n <=? 102))%N then Some (n - 87)%N
  else if ((65 <=? n) && (n <=? 70))%N then Some (n - 55)%N
  else None.

Fixpoint hexValue (s : string) (acc : N) : option N :=
  match s with
  | EmptyString => Some acc
  | String a s' =>
      match hexDigit a with
      | Some d => hexValue s' (16 * acc + d)%N
      | None => None
      end
  end.

(** Twenty-four hexadecimal digits, in either case. *)
Definition hexObjectId (s : string) : option ObjectId :=
  if (String.length s =? 24)%nat then hexValue s 0%N else None.

(** A few values of the [Date] constructor: two ISO strings, and the
    numbers within the range of time values. *)
Definition sampleDate (v : JsVal) : option Z :=
  match v with
  | JStr s =>
      if String.eqb s "2030-01-01T00:00:00Z" then Some 1893456000000
      else if String.eqb s "2030-01-02T00:00:00Z" then Some 1893542400000
      else None
  | JNum n => if (Z.abs n <=? 8640000000000000) then Some n else None
  | JBool true => Some 1
  | JBool false | JNull => Some 0
  | JUndefined => None
  end.

(** A stand-in for the signature check: [ok.<userId>] verifies,
    [old.<userId>] is a token past its expiry, anything else is
    malformed. *)
Definition sampleVerify (token : string) : Completion JwtPayload :=
  if startsWith token "ok." then Normal {| jwt_userId := Some (substring token 3) |}
  else if startsWith token "old." then Throw "TokenExpiredError"
  else Throw "JsonWebTokenError".

(** The sample store takes every path that is not empty. *)
Definition sampleSortPath (path : string) : bool := true.

(** The sample documents were created one millisecond apart in the
    order of their identifiers and never written again. *)
Definition sampleOtherPath (path : string) (id : ObjectId) : BsonVal :=
  if String.eqb path "createdAt" then BDate (1890000000000 + Z.of_N id)
  else if String.eqb path "updatedAt" then BDate (1890000000000 + Z.of_N id)
  else if String.eqb path "__v" then BNumber 0
  else BNull.

Definition runtime : Runtime :=
  {| castObjectId := hexObjectId;
     Date_getTime := sampleDate;
     jwt_verify := sampleVerify;
     sortPath := sampleSortPath;
     otherPath := sampleOtherPath |}.

Definition aliceId : string := "0000000000000000000000a1".
Definition bobId : string := "0000000000000000000000b2".
Definition taskId : string := "00000000000000000000f001".

Definition alice : User.t :=
  {| User._id := 161%N; User.username := "alice"; User.email := "alice@x.com";
     User.password := "$2a$10$hash-a" |}.

Definition bob : User.t :=
  {| User._id := 178%N; User.username := "bob"; User.email := "bob@x.com";
     User.password := "$2a$10$hash-b" |}.

Definition report : Task.t :=
  {| Task._id := 61441%N; Task.userId := 161%N; Task.title := "Write report";
     Task.description := "quarterly"; Task.dueDate := 1893456000000;
     Task.status := "pending"; Task.priority := "medium" |}.

Definition db : DB := {| users := [alice; bob]; tasks := [report] |}.

(** A store with three tasks of alice's and one of bob's, in an
    insertion order that is the order of none of their fields. *)
Definition groceries : Task.t :=
  {| Task._id := 61442%N; Task.userId := 161%N; Task.title := "Buy groceries";
     Task.description := ""; Task.dueDate := 1893542400000;
     Task.status := "completed"; Task.priority := "low" |}.

Definition invoice : Task.t :=
  {| Task._id := 61443%N; Task.userId := 178%N; Task.title := "Send invoice";
     Task.description := "to the client"; Task.dueDate := 1893456000000;
     Task.status := "pending"; Task.priority := "high" |}.

Definition slides : Task.t :=
  {| Task._id := 61444%N; Task.userId := 161%N; Task.title := "Prepare slides";
     Task.description := "for Monday"; Task.dueDate := 1893369600000;
     Task.status := "in-progress"; Task.priority := "high" |}.

Definition board : DB :=
  {| users := [alice; bob]; tasks := [report; groceries; invoice; slides] |}.

(** Request bodies. *)
Definition new_task_body : Body :=
  with_dueDate (JStr "2030-01-02T00:00:00Z")
    (with_title (JStr "  Write tests ") empty_body).

Definition numeric_title_body : Body :=
  with_dueDate (JStr "2030-01-02T00:00:00Z") (with_title (JNum 5) empty_body).

Definition bogus_status_body : Body := with_status (JStr "bogus") new_task_body.

Definition empty_status_body : Body := with_status (JStr "") new_task_body.

End Sample.

(** ** Invariants of the store and observations on responses *)

(** The unique index on the task identifiers. *)
Definition unique_ids (db : DB) : Prop := NoDup (Task._id <$> tasks db).

(** Every stored task satisfies the schema. *)
Definition valid_docs (db : DB) : Prop :=
  Forall (fun d => Task.validate d = true) (tasks db).

(** The tasks of somebody else than [caller]. *)
Definition foreign (caller : ObjectId) (d : Task.t) : bool :=
  negb (Task.userId d =? caller)%N.

(** The task documents a response carries. *)
Definition response_tasks (r : Response) : list Task.t :=
  match payload r with
  | NoPayload => []
  | RawTask d => [d]
  | OneTask p => [Task.doc p]
  | ManyTasks ps _ => Task.doc <$> ps
  end.

(** What the owner scoping promises of one request by [caller]: every
    task in the response is the caller's, the tasks of everybody else
    are in the store as they were, and so are the users. *)
Definition isolated (caller : ObjectId) (db : DB) (out : DB * Response) : Prop :=
  (forall d, d ∈ response_tasks out.2 -> Task.userId d = caller)
  /\ List.filter (foreign caller) (tasks out.1) = List.filter (foreign caller) (tasks db)
  /\ users out.1 = users db.

(** The string a create request gives for a field, or [dflt] when the
    field is absent or empty. *)
Definition str_or (dflt : string) (v : JsVal) : string :=
  match v with
  | JStr s => if String.eqb s "" then dflt else s
  | _ => dflt
  end.

(** A field that is absent or a string. *)
Definition opt_string (v : JsVal) : Prop :=
  v = JUndefined \/ exists s, v = JStr s.

(** A string that does not begin with white space. *)
Definition starts_clean (s : string) : Prop :=
  match s with
  | EmptyString => True
  | String a _ => isWhiteSpace a = false
  end.

(** ** Sequences of requests *)

(** One request as the router receives it: the Authorization header,
    the identifier [new Task] would generate, and the route. *)
Record Call : Type := {
  call_header : option string;
  call_newId : ObjectId;
  call_request : Request
}.

Section Runs.
Context {rt : Runtime}.

(** The store after the requests of [calls], served one after the
    other. *)
Fixpoint run (db : DB) (calls : list Call) : DB :=
  match calls with
  | [] => db
  | c :: calls' =>
      run (router db (call_header c) (call_newId c) (call_request c)).1 calls'
  end.

End Runs.

(** ** The server entry point ([api/index.js]) *)

Module Server.

(** What the exported handler does with one request: hand it to the
    Express application, or answer 500 with [{ message, error }]. *)
Inductive Reply : Type :=
| Served
| InternalError (message error : string).

(** [connectDB] on the module variable [isConnected].  [mongoURI] is
    [process.env.MONGODB_URI]; [connect uri] is what
    [mongoose.connect(uri)] does at this call: [None] when it resolves,
    the message of its error when it rejects.  The result is the new
    [isConnected], the number of calls of [mongoose.connect], and the
    message of the error thrown, if any. *)
Definition connectDB (isConnected : bool) (mongoURI : option string)
    (connect : string -> option string) : bool * nat * option string :=
  if isConnected then (true, 0%nat, None)
  else
    match mongoURI with
    | None => (false, 0%nat, Some "MONGODB_URI environment variable is not defined")
    | Some uri =>
        if String.eqb uri "" then
          (false, 0%nat, Some "MONGODB_URI environment variable is not defined")
        else
          match connect uri with
          | None => (true, 1%nat, None)
          | Some e => (false, 1%nat, Some e)
          end
    end.

(** The exported serverless handler: [await connectDB(); return
    app(req, res)] inside [try], the 500 answer in [catch]. *)
Definition handler (isConnected : bool) (mongoURI : option string)
    (connect : string -> option string) : bool * nat * Reply :=
  match connectDB isConnected mongoURI connect with
  | (flag, calls, None) => (flag, calls, Served)
  | (flag, calls, Some e) => (flag, calls, InternalError "Internal server error" e)
  end.

(** The handler over the requests of one process, handled one after
    the other, each with what [mongoose.connect] would do at that time:
    the replies with the calls of [mongoose.connect] each request made,
    and the final [isConnected]. *)
Fixpoint serve (isConnected : bool) (mongoURI : option string)
    (connects : list (string -> option string)) : list (nat * Reply) * bool :=
  match connects with
  | [] => ([], isConnected)
  | connect :: rest =>
      let '(flag, calls, reply) := handler isConnected mongoURI connect in
      let '(replies, final) := serve flag mongoURI rest in
      ((calls, reply) :: replies, final)
  end.

End Server.

(** ** The client: token storage and interceptors ([services/api.js]),
    route guards ([App.tsx]) *)

Module Client.

(** [localStorage], and the one default header the module writes,
    [api.defaults.headers.common['Authorization']]. *)
Record Api : Type := {
  localStorage : gmap string string;
  defaultAuthorization : option string
}.

(** [!!localStorage.getItem(key)]. *)
Definition has_item (key : string) (st : Api) : bool :=
  match localStorage st !! key with
  | Some v => negb (String.eqb v "")
  | None => false
  end.

(** [tokenUtils.setToken]. *)
Definition setToken (token : string) (st : Api) : Api :=
  {| localStorage := <["token" := token]> (localStorage st);
     defaultAuthorization := Some ("Bearer " ++ token) |}.

(** [tokenUtils.removeToken]. *)
Definition removeToken (st : Api) : Api :=
  {| localStorage := delete "user" (delete "token" (localStorage st));
     defaultAuthorization := None |}.

(** [tokenUtils.getToken]. *)
Definition getToken (st : Api) : option string := localStorage st !! "token".

(** [tokenUtils.isAuthenticated]. *)
Definition isAuthenticated (st : Api) : bool := has_item "token" st.

(** [userUtils.removeUser]. *)
Definition removeUser (st : Api) : Api :=
  {| localStorage := delete "user" (localStorage st);
     defaultAuthorization := defaultAuthorization st |}.

(** The request interceptor, on the Authorization header of the
    configuration it is given. *)
Definition request_interceptor (st : Api) (authorization : option string) : option string :=
  match localStorage st !! "token" with
  | Some token => if negb (String.eqb token "") then Some ("Bearer " ++ token)
                  else authorization
  | None => authorization
  end.

(** The error branch of the response interceptor.  [status] is
    [error.response?.status], [pathname] is [window.location.pathname];
    the result is the storage afterwards and the address assigned to
    [window.location.href], if any. *)
Definition response_error_interceptor (st : Api) (status : option Z) (pathname : string)
  : Api * option string :=
  match status with
  | Some 401 =>
      ({| localStorage := delete "user" (delete "token" (localStorage st));
          defaultAuthorization := defaultAuthorization st |},
       if negb (String.eqb pathname "/login") && negb (String.eqb pathname "/signup")
       then Some "/login" else None)
  | _ => (st, None)
  end.

(** The routes of [App]. *)
Inductive Route : Type :=
| LoginRoute
| SignupRoute
| DashboardRoute
| RootRoute
| CatchAllRoute.

(** What a route renders: its page, or [<Navigate to=... replace />]. *)
Inductive Element : Type :=
| Page
| Navigate (to : Route).

(** [ProtectedRoute] and [PublicRoute]; the targets "/login" and
    "/dashboard" are the routes of those paths. *)
Definition ProtectedRoute (st : Api) : Element :=
  if isAuthenticated st then Page else Navigate LoginRoute.

Definition PublicRoute (st : Api) : Element :=
  if negb (isAuthenticated st) then Page else Navigate DashboardRoute.

Definition render (r : Route) (st : Api) : Element :=
  match r with
  | LoginRoute | SignupRoute => PublicRoute st
  | DashboardRoute => ProtectedRoute st
  | RootRoute | CatchAllRoute =>
      Navigate (if isAuthenticated st then DashboardRoute else LoginRoute)
  end.

End Client.

(** ** The task list of the client ([components/TaskList.tsx]) *)

Module TaskList.

(** [filteredTasks]. *)
Definition filteredTasks (tasks : list Task.t) (statusFilter : string) : list Task.t :=
  List.filter
    (fun task => String.eqb statusFilter "all"
                 || String.eqb (Task.status task) statusFilter)
    tasks.

(** [groupedTasks]. *)
Record Grouped : Type := {
  pending : list Task.t;
  in_progress : list Task.t;
  completed : list Task.t
}.

Definition groupedTasks (filtered : list Task.t) : Grouped :=
  {| pending := List.filter (fun task => String.eqb (Task.status task) "pending") filtered;
     in_progress :=
       List.filter (fun task => String.eqb (Task.status task) "in-progress") filtered;
     completed :=
       List.filter (fun task => String.eqb (Task.status task) "completed") filtered |}.

(** [getStatusActions]: the label of each action and the status its
    [onClick] passes to [onStatusChange]. *)
Definition getStatusActions (status : string) : list (string * string) :=
  if String.eqb status "pending" then
    [("Start Task", "in-progress"); ("Mark Complete", "completed")]
  else if String.eqb status "in-progress" then
    [("Mark Complete", "completed"); ("Pause Task", "pending")]
  else if String.eqb status "completed" then
    [("Reopen Task", "pending")]
  else [].

(** The request an action ends in: [onStatusChange(task._id, status)]
    is [taskAPI.updateTaskStatus], a PATCH with the body [{ status }]. *)
Definition updateTaskStatus (taskId : string) (status : string) : Request :=
  PATCH_task_status taskId (with_status (JStr status) empty_body).

(** JavaScript numbers are binary64: [+], [-] and [<] on them, and the
    number an integer literal denotes. *)
Definition Number_add : spec_float -> spec_float -> spec_float := SFadd 53 1024.
Definition Number_sub : spec_float -> spec_float -> spec_float := SFsub 53 1024.
Definition Number_lt : spec_float -> spec_float -> bool := SFltb.
Definition num (n : Z) : spec_float := binary_normalize 53 1024 n 0 false.

(** The position [handleMenuOpen] gives the menu, from the button's
    rectangle ([rect.left], [rect.right], [rect.top]) and the viewport.
    [a > b] is [b < a]. *)
Definition handleMenuOpen (left right top viewportWidth viewportHeight : spec_float)
  : spec_float * spec_float :=
  let menuWidth := num 150 in
  let menuHeight := num 120 in
  let x := Number_sub (Number_sub left menuWidth) (num 10) in
  let y := top in
  let x := if Number_lt x (num 10) then Number_add right (num 10) else x in
  let x := if Number_lt (Number_sub viewportWidth (num 10)) (Number_add x menuWidth)
           then Number_sub (Number_sub viewportWidth menuWidth) (num 10) else x in
  let y := if Number_lt (Number_sub viewportHeight (num 10)) (Number_add y menuHeight)
           then Number_sub (Number_sub viewportHeight menuHeight) (num 10) else y in
  let y := if Number_lt y (num 10) then num 10 else y in
  let x := if Number_lt x (num 10) then num 10 else x in
  (x, y).

End TaskList.

(** ** The task dialog of the client ([components/TaskDialog.tsx]) *)

Module TaskDialog.

(** A [Dayjs] value by the two methods the dialog calls. *)
Record Dayjs : Type := {
  isValid : bool;
  toISOString : string
}.

(** [FormData]; [dueDate] is [None] when the date picker gave null. *)
Record FormData : Type := {
  title : string;
  description : string;
  dueDate : option Dayjs;
  status : string;
  priority : string
}.

Record FormErrors : Type := {
  title_error : option string;
  description_error : option string;
  dueDate_error : option string
}.

(** The errors [validateForm] sets. *)
Definition validateForm (formData : FormData) : FormErrors :=
  {| title_error :=
       if String.eqb (String_trim (title formData)) "" then Some "Title is required"
       else if (200 <? String.length (String_trim (title formData)))%nat
            then Some "Title must be less than 200 characters"
            else None;
     description_error :=
       if negb (String.eqb (description formData) "")
          && (1000 <? String.length (description formData))%nat
       then Some "Description must be less than 1000 characters"
       else None;
     dueDate_error :=
       match dueDate formData with
       | Some d => if isValid d then None else Some "Valid due date is required"
       | None => Some "Valid due date is required"
       end |}.

(** [Object.keys(newErrors).length === 0], the result of [validateForm]. *)
Definition valid (formData : FormData) : bool :=
  match validateForm formData with
  | {| title_error := None; description_error := None; dueDate_error := None |} => true
  | _ => false
  end.

(** [taskData] of [handleSubmit]. *)
Definition taskData (formData : FormData) (d : Dayjs) : Body :=
  with_title (JStr (String_trim (title formData)))
    (with_description (JStr (String_trim (description formData)))
       (with_dueDate (JStr (toISOString d))
          (with_status (JStr (status formData))
             (with_priority (JStr (priority formData)) empty_body)))).

(** The request [handleSubmit] sends, if any: nothing when the form is
    not valid, the update of [task] when the dialog edits one, the
    create otherwise. *)
Definition handleSubmit (formData : FormData) (task : option string) : option Request :=
  if valid formData then
    match dueDate formData with
    | Some d =>
        match task with
        | Some taskId => Some (PUT_task taskId (taskData formData d))
        | None => Some (POST_task (taskData formData d))
        end
    | None => None
    end
  else None.

End TaskDialog.

(** ** More sample data *)

Module Demo.

Definition alice : User.view := User.select Sample.alice.

Definition aliceHeader : option string := Some ("Bearer ok." ++ Sample.aliceId).

Definition completed_body : Body := with_status (JStr "completed") empty_body.

Definition rename_body : Body := with_title (JStr " Final report ") empty_body.

Definition day : TaskDialog.Dayjs :=
  {| TaskDialog.isValid := true; TaskDialog.toISOString := "2030-01-02T00:00:00Z" |}.

Definition form : TaskDialog.FormData :=
  {| TaskDialog.title := "  Plan sprint ";
     TaskDialog.description := " notes ";
     TaskDialog.dueDate := Some day;
     TaskDialog.status := "pending";
     TaskDialog.priority := "high" |}.

Definition created : Task.t :=
  {| Task._id := 7%N; Task.userId := 161%N; Task.title := "Write tests";
     Task.description := ""; Task.dueDate := 1893542400000;
     Task.status := "pending"; Task.priority := "medium" |}.

Definition saved : Task.t :=
  {| Task._id := 61441%N; Task.userId := 161%N; Task.title := "Plan sprint";
     Task.description := "notes"; Task.dueDate := 1893542400000;
     Task.status := "pending"; Task.priority := "high" |}.

End Demo.

(** * Properties *)

(** ** The routes on sample requests *)

(** Sign in as alice, create a task, move it to in-progress, delete it,
    and ask for it again. *)
Example scenario :
  let header := Some ("Bearer ok." ++ Sample.aliceId) in
  let db0 := with_tasks Sample.db [] in
  let '(db1, r1) :=
    router (rt := Sample.runtime) db0 header 61441%N
      (POST_task (with_dueDate (JStr "2030-01-01T00:00:00Z")
                    (with_title (JStr "Write report") empty_body))) in
  let '(db2, r2) :=
    router (rt := Sample.runtime) db1 header 61442%N
      (PATCH_task_status Sample.taskId (with_status (JStr "in-progress") empty_body)) in
  let '(db3, r3) :=
    router (rt := Sample.runtime) db2 header 61443%N (DELETE_task Sample.taskId) in
  let '(db4, r4) :=
    router (rt := Sample.runtime) db3 header 61444%N (GET_task Sample.taskId) in
  (statusCode r1, Task.status <$> response_tasks r1, Task.priority <$> response_tasks r1)
    = (201, ["pending"], ["medium"])
  /\ (statusCode r2, Task.status <$> response_tasks r2) = (200, ["in-progress"])
  /\ statusCode r3 = 200
  /\ (statusCode r4, tasks db4) = (404, []).
Proof. vm_compute. repeat split. Qed.

(** Another user's token does not reach alice's task, whatever the
    route; a date that does not parse creates nothing. *)
Example foreign_requests :
  (router (rt := Sample.runtime) Sample.db (Some ("Bearer ok." ++ Sample.bobId)) 9%N
     (DELETE_task Sample.taskId)
   = (Sample.db, json 404 "Task not found"))
  /\ (router (rt := Sample.runtime) Sample.db (Some ("Bearer ok." ++ Sample.bobId)) 9%N
       (PATCH_task_status Sample.taskId (with_status (JStr "completed") empty_body))
     = (Sample.db, json 404 "Task not found"))
  /\ (router (rt := Sample.runtime) Sample.db (Some ("Bearer ok." ++ Sample.aliceId)) 9%N
       (POST_task (with_dueDate (JStr "not-a-date")
                     (with_title (JStr "Write report") empty_body)))
     = (Sample.db, json 400 "Invalid due date format")).
Proof. vm_compute. repeat split. Qed.

(** ** Lists and strings *)

Lemma find_owned_by (l : list Task.t) (i o : ObjectId) (d : Task.t) :
  List.find (Task.owned_by i o) l = Some d ->
  d ∈ l /\ Task._id d = i /\ Task.userId d = o.
Proof.
  intros H. apply find_some in H as [Hin Hp].
  unfold Task.owned_by in Hp. apply andb_true_iff in Hp as [H1 H2].
  apply N.eqb_eq in H1, H2. split; [by apply list_elem_of_In | done].
Qed.

Lemma find_owned_by_none (l : list Task.t) (i o : ObjectId) :
  (forall d, d ∈ l -> Task._id d = i -> Task.userId d <> o) ->
  List.find (Task.owned_by i o) l = None.
Proof.
  intros H. destruct (List.find _ l) as [d|] eqn:E; [|done].
  apply find_owned_by in E as (Hin & Hi & Ho). by destruct (H d Hin Hi).
Qed.

Lemma unique_ids_eq (l : list Task.t) (x y : Task.t) :
  NoDup (Task._id <$> l) -> x ∈ l -> y ∈ l -> Task._id x = Task._id y -> x = y.
Proof.
  induction l as [|a l IH]; intros Hnd Hx Hy Hid; [by apply elem_of_nil in Hx|].
  rewrite fmap_cons in Hnd. apply NoDup_cons in Hnd as [Hnotin Hnd].
  apply elem_of_cons in Hx as [->|Hx]; apply elem_of_cons in Hy as [->|Hy];
    [done | | | by apply IH].
  - exfalso. apply Hnotin. rewrite Hid. by apply list_elem_of_fmap_2.
  - exfalso. apply Hnotin. rewrite <- Hid. by apply list_elem_of_fmap_2.
Qed.

Lemma filter_update_first {A} (q p : A -> bool) (f : A -> A) (l : list A) :
  (forall x, x ∈ l -> p x = true -> q x = false /\ q (f x) = false) ->
  List.filter q (update_first p f l) = List.filter q l.
Proof.
  induction l as [|a l IH]; intros H; [done|]. simpl.
  destruct (p a) eqn:Hp.
  - destruct (H a) as [Ha Hfa]; [by left | done |]. simpl. by rewrite Ha, Hfa.
  - simpl. rewrite IH; [done|]. intros x Hx. apply H. by right.
Qed.

Lemma filter_remove_first {A} (q p : A -> bool) (l : list A) :
  (forall x, x ∈ l -> p x = true -> q x = false) ->
  List.filter q (remove_first p l) = List.filter q l.
Proof.
  induction l as [|a l IH]; intros H; [done|]. simpl.
  destruct (p a) eqn:Hp.
  - rewrite (H a); [done | by left | done].
  - simpl. rewrite IH; [done|]. intros x Hx. apply H. by right.
Qed.

Lemma with_tasks_same (db : DB) : with_tasks db (tasks db) = db.
Proof. by destruct db. Qed.

Lemma foreign_owned (caller : ObjectId) (d : Task.t) :
  Task.userId d = caller -> foreign caller d = false.
Proof. intros <-. unfold foreign. by rewrite N.eqb_refl. Qed.

(** ** Owner scoping *)

Section Ownership.
Context {rt : Runtime}.

Lemma find_elem (coll : list Task.t) (q : Task.Query) (path : string) (dir : Z)
    (ts : list Task.t) (d : Task.t) :
  Task.find coll q path dir = Normal ts ->
  d ∈ ts <-> d ∈ coll /\ Task.matches q d = true.
Proof.
  unfold Task.find. destruct (Task.sortable path); [|done]. intros [= <-].
  rewrite merge_sort_Permutation.
  rewrite list_elem_of_In, filter_In, <- list_elem_of_In. done.
Qed.

Lemma isolated_unchanged (caller : ObjectId) (db : DB) (resp : Response) :
  response_tasks resp = [] -> isolated caller db (db, resp).
Proof.
  intros H. split; [|done]. simpl. rewrite H. intros d Hd. by apply elem_of_nil in Hd.
Qed.

Lemma isolated_catch (caller : ObjectId) (db : DB) (m e : string) :
  isolated caller db (db, catch_id m e).
Proof.
  apply isolated_unchanged. unfold catch_id. by destruct (String.eqb e _).
Qed.

Lemma router_get_isolated (db : DB) (user : User.view) (q : ListQuery) :
  isolated (User.v_id user) db (router_get db user q).
Proof.
  unfold router_get, try_catch. cbv zeta.
  destruct (Task.find _ _ _ _) as [ts|e] eqn:E; simpl; [|by apply isolated_unchanged].
  split; [|done]. simpl.
  unfold response_tasks. simpl. intros d Hd.
  rewrite <- list_fmap_compose in Hd.
  apply list_elem_of_fmap in Hd as (x & -> & Hx). simpl.
  apply (find_elem _ _ _ _ _ _ E) in Hx as [_ Hm]. unfold Task.matches in Hm. simpl in Hm.
  apply andb_true_iff in Hm as [Hm _]. by apply N.eqb_eq in Hm.
Qed.

Lemma router_get_store (db : DB) (user : User.view) (q : ListQuery) :
  (router_get db user q).1 = db.
Proof. unfold router_get, try_catch. cbv zeta. by destruct (Task.find _ _ _ _). Qed.

Lemma router_get_id_isolated (db : DB) (user : User.view) (id : string) :
  isolated (User.v_id user) db (router_get_id db user id).
Proof.
  unfold router_get_id, Task.findOne.
  destruct (castObjectId id) as [i|]; simpl; [|apply isolated_catch].
  destruct (List.find _ _) as [d|] eqn:E; simpl; [|by apply isolated_unchanged].
  apply find_owned_by in E as (_ & _ & Ho).
  split; [|done]. simpl. intros x Hx. apply list_elem_of_singleton in Hx. by subst.
Qed.

Lemma router_delete_isolated (db : DB) (user : User.view) (id : string) :
  isolated (User.v_id user) db (router_delete db user id).
Proof.
  unfold router_delete, Task.findOneAndDelete.
  destruct (castObjectId id) as [i|]; simpl; [|apply isolated_catch].
  assert (Hf : List.filter (foreign (User.v_id user))
                 (remove_first (Task.owned_by i (User.v_id user)) (tasks db))
               = List.filter (foreign (User.v_id user)) (tasks db)).
  { apply filter_remove_first. intros x _ Hp. apply foreign_owned.
    unfold Task.owned_by in Hp. apply andb_true_iff in Hp as [_ Hp].
    by apply N.eqb_eq in Hp. }
  destruct (List.find _ _) as [d|] eqn:E; simpl.
  - apply find_owned_by in E as (_ & _ & Ho).
    split; [|done]. simpl. intros x Hx. apply list_elem_of_singleton in Hx. by subst.
  - split; [|done]. simpl. intros x Hx. by apply elem_of_nil in Hx.
Qed.

Lemma router_patch_status_isolated (db : DB) (user : User.view) (id : string) (body : Body) :
  isolated (User.v_id user) db (router_patch_status db user id body).
Proof.
  unfold router_patch_status, Task.findOneAndUpdate.
  destruct (truthy (status body)); [|by apply isolated_unchanged].
  destruct (castObjectId id) as [i|]; [|apply isolated_catch].
  destruct (castString (status body)) as [s|].
  - destruct (Task.member s Task.statusEnum); [|apply isolated_catch].
    assert (Hf : List.filter (foreign (User.v_id user))
                   (update_first (Task.owned_by i (User.v_id user)) (Task.set_status s) (tasks db))
                 = List.filter (foreign (User.v_id user)) (tasks db)).
    { apply filter_update_first. intros x _ Hp.
      unfold Task.owned_by in Hp. apply andb_true_iff in Hp as [_ Hp].
      apply N.eqb_eq in Hp. split; by apply foreign_owned. }
    destruct (List.find _ _) as [d|] eqn:E; simpl.
    + apply find_owned_by in E as (_ & _ & Ho).
      split; [|done]. simpl. intros x Hx. apply list_elem_of_singleton in Hx. by subst.
    + split; [|done]. simpl. intros x Hx. by apply elem_of_nil in Hx.
  - destruct (List.find _ _) as [d|] eqn:E; simpl.
    + apply find_owned_by in E as (_ & _ & Ho).
      split; [|by rewrite with_tasks_same]. simpl.
      intros x Hx. apply list_elem_of_singleton in Hx. by subst.
    + rewrite with_tasks_same. by apply isolated_unchanged.
Qed.

Lemma router_post_isolated (db : DB) (user : User.view) (newId : ObjectId) (body : Body) :
  isolated (User.v_id user) db (router_post db user newId body).
Proof.
  unfold router_post.
  destruct (negb (truthy (title body)) || negb (truthy (dueDate body)));
    [by apply isolated_unchanged|].
  destruct (Date_getTime (dueDate body)) as [due|]; [|by apply isolated_unchanged].
  destruct (trim (title body)) as [ti|]; [|by apply isolated_unchanged].
  cbn [mbind Completion_bind].
  destruct (if truthy (description body) then trim (description body) else Normal "")
    as [de|]; [|by apply isolated_unchanged].
  cbn [mbind Completion_bind]. unfold Task.insert.
  match goal with |- context [Task.validate ?x] => destruct (Task.validate x) end;
    [|by apply isolated_unchanged].
  cbn [negb].
  match goal with |- context [existsb ?f ?l] => destruct (existsb f l) end;
    [by apply isolated_unchanged|].
  cbn [mbind Completion_bind try_catch].
  split; [|split; [|done]].
  - intros d Hd. apply list_elem_of_singleton in Hd. by subst.
  - cbn [fst tasks with_tasks]. rewrite List.filter_app. cbn [List.filter].
    rewrite foreign_owned by done. by rewrite app_nil_r.
Qed.

Lemma assign_key (set : string -> Task.t -> Task.t) (v : JsVal) (d : Task.t) :
  (forall s x, Task._id (set s x) = Task._id x /\ Task.userId (set s x) = Task.userId x) ->
  Task._id (assign set v d) = Task._id d /\ Task.userId (assign set v d) = Task.userId d.
Proof. intros H. unfold assign. destruct (castString v); [apply H | done]. Qed.

(** The assignments of the update route keep the identifier and the
    owner of the task. *)
Lemma update_title_key (body : Body) (d d' : Task.t) :
  update_title body d = Normal d' ->
  Task._id d' = Task._id d /\ Task.userId d' = Task.userId d.
Proof.
  unfold update_title. destruct (truthy (title body)); [|by intros [= <-]].
  destruct (trim (title body)); [|done]. by intros [= <-].
Qed.

Lemma update_description_key (body : Body) (d d' : Task.t) :
  update_description body d = Normal d' ->
  Task._id d' = Task._id d /\ Task.userId d' = Task.userId d.
Proof.
  unfold update_description.
  destruct (description body); simpl; try done; by intros [= <-].
Qed.

Lemma update_fields_key (body : Body) (d d' : Task.t) :
  update_fields body d = Normal d' ->
  Task._id d' = Task._id d /\ Task.userId d' = Task.userId d.
Proof.
  unfold update_fields. intros H.
  destruct (update_title body d) as [d1|] eqn:E1; [|done].
  cbn [mbind Completion_bind] in H.
  destruct (update_description body d1) as [d2|] eqn:E2; [|done].
  injection H as <-.
  apply update_title_key in E1 as [<- <-].
  apply update_description_key in E2 as [<- <-].
  unfold update_priority, update_status.
  destruct (truthy (priority body)), (truthy (status body));
    repeat match goal with
      | |- context [assign ?f ?v ?x] =>
          let Hk := fresh in
          assert (Hk := assign_key f v x (fun _ _ => conj eq_refl eq_refl));
          destruct Hk as [-> ->]
      end; done.
Qed.

Lemma router_put_isolated (db : DB) (user : User.view) (id : string) (body : Body) :
  unique_ids db ->
  isolated (User.v_id user) db (router_put db user id body).
Proof.
  intros Hu. unfold router_put, Task.findOne.
  destruct (castObjectId id) as [i|]; [|apply isolated_catch].
  cbn [mbind Completion_bind].
  destruct (List.find _ _) as [d|] eqn:E; [|by apply isolated_unchanged].
  apply find_owned_by in E as (Hin & Hi & Ho).
  set (validated := if truthy (dueDate body) then _ else _).
  assert (Hv : forall t0, validated = Some t0 ->
                 Task._id t0 = Task._id d /\ Task.userId t0 = Task.userId d).
  { subst validated. intros t0. destruct (truthy (dueDate body)).
    - destruct (Date_getTime _); [|done]. by intros [= <-].
    - by intros [= <-]. }
  destruct validated as [t0|]; [|by apply isolated_unchanged].
  destruct (Hv t0 eq_refl) as [Hi0 Ho0].
  destruct (update_fields body t0) as [d'|] eqn:Eu; [|apply isolated_catch].
  apply update_fields_key in Eu as [Hi' Ho'].
  cbn [mbind Completion_bind]. unfold Task.save.
  destruct (negb (Task.validate d')); [apply isolated_catch|].
  cbn [mbind Completion_bind try_catch].
  split; [|split; [|done]].
  - intros x Hx. apply list_elem_of_singleton in Hx. subst x. simpl. congruence.
  - cbn [fst tasks with_tasks]. apply filter_update_first. intros x Hx Hp.
    unfold Task.has_id in Hp. apply N.eqb_eq in Hp.
    assert (x = d) as ->.
    { apply (unique_ids_eq (tasks db)); [done..|congruence]. }
    split; apply foreign_owned; congruence.
Qed.

(** Every route keeps the caller within the caller's own tasks. *)
Lemma handle_isolated (db : DB) (user : User.view) (newId : ObjectId) (req : Request) :
  unique_ids db ->
  isolated (User.v_id user) db (handle db user newId req).
Proof.
  intros Hu. destruct req; simpl.
  - apply router_get_isolated.
  - apply router_get_id_isolated.
  - apply router_post_isolated.
  - by apply router_put_isolated.
  - apply router_delete_isolated.
  - apply router_patch_status_isolated.
Qed.

Lemma fmap_update_first {A B} (g : A -> B) (p : A -> bool) (f : A -> A) (l : list A) :
  (forall x, p x = true -> g (f x) = g x) ->
  g <$> update_first p f l = g <$> l.
Proof.
  intros H. induction l as [|a l IH]; [done|]. simpl.
  destruct (p a) eqn:E; rewrite !fmap_cons; [by rewrite H | by rewrite IH].
Qed.

Lemma remove_first_sublist {A} (p : A -> bool) (l : list A) :
  remove_first p l `sublist_of` l.
Proof.
  induction l as [|a l IH]; [done|]. simpl.
  destruct (p a); [by apply sublist_cons | by apply sublist_skip].
Qed.

(** The unique index holds after every request: the identifiers of the
    store stay pairwise different. *)
Lemma handle_unique_ids (db : DB) (user : User.view) (newId : ObjectId) (req : Request) :
  unique_ids db -> unique_ids (handle db user newId req).1.
Proof.
  unfold unique_ids. intros Hu. destruct req as [q|id|body|id body|id|id body];
    cbn [handle].
  - by rewrite router_get_store.
  - unfold router_get_id. destruct (Task.findOne _ _ _) as [[d|]|]; done.
  - unfold router_post.
    destruct (negb (truthy (title body)) || negb (truthy (dueDate body))); [done|].
    destruct (Date_getTime (dueDate body)) as [due|]; [|done].
    destruct (trim (title body)) as [ti|]; [|done].
    cbn [mbind Completion_bind].
    destruct (if truthy (description body) then trim (description body) else Normal "")
      as [de|]; [|done].
    cbn [mbind Completion_bind]. unfold Task.insert.
    match goal with |- context [Task.validate ?x] => destruct (Task.validate x) end;
      [|done].
    cbn [negb Task.new Task._id].
    destruct (existsb (Task.has_id newId) (tasks db)) eqn:Ex; [done|].
    cbn [mbind Completion_bind try_catch fst tasks with_tasks].
    rewrite fmap_app. apply NoDup_app. split; [done|]. split; [|apply NoDup_singleton].
    intros i Hi Hi'. apply list_elem_of_singleton in Hi'. subst i.
    apply list_elem_of_fmap in Hi as (x & Hx & Hin).
    assert (existsb (Task.has_id newId) (tasks db) = true); [|congruence].
    apply existsb_exists. exists x. split; [by apply list_elem_of_In|].
    unfold Task.has_id. rewrite <- Hx. apply N.eqb_refl.
  - unfold router_put. destruct (Task.findOne _ _ _) as [[d|]|]; [|done..].
    cbn [mbind Completion_bind].
    destruct (if truthy (dueDate body) then _ else _) as [t0|]; [|done].
    destruct (update_fields body t0) as [t'|]; [|done].
    cbn [mbind Completion_bind]. unfold Task.save.
    destruct (Task.validate t'); [|done].
    cbn [negb mbind Completion_bind try_catch fst tasks with_tasks].
    rewrite fmap_update_first; [done|].
    intros x Hx. unfold Task.has_id in Hx. by apply N.eqb_eq in Hx.
  - unfold router_delete, Task.findOneAndDelete.
    destruct (castObjectId id) as [i|]; [|done].
    cbn [mbind Completion_bind fst snd].
    assert (NoDup (Task._id <$> remove_first (Task.owned_by i (User.v_id user)) (tasks db))).
    { apply (sublist_NoDup _ (Task._id <$> tasks db)); [exact Hu|].
      apply fmap_sublist, remove_first_sublist. }
    by destruct (List.find _ _).
  - unfold router_patch_status, Task.findOneAndUpdate.
    destruct (truthy (status body)); [|done].
    destruct (castObjectId id) as [i|]; [|done].
    destruct (castString (status body)) as [s|].
    + destruct (Task.member s Task.statusEnum); [|done].
      cbn [negb mbind Completion_bind fst snd].
      assert (NoDup (Task._id <$> update_first (Task.owned_by i (User.v_id user))
                       (Task.set_status s) (tasks db))).
      { by rewrite fmap_update_first. }
      by destruct (List.find _ _).
    + cbn [mbind Completion_bind fst snd]. by destruct (List.find _ _).
Qed.

Lemma authMiddleware_no_payload (db : DB) (authHeader : option string) (resp : Response) :
  authMiddleware db authHeader = inl resp -> payload resp = NoPayload.
Proof.
  unfold authMiddleware. intros H.
  repeat match type of H with
    | match ?x with _ => _ end = _ => destruct x
    | (if ?b then _ else _) = _ => destruct b
    end; try discriminate; by injection H as <-.
Qed.

(** C1.  Owner scoping.  In a store with unique task identifiers:
    (1) when the gate has authenticated [caller] and [T] is a stored
    task of another owner, [GET /tasks/:id] with an [:id] that denotes
    [T] answers exactly 404 "Task not found" (so neither 200 with the
    task nor 403), and leaves the store as it is;
    (2) whatever the request of an authenticated caller (list, read,
    create, update, delete, status update), every task in the response
    is owned by the caller and the tasks of all other owners are in the
    store unchanged;
    (3) a request the gate rejects carries no task and changes nothing. *)
Theorem owner_scoping (db : DB) :
  unique_ids db ->
  (forall authHeader caller T id newId,
     authMiddleware db authHeader = inr caller ->
     T ∈ tasks db ->
     Task.userId T <> User.v_id caller ->
     castObjectId id = Some (Task._id T) ->
     router db authHeader newId (GET_task id) = (db, json 404 "Task not found"))
  /\ (forall authHeader caller newId req,
        authMiddleware db authHeader = inr caller ->
        isolated (User.v_id caller) db (router db authHeader newId req))
  /\ (forall authHeader resp newId req,
        authMiddleware db authHeader = inl resp ->
        router db authHeader newId req = (db, resp) /\ response_tasks resp = []).
Proof.
  intros Hu. split; [|split].
  - intros authHeader caller T id newId Hauth HT Hown Hcast.
    unfold router. rewrite Hauth. simpl.
    unfold router_get_id, Task.findOne. rewrite Hcast.
    cbn [mbind Completion_bind]. rewrite find_owned_by_none; [done|].
    intros d Hd Hi Ho. apply Hown.
    rewrite <- (unique_ids_eq (tasks db) d T); done.
  - intros authHeader caller newId req Hauth.
    unfold router. rewrite Hauth. by apply handle_isolated.
  - intros authHeader resp newId req Hauth.
    unfold router. rewrite Hauth. split; [done|].
    unfold response_tasks. by rewrite (authMiddleware_no_payload _ _ _ Hauth).
Qed.

End Ownership.

Lemma owner_scoping_witness :
  unique_ids Sample.db
  /\ router (rt := Sample.runtime) Sample.db
       (Some ("Bearer ok." ++ Sample.bobId)) 9%N (GET_task Sample.taskId)
     = (Sample.db, json 404 "Task not found").
Proof.
  assert (Hu : unique_ids Sample.db).
  { unfold unique_ids. simpl. apply NoDup_singleton. }
  split; [exact Hu|].
  destruct (owner_scoping (rt := Sample.runtime) Sample.db Hu) as [H _].
  apply (H _ (User.select Sample.bob) Sample.report).
  - reflexivity.
  - simpl. left.
  - simpl. discriminate.
  - reflexivity.
Defined.

(** ** The authentication gate *)

Section Gate.
Context {rt : Runtime}.

Lemma startsWith_split (s p : string) :
  startsWith s p = true -> s = p ++ substring s (String.length p).
Proof.
  revert s. induction p as [|b p IH]; intros s H; [reflexivity|].
  destruct s as [|a s]; simpl in H; [discriminate|].
  apply andb_true_iff in H as [Hab Hs]. apply Ascii.eqb_eq in Hab as ->.
  change (String b s = String b (p ++ substring s (String.length p))).
  f_equal. by apply IH.
Qed.

Lemma bearer_token (token : string) :
  startsWith ("Bearer " ++ token) "Bearer " = true
  /\ substring ("Bearer " ++ token) 7 = token.
Proof. split; reflexivity. Qed.

(** The gate on a header of the expected shape with a token in it. *)
Lemma authMiddleware_bearer (db : DB) (token : string) :
  token <> "" ->
  authMiddleware db (Some ("Bearer " ++ token)) =
    match (decoded ← jwt_verify token; User.findById (users db) (jwt_userId decoded)) with
    | Normal None => inl (json 401 "Token is not valid")
    | Normal (Some user) => inr user
    | Throw e =>
        if String.eqb e "JsonWebTokenError" then inl (json 401 "Token is not valid")
        else if String.eqb e "TokenExpiredError" then inl (json 401 "Token has expired")
        else inl (json 500 "Server error in authentication")
    end.
Proof.
  intros Hne. unfold authMiddleware.
  destruct (bearer_token token) as [Hs Ht]. rewrite Hs, Ht.
  change (String.eqb ("Bearer " ++ token) "") with false. cbn [negb].
  apply String.eqb_neq in Hne. by rewrite Hne.
Qed.

(** The gate lets a request through only for a bearer token that
    verifies and whose user exists. *)
Lemma authMiddleware_next (db : DB) (authHeader : option string) (user : User.view) :
  authMiddleware db authHeader = inr user <->
  exists token payload,
    authHeader = Some ("Bearer " ++ token) /\ token <> ""
    /\ jwt_verify token = Normal payload
    /\ User.findById (users db) (jwt_userId payload) = Normal (Some user).
Proof.
  split.
  - unfold authMiddleware. intros H.
    destruct authHeader as [h|]; [|done].
    destruct (String.eqb h ""); [done|].
    destruct (startsWith h "Bearer ") eqn:Hs; [|done]. cbn [negb] in H.
    apply startsWith_split in Hs. cbn [String.length] in Hs.
    destruct (String.eqb (substring h 7) "") eqn:Ht; [done|].
    apply String.eqb_neq in Ht.
    exists (substring h 7).
    destruct (jwt_verify (substring h 7)) as [payload|e] eqn:Ej;
      cbn [mbind Completion_bind] in H.
    + exists payload. split; [by rewrite Hs at 1|]. split; [done|]. split; [done|].
      destruct (User.findById _ _) as [[u|]|e]; [by injection H as -> | done |].
      by repeat destruct (String.eqb e _).
    + by repeat destruct (String.eqb e _).
  - intros (token & payload & -> & Hne & Hj & Hu).
    rewrite authMiddleware_bearer by done. rewrite Hj.
    cbn [mbind Completion_bind]. by rewrite Hu.
Qed.

(** C2.  The gate.  For every store and every request:
    (1) no Authorization header: 401;
    (2) a header that does not start with "Bearer ": 401;
    (3) a token whose verification fails with JsonWebTokenError (the
    invalid signature): 401 "Token is not valid";
    (4) a token past its expiry (TokenExpiredError): 401 "Token has
    expired", and the two reasons differ;
    (5) a token that verifies while the lookup of its user identifier
    finds nobody: 401;
    (6) the user is attached and the route runs exactly when the header
    is "Bearer " followed by a non-empty token that verifies and whose
    user exists; in every other case the router answers what the gate
    answered and the store is untouched. *)
Theorem auth_gate (db : DB) :
  authMiddleware db None = inl (json 401 "No token provided, authorization denied")
  /\ (forall h, startsWith h "Bearer " = false ->
        authMiddleware db (Some h) =
          inl (json 401 (if String.eqb h "" then "No token provided, authorization denied"
                         else "Invalid token format")))
  /\ (forall token, token <> "" -> jwt_verify token = Throw "JsonWebTokenError" ->
        authMiddleware db (Some ("Bearer " ++ token)) = inl (json 401 "Token is not valid"))
  /\ (forall token, token <> "" -> jwt_verify token = Throw "TokenExpiredError" ->
        authMiddleware db (Some ("Bearer " ++ token)) = inl (json 401 "Token has expired"))
  /\ json 401 "Token is not valid" <> json 401 "Token has expired"
  /\ (forall token payload, token <> "" -> jwt_verify token = Normal payload ->
        User.findById (users db) (jwt_userId payload) = Normal None ->
        authMiddleware db (Some ("Bearer " ++ token)) = inl (json 401 "Token is not valid"))
  /\ (forall authHeader user,
        authMiddleware db authHeader = inr user <->
        exists token payload,
          authHeader = Some ("Bearer " ++ token) /\ token <> ""
          /\ jwt_verify token = Normal payload
          /\ User.findById (users db) (jwt_userId payload) = Normal (Some user))
  /\ (forall authHeader newId req,
        match authMiddleware db authHeader with
        | inr user => router db authHeader newId req = handle db user newId req
        | inl resp => router db authHeader newId req = (db, resp)
        end).
Proof.
  split; [done|]. split.
  { intros h Hs. unfold authMiddleware. rewrite Hs. by destruct (String.eqb h ""). }
  split.
  { intros token Hne Hj. rewrite authMiddleware_bearer by done. by rewrite Hj. }
  split.
  { intros token Hne Hj. rewrite authMiddleware_bearer by done. by rewrite Hj. }
  split; [done|]. split.
  { intros token payload Hne Hj Hu. rewrite authMiddleware_bearer by done.
    rewrite Hj. cbn [mbind Completion_bind]. by rewrite Hu. }
  split; [apply authMiddleware_next|].
  intros authHeader newId req. unfold router. by destruct (authMiddleware db authHeader).
Qed.

(** C10.  A header that is exactly "Bearer " (an empty token) is
    rejected with 401 and the reason of the missing header, "No token
    provided, authorization denied", which is neither the reason of the
    wrong format nor that of the invalid token. *)
Theorem empty_bearer_token (db : DB) :
  authMiddleware db (Some "Bearer ")
    = inl (json 401 "No token provided, authorization denied")
  /\ authMiddleware db (Some "Bearer ") = authMiddleware db None
  /\ authMiddleware db (Some "Bearer ") <> inl (json 401 "Invalid token format")
  /\ authMiddleware db (Some "Bearer ") <> inl (json 401 "Token is not valid").
Proof. done. Qed.

End Gate.

Lemma auth_gate_witness :
  "old.0000000000000000000000a1" <> ""
  /\ jwt_verify (Runtime := Sample.runtime) "old.0000000000000000000000a1"
     = Throw "TokenExpiredError"
  /\ authMiddleware (rt := Sample.runtime) Sample.db
       (Some "Bearer old.0000000000000000000000a1")
     = inl (json 401 "Token has expired").
Proof.
  split; [discriminate|]. split; [reflexivity|].
  destruct (auth_gate (rt := Sample.runtime) Sample.db) as (_ & _ & _ & H & _).
  apply (H "old.0000000000000000000000a1"); [discriminate | reflexivity].
Defined.

(** ** Malformed identifiers *)

Section Identifiers.
Context {rt : Runtime}.

(** C6.  An [:id] the store cannot cast to an object identifier is
    answered with 400 and a message by [GET /tasks/:id],
    [PUT /tasks/:id], [DELETE /tasks/:id] and
    [PATCH /tasks/:id/status], with the store unchanged; none of them
    answers 500.  (The status route names the missing status when the
    body has none, and the identifier otherwise.) *)
Theorem malformed_id_is_400 (db : DB) (user : User.view) (id : string) (body : Body) :
  castObjectId id = None ->
  router_get_id db user id = (db, json 400 "Invalid task ID")
  /\ router_put db user id body = (db, json 400 "Invalid task ID")
  /\ router_delete db user id = (db, json 400 "Invalid task ID")
  /\ router_patch_status db user id body =
       (db, json 400 (if truthy (status body) then "Invalid task ID"
                      else "Status is required")).
Proof.
  intros Hc.
  unfold router_get_id, router_put, router_delete, router_patch_status,
    Task.findOne, Task.findOneAndDelete, Task.findOneAndUpdate.
  rewrite Hc. repeat split; try reflexivity.
  by destruct (truthy (status body)).
Qed.

End Identifiers.

Lemma malformed_id_is_400_witness :
  castObjectId (Runtime := Sample.runtime) "not-an-id" = None
  /\ router_put (rt := Sample.runtime) Sample.db (User.select Sample.alice)
       "not-an-id" empty_body
     = (Sample.db, json 400 "Invalid task ID").
Proof.
  split; [reflexivity|].
  apply (malformed_id_is_400 (rt := Sample.runtime) Sample.db
           (User.select Sample.alice) "not-an-id" empty_body).
  reflexivity.
Defined.

(** ** The status route *)

Section StatusRoute.
Context {rt : Runtime}.

Lemma find_update_first {A} (p : A -> bool) (f : A -> A) (l : list A) :
  (forall x, p (f x) = p x) ->
  List.find p (update_first p f l) = f <$> List.find p l.
Proof.
  intros Hp. induction l as [|a l IH]; [done|]. simpl.
  destruct (p a) eqn:E; simpl.
  - by rewrite Hp, E.
  - by rewrite E.
Qed.

Lemma update_first_idem {A} (p : A -> bool) (f : A -> A) (l : list A) :
  (forall x, p (f x) = p x) -> (forall x, f (f x) = f x) ->
  update_first p f (update_first p f l) = update_first p f l.
Proof.
  intros Hp Hf. induction l as [|a l IH]; [done|]. simpl.
  destruct (p a) eqn:E; simpl.
  - by rewrite Hp, E, Hf.
  - by rewrite E, IH.
Qed.

Lemma findOne_inv (coll : list Task.t) (id : string) (owner : ObjectId) (t : Task.t) :
  Task.findOne coll id owner = Normal (Some t) ->
  exists i, castObjectId id = Some i /\ List.find (Task.owned_by i owner) coll = Some t.
Proof.
  unfold Task.findOne. destruct (castObjectId id) as [i|]; [|done].
  intros [= H]. by exists i.
Qed.

(** C7.  The status update is idempotent.  For an existing task [t] of
    the caller, [PATCH /tasks/:id/status] with [{status: "completed"}]
    answers 200 with [t] whose status is completed; a second call on the
    resulting store answers the same 200 and leaves that store as it
    is; the stored task is then [t] with status completed and its
    identifier, owner, title, description, due date and priority as
    before. *)
Theorem status_update_idempotent (db : DB) (user : User.view) (id : string)
    (body : Body) (t : Task.t) :
  status body = JStr "completed" ->
  Task.findOne (tasks db) id (User.v_id user) = Normal (Some t) ->
  exists (db1 : DB) (t1 : Task.t),
    router_patch_status db user id body =
      (db1, json_task 200 "Task status updated successfully" (users db) t1)
    /\ router_patch_status db1 user id body =
      (db1, json_task 200 "Task status updated successfully" (users db1) t1)
    /\ users db1 = users db
    /\ Task.findOne (tasks db1) id (User.v_id user) = Normal (Some t1)
    /\ Task.status t1 = "completed"
    /\ Task._id t1 = Task._id t /\ Task.userId t1 = Task.userId t
    /\ Task.title t1 = Task.title t /\ Task.description t1 = Task.description t
    /\ Task.dueDate t1 = Task.dueDate t /\ Task.priority t1 = Task.priority t.
Proof.
  intros Hb Hf. apply findOne_inv in Hf as (i & Hc & Hf).
  set (p := Task.owned_by i (User.v_id user)) in *.
  set (f := Task.set_status "completed").
  assert (Hp : forall x, p (f x) = p x) by done.
  assert (Hff : forall x, f (f x) = f x) by done.
  exists (with_tasks db (update_first p f (tasks db))), (f t).
  unfold router_patch_status, Task.findOneAndUpdate, Task.findOne.
  rewrite Hb, Hc. cbn [truthy String.eqb negb castString tasks with_tasks users].
  change (Task.member "completed" Task.statusEnum) with true.
  cbn [negb mbind Completion_bind fst snd try_catch].
  fold p. fold f. rewrite find_update_first, update_first_idem, Hf by done.
  cbn [fmap option_fmap option_map].
  repeat split; reflexivity.
Qed.

End StatusRoute.

Lemma status_update_idempotent_witness :
  status (with_status (JStr "completed") empty_body) = JStr "completed"
  /\ Task.findOne (rt := Sample.runtime) (tasks Sample.db) Sample.taskId 161%N
     = Normal (Some Sample.report)
  /\ exists (db1 : DB) (t1 : Task.t),
       router_patch_status (rt := Sample.runtime) db1 (User.select Sample.alice)
         Sample.taskId (with_status (JStr "completed") empty_body)
       = (db1, json_task 200 "Task status updated successfully" (users db1) t1)
       /\ Task.status t1 = "completed".
Proof.
  split; [reflexivity|]. split; [reflexivity|].
  destruct (status_update_idempotent (rt := Sample.runtime) Sample.db
              (User.select Sample.alice) Sample.taskId
              (with_status (JStr "completed") empty_body) Sample.report
              eq_refl eq_refl)
    as (db1 & t1 & _ & H2 & _ & _ & H5 & _).
  exists db1, t1. split; [exact H2 | exact H5].
Defined.

(** ** The list route *)

Section ListRoute.
Context {rt : Runtime}.

Lemma string_leb_total (a b : string) : string_leb a b = true \/ string_leb b a = true.
Proof.
  revert b. induction a as [|x a IH]; intros [|y b]; simpl; auto.
  destruct (N.ltb_spec (N_of_ascii x) (N_of_ascii y)) as [Hlt|Hge]; [by left|].
  destruct (N.eqb_spec (N_of_ascii x) (N_of_ascii y)) as [Heq|Hne].
  - rewrite Heq, N.ltb_irrefl, N.eqb_refl. apply IH.
  - right. destruct (N.ltb_spec (N_of_ascii y) (N_of_ascii x)); [done|lia].
Qed.

Lemma bson_leb_total (a b : BsonVal) : bson_leb a b = true \/ bson_leb b a = true.
Proof.
  destruct a as [|x|x|x|x], b as [|y|y|y|y]; simpl; auto using string_leb_total.
  - destruct (Z.leb_spec x y); [by left|]. right. apply Z.leb_le. lia.
  - destruct (N.leb_spec x y); [by left|]. right. apply N.leb_le. lia.
  - destruct (Z.leb_spec x y); [by left|]. right. apply Z.leb_le. lia.
Qed.

(** The order of the store on strings is the lexicographic order of the
    Standard Library. *)
Lemma string_leb_compare (a b : string) : string_leb a b = String.leb a b.
Proof.
  revert b. induction a as [|x a IH]; intros [|y b]; try done.
  specialize (IH b). unfold String.leb in *. simpl. unfold Ascii.compare.
  destruct (N.compare_spec (N_of_ascii x) (N_of_ascii y)) as [Heq|Hlt|Hgt].
  - by rewrite Heq, N.ltb_irrefl, N.eqb_refl.
  - by rewrite (proj2 (N.ltb_lt _ _) Hlt).
  - rewrite (proj2 (N.ltb_ge _ _)) by lia. rewrite (proj2 (N.eqb_neq _ _)) by lia. done.
Qed.

#[local] Instance sort_le_total path dir : Total (Task.sort_le path dir).
Proof.
  intros a b. unfold Task.sort_le. destruct (0 <? dir).
  - destruct (bson_leb_total (Task.get path a) (Task.get path b)) as [->| ->];
      [by left | by right].
  - destruct (bson_leb_total (Task.get path b) (Task.get path a)) as [->| ->];
      [by left | by right].
Qed.

Lemma Sorted_mono {A} (R1 R2 : A -> A -> Prop) (l : list A) :
  (forall a b, R1 a b -> R2 a b) -> Sorted R1 l -> Sorted R2 l.
Proof.
  intros HR. induction 1 as [|a l Hs IH Hhd]; constructor; [done|].
  destruct Hhd; constructor. by apply HR.
Qed.

Lemma filter_ext_bool {A} (p q : A -> bool) (l : list A) :
  (forall x, p x = q x) -> List.filter p l = List.filter q l.
Proof. intros H. induction l as [|a l IH]; [done|]. simpl. by rewrite H, IH. Qed.

(** The query and the direction the list route builds from the query
    string. *)
Lemma router_get_dir (q : ListQuery) :
  (0 <? (if String.eqb (default "asc" (lq_order q)) "desc" then -1 else 1))
  = negb (bool_decide (lq_order q = Some "desc")).
Proof.
  destruct (lq_order q) as [o|]; simpl; [|done].
  destruct (String.eqb_spec o "desc") as [->|Hne].
  - by rewrite bool_decide_eq_true_2.
  - rewrite bool_decide_eq_false_2; [done|]. by intros [= ->].
Qed.

Lemma router_get_matches (user : User.view) (q : ListQuery) (d : Task.t) :
  Task.matches
    {| Task.q_userId := User.v_id user;
       Task.q_status := match lq_status q with
                        | Some s => if truthy (JStr s) then Some s else None
                        | None => None
                        end |} d
  = (Task.userId d =? User.v_id user)%N
    && match lq_status q with
       | Some s => String.eqb s "" || String.eqb (Task.status d) s
       | None => true
       end.
Proof.
  unfold Task.matches. simpl. f_equal.
  destruct (lq_status q) as [s|]; [|done]. simpl. by destruct (String.eqb s "").
Qed.

(** What the list route answers, by whether the store takes the path of
    the sort. *)
Lemma router_get_refused (db : DB) (user : User.view) (q : ListQuery) :
  Task.sortable (default "dueDate" (lq_sortBy q)) = false ->
  router_get db user q = (db, json 500 "Server error while fetching tasks").
Proof. intros H. unfold router_get, try_catch, Task.find. cbv zeta. by rewrite H. Qed.

Lemma router_get_accepted (db : DB) (user : User.view) (q : ListQuery) :
  Task.sortable (default "dueDate" (lq_sortBy q)) = true ->
  exists ts : list Task.t,
    router_get db user q =
      (db, {| statusCode := 200; message := "Tasks retrieved successfully";
              payload := ManyTasks (Task.populate (users db) <$> ts) (length ts) |})
    /\ ts ≡ₚ List.filter
               (fun d => (Task.userId d =? User.v_id user)%N
                         && match lq_status q with
                            | Some s => String.eqb s "" || String.eqb (Task.status d) s
                            | None => true
                            end) (tasks db)
    /\ Sorted (fun a b =>
                 if bool_decide (lq_order q = Some "desc")
                 then bson_leb (Task.get (default "dueDate" (lq_sortBy q)) b)
                               (Task.get (default "dueDate" (lq_sortBy q)) a) = true
                 else bson_leb (Task.get (default "dueDate" (lq_sortBy q)) a)
                               (Task.get (default "dueDate" (lq_sortBy q)) b) = true) ts.
Proof.
  intros H. unfold router_get, try_catch, Task.find. cbv zeta. rewrite H.
  cbn [mbind Completion_bind].
  eexists. split; [by rewrite length_fmap|]. split.
  - rewrite merge_sort_Permutation.
    erewrite filter_ext_bool; [done|]. apply router_get_matches.
  - eapply Sorted_mono; [|apply Sorted_merge_sort, _].
    intros a b. unfold Task.sort_le. rewrite router_get_dir.
    destruct (bool_decide _); simpl; apply Is_true_eq_true.
Qed.

Lemma get_other (path : string) (d : Task.t) :
  path ∉ ["_id"; "userId"; "title"; "description"; "dueDate"; "status"; "priority"] ->
  Task.get path d = otherPath path (Task._id d).
Proof.
  intros H. unfold Task.get.
  repeat (apply not_elem_of_cons in H as [Hne H];
          apply String.eqb_neq in Hne; rewrite Hne; clear Hne).
  done.
Qed.

(** C8.  The list route, for every store, caller and query string.  The
    sort is on the path named by [sortBy], passed to the store as it is,
    or on [dueDate] when [sortBy] is not given.
    - When the store refuses that path as the path of a sort, and it
      refuses the empty one ([?sortBy=]), the answer is 500 "Server
      error while fetching tasks", with no tasks.
    - Otherwise the answer is 200 with a list [ts] of populated tasks and
      its length, where [ts] is, up to order, exactly the caller's
      tasks, restricted to those whose status equals the [status]
      parameter when that is given and non-empty; and [ts] is in the
      order of the sort path: titles, descriptions, statuses and
      priorities in the lexicographic order of strings, due dates as
      instants, identifiers as numbers, and any other path by the
      store's order on what the documents hold under it.
    - The order is descending exactly when [order] is "desc"; absent or
      any other value sorts ascending.
    The store is unchanged in both cases. *)
Theorem list_tasks (db : DB) (user : User.view) (q : ListQuery) :
  let field := default "dueDate" (lq_sortBy q) in
  let desc := bool_decide (lq_order q = Some "desc") in
  let wanted (d : Task.t) : bool :=
    (Task.userId d =? User.v_id user)%N
    && match lq_status q with
       | Some s => String.eqb s "" || String.eqb (Task.status d) s
       | None => true
       end in
  let in_order (K : Type) (le : K -> K -> Prop) (key : Task.t -> K) (ts : list Task.t) :=
    Sorted (fun a b => if desc then le (key b) (key a) else le (key a) (key b)) ts in
  let alphabetical (x y : string) : Prop := String.leb x y = true in
  (lq_sortBy q = Some "" \/ Task.sortable field = false ->
   router_get db user q = (db, json 500 "Server error while fetching tasks"))
  /\ (Task.sortable field = true ->
      exists ts : list Task.t,
        router_get db user q =
          (db, {| statusCode := 200; message := "Tasks retrieved successfully";
                  payload := ManyTasks (Task.populate (users db) <$> ts) (length ts) |})
        /\ ts ≡ₚ List.filter wanted (tasks db)
        /\ (field = "title" -> in_order string alphabetical Task.title ts)
        /\ (field = "description" -> in_order string alphabetical Task.description ts)
        /\ (field = "status" -> in_order string alphabetical Task.status ts)
        /\ (field = "priority" -> in_order string alphabetical Task.priority ts)
        /\ (field = "dueDate" -> in_order Z Z.le Task.dueDate ts)
        /\ (field = "_id" -> in_order N N.le Task._id ts)
        /\ (field = "userId" -> in_order N N.le Task.userId ts)
        /\ (field ∉ ["_id"; "userId"; "title"; "description"; "dueDate"; "status";
                     "priority"] ->
            in_order BsonVal (fun x y => bson_leb x y = true)
              (fun d => otherPath field (Task._id d)) ts)).
Proof.
  intros field desc wanted in_order alphabetical.
  split; [intros [Hq|Hp]; apply router_get_refused; [by rewrite Hq | exact Hp]|].
  intros Hp.
  destruct (router_get_accepted db user q Hp) as (ts & Heq & Hperm & Hsorted).
  fold field desc in Hsorted.
  exists ts. split; [exact Heq|]. split; [exact Hperm|].
  unfold in_order, alphabetical.
  repeat split; intros Hf; revert Hsorted; try rewrite Hf;
    apply Sorted_mono; intros a b.
  1-7: unfold Task.get; simpl.
  1-4: rewrite !string_leb_compare; by destruct desc.
  1: destruct desc; apply Z.leb_le.
  1-2: destruct desc; apply N.leb_le.
  by rewrite !get_other.
Qed.

End ListRoute.

Lemma list_tasks_witness :
  Task.sortable (rt := Sample.runtime) "title" = true
  /\ exists ts : list Task.t,
       router_get (rt := Sample.runtime) Sample.board (User.select Sample.alice)
         {| lq_status := None; lq_sortBy := Some "title"; lq_order := Some "desc" |}
       = (Sample.board,
          {| statusCode := 200; message := "Tasks retrieved successfully";
             payload := ManyTasks (Task.populate (users Sample.board) <$> ts) (length ts) |})
       /\ ts ≡ₚ [Sample.report; Sample.groceries; Sample.slides]
       /\ Sorted (fun a b => String.leb (Task.title b) (Task.title a) = true) ts.
Proof.
  split; [reflexivity|].
  destruct (proj2 (list_tasks (rt := Sample.runtime) Sample.board
                     (User.select Sample.alice)
                     {| lq_status := None; lq_sortBy := Some "title";
                        lq_order := Some "desc" |}) eq_refl)
    as (ts & H1 & H2 & H3 & _).
  exists ts. split; [exact H1|]. split; [exact H2|]. exact (H3 eq_refl).
Defined.

(** C8, as stated, at a sort field the store refuses: [?sortBy=] names
    the empty path; the caller has three tasks and the answer is 500
    with none of them. *)
Lemma empty_sort_field_lists_nothing :
  router_get (rt := Sample.runtime) Sample.board (User.select Sample.alice)
    {| lq_status := None; lq_sortBy := Some ""; lq_order := None |}
  = (Sample.board, json 500 "Server error while fetching tasks")
  /\ response_tasks
       (router_get (rt := Sample.runtime) Sample.board (User.select Sample.alice)
          {| lq_status := None; lq_sortBy := Some ""; lq_order := None |}).2 = []
  /\ List.filter (fun d => (Task.userId d =? 161)%N) (tasks Sample.board)
     = [Sample.report; Sample.groceries; Sample.slides].
Proof. by vm_compute. Qed.

(** The list route on the sample board, run: alice's three tasks by
    title, by title descending, by due date (the default), by priority
    with an unknown direction, by a path the handlers never write, and
    with a status filter. *)
Example list_scenario :
  let titles (q : ListQuery) :=
    Task.title <$> response_tasks
      (router_get (rt := Sample.runtime) Sample.board (User.select Sample.alice) q).2 in
  titles {| lq_status := None; lq_sortBy := Some "title"; lq_order := None |}
    = ["Buy groceries"; "Prepare slides"; "Write report"]
  /\ titles {| lq_status := None; lq_sortBy := Some "title"; lq_order := Some "desc" |}
    = ["Write report"; "Prepare slides"; "Buy groceries"]
  /\ titles {| lq_status := None; lq_sortBy := None; lq_order := None |}
    = ["Prepare slides"; "Write report"; "Buy groceries"]
  /\ titles {| lq_status := None; lq_sortBy := Some "priority"; lq_order := Some "DESC" |}
    = ["Prepare slides"; "Buy groceries"; "Write report"]
  /\ titles {| lq_status := None; lq_sortBy := Some "createdAt"; lq_order := Some "desc" |}
    = ["Prepare slides"; "Buy groceries"; "Write report"]
  /\ titles {| lq_status := Some "pending"; lq_sortBy := None; lq_order := None |}
    = ["Write report"]
  /\ titles {| lq_status := Some ""; lq_sortBy := Some "status"; lq_order := None |}
    = ["Buy groceries"; "Prepare slides"; "Write report"].
Proof. by vm_compute. Qed.

(** ** The update route *)

Section UpdateRoute.
Context {rt : Runtime}.

Lemma update_title_spec (body : Body) (d d' : Task.t) :
  update_title body d = Normal d' ->
  d' = Task.set_title (Task.title d') d
  /\ (truthy (title body) = false -> Task.title d' = Task.title d)
  /\ (forall s, title body = JStr s -> s <> "" -> Task.title d' = String_trim s).
Proof.
  unfold update_title. destruct (title body) as [| |b|n|s] eqn:E; simpl;
    try destruct b; try destruct (n =? 0); try (destruct (String.eqb_spec s ""));
    simpl; intros [= <-]; (split; [by destruct d|]); split; try done.
  - by intros s0 [= <-].
  - by intros s0 [= <-].
Qed.

Lemma update_description_spec (body : Body) (d d' : Task.t) :
  update_description body d = Normal d' ->
  d' = Task.set_description (Task.description d') d
  /\ (description body = JUndefined -> Task.description d' = Task.description d)
  /\ (forall s, description body = JStr s -> Task.description d' = String_trim s).
Proof.
  unfold update_description. destruct (description body) as [| |b|n|s] eqn:E; simpl;
    intros [= <-]; (split; [by destruct d|]); split; try done.
  by intros s0 [= <-].
Qed.

Lemma update_status_spec (body : Body) (d : Task.t) :
  update_status body d = Task.set_status (Task.status (update_status body d)) d
  /\ (truthy (status body) = false -> Task.status (update_status body d) = Task.status d)
  /\ (forall s, status body = JStr s -> s <> "" -> Task.status (update_status body d) = s).
Proof.
  unfold update_status, assign.
  destruct (status body) as [| |b|n|s] eqn:E; simpl;
    try destruct b; try destruct (n =? 0); try (destruct (String.eqb_spec s ""));
    simpl; (split; [by destruct d|]); split; try done.
  - by intros s0 [= <-].
  - by intros s0 [= <-].
Qed.

Lemma update_priority_spec (body : Body) (d : Task.t) :
  update_priority body d = Task.set_priority (Task.priority (update_priority body d)) d
  /\ (truthy (priority body) = false ->
      Task.priority (update_priority body d) = Task.priority d)
  /\ (forall s, priority body = JStr s -> s <> "" ->
      Task.priority (update_priority body d) = s).
Proof.
  unfold update_priority, assign.
  destruct (priority body) as [| |b|n|s] eqn:E; simpl;
    try destruct b; try destruct (n =? 0); try (destruct (String.eqb_spec s ""));
    simpl; (split; [by destruct d|]); split; try done.
  - by intros s0 [= <-].
  - by intros s0 [= <-].
Qed.

(** What the four assignments do to a task, field by field. *)
Lemma update_fields_spec (body : Body) (d d' : Task.t) :
  update_fields body d = Normal d' ->
  Task._id d' = Task._id d /\ Task.userId d' = Task.userId d
  /\ Task.dueDate d' = Task.dueDate d
  /\ (truthy (title body) = false -> Task.title d' = Task.title d)
  /\ (forall s, title body = JStr s -> s <> "" -> Task.title d' = String_trim s)
  /\ (description body = JUndefined -> Task.description d' = Task.description d)
  /\ (forall s, description body = JStr s -> Task.description d' = String_trim s)
  /\ (truthy (status body) = false -> Task.status d' = Task.status d)
  /\ (forall s, status body = JStr s -> s <> "" -> Task.status d' = s)
  /\ (truthy (priority body) = false -> Task.priority d' = Task.priority d)
  /\ (forall s, priority body = JStr s -> s <> "" -> Task.priority d' = s).
Proof.
  unfold update_fields. intros H.
  destruct (update_title body d) as [d1|] eqn:E1; [|done].
  cbn [mbind Completion_bind] in H.
  destruct (update_description body d1) as [d2|] eqn:E2; [|done].
  injection H as <-.
  apply update_title_spec in E1 as (S1 & T1 & T2).
  apply update_description_spec in E2 as (S2 & D1 & D2).
  destruct (update_status_spec body d2) as (S3 & U1 & U2).
  destruct (update_priority_spec body (update_status body d2)) as (S4 & P1 & P2).
  rewrite S4, S3. rewrite S4, S3 in P1, P2. rewrite S3 in U1, U2.
  rewrite S2 in *. rewrite S1 in *. simpl in *.
  repeat split; auto.
Qed.

Lemma update_fields_throws (body : Body) (d : Task.t) (e : string) :
  update_fields body d = Throw e -> e = "TypeError".
Proof.
  unfold update_fields, update_title, update_description, trim.
  destruct (truthy (title body)), (title body), (description body);
    simpl; congruence.
Qed.

Lemma save_same (coll : list Task.t) (t : Task.t) :
  NoDup (Task._id <$> coll) -> t ∈ coll ->
  update_first (Task.has_id (Task._id t)) (fun _ => t) coll = coll.
Proof.
  intros Hnd Hin. induction coll as [|a l IH]; [done|]. simpl.
  destruct (Task.has_id (Task._id t) a) eqn:E.
  - unfold Task.has_id in E. apply N.eqb_eq in E.
    by rewrite (unique_ids_eq (a :: l) a t Hnd) by (done || by left).
  - f_equal. rewrite fmap_cons in Hnd. apply NoDup_cons in Hnd as [_ Hnd].
    apply IH; [done|]. apply elem_of_cons in Hin as [->|Hin]; [|done].
    unfold Task.has_id in E. by rewrite N.eqb_refl in E.
Qed.

Lemma find_after_save (coll : list Task.t) (i o : ObjectId) (t t' : Task.t) :
  NoDup (Task._id <$> coll) ->
  List.find (Task.owned_by i o) coll = Some t ->
  Task._id t' = Task._id t -> Task.userId t' = Task.userId t ->
  List.find (Task.owned_by i o)
    (update_first (Task.has_id (Task._id t')) (fun _ => t') coll) = Some t'.
Proof.
  intros Hnd Hf Hi Ho.
  assert (Hin := Hf). apply find_owned_by in Hin as (Hin & Hti & Hto).
  assert (Hpt' : Task.owned_by i o t' = true).
  { unfold Task.owned_by. rewrite Hi, Ho, Hti, Hto. by rewrite !N.eqb_refl. }
  assert (Huniq : forall x, x ∈ coll -> Task.has_id (Task._id t') x = true -> x = t).
  { intros x Hx Hh. unfold Task.has_id in Hh. apply N.eqb_eq in Hh.
    apply (unique_ids_eq coll); [done..|congruence]. }
  clear Hnd Hin. induction coll as [|a l IH]; [done|]. simpl in *.
  destruct (Task.owned_by i o a) eqn:Ea.
  - injection Hf as ->. unfold Task.has_id. rewrite Hi, N.eqb_refl. simpl.
    by rewrite Hpt'.
  - destruct (Task.has_id (Task._id t') a) eqn:Eh.
    + rewrite (Huniq a) in Ea by (done || by left).
      apply find_some in Hf as [_ Hf]. congruence.
    + simpl. rewrite Ea. apply IH; [done|]. intros x Hx. apply Huniq. by right.
Qed.

(** The three outcomes of the update route on a task it found. *)
Lemma router_put_found (db : DB) (user : User.view) (id : string) (body : Body) (t : Task.t) :
  unique_ids db ->
  Task.findOne (tasks db) id (User.v_id user) = Normal (Some t) ->
  (truthy (dueDate body) = true /\ Date_getTime (dueDate body) = None
   /\ router_put db user id body = (db, json 400 "Invalid due date format"))
  \/ router_put db user id body = (db, json 500 "Server error while updating task")
  \/ exists t0 t' db',
       router_put db user id body =
         (db', json_task 200 "Task updated successfully" (users db) t')
       /\ db' = with_tasks db (update_first (Task.has_id (Task._id t')) (fun _ => t') (tasks db))
       /\ Task.validate t' = true
       /\ Task.findOne (tasks db') id (User.v_id user) = Normal (Some t')
       /\ update_fields body t0 = Normal t'
       /\ Task._id t0 = Task._id t /\ Task.userId t0 = Task.userId t
       /\ Task.title t0 = Task.title t /\ Task.description t0 = Task.description t
       /\ Task.status t0 = Task.status t /\ Task.priority t0 = Task.priority t
       /\ (truthy (dueDate body) = false -> Task.dueDate t0 = Task.dueDate t)
       /\ (truthy (dueDate body) = true ->
           Date_getTime (dueDate body) = Some (Task.dueDate t0)).
Proof.
  intros Hu Hf. unfold router_put. rewrite Hf. cbn [mbind Completion_bind].
  apply findOne_inv in Hf as (i & Hc & Hf).
  set (validated := if truthy (dueDate body) then _ else _).
  assert (Hv : match validated with
               | None => truthy (dueDate body) = true /\ Date_getTime (dueDate body) = None
               | Some t0 =>
                   Task._id t0 = Task._id t /\ Task.userId t0 = Task.userId t
                   /\ Task.title t0 = Task.title t /\ Task.description t0 = Task.description t
                   /\ Task.status t0 = Task.status t /\ Task.priority t0 = Task.priority t
                   /\ (truthy (dueDate body) = false -> Task.dueDate t0 = Task.dueDate t)
                   /\ (truthy (dueDate body) = true ->
                       Date_getTime (dueDate body) = Some (Task.dueDate t0))
               end).
  { subst validated. destruct (truthy (dueDate body)).
    - destruct (Date_getTime (dueDate body)); [|done]. simpl. repeat split; done.
    - repeat split; done. }
  destruct validated as [t0|]; [|left; by destruct Hv].
  right.
  destruct (update_fields body t0) as [t'|e] eqn:Eu.
  2:{ left. apply update_fields_throws in Eu as ->. reflexivity. }
  cbn [mbind Completion_bind]. unfold Task.save.
  destruct (Task.validate t') eqn:Ev; [|by left].
  right. exists t0, t', (with_tasks db
    (update_first (Task.has_id (Task._id t')) (fun _ => t') (tasks db))).
  split; [reflexivity|]. split; [reflexivity|]. split; [done|].
  split; [|split; [done|exact Hv]].
  unfold Task.findOne. rewrite Hc. cbn [tasks with_tasks]. f_equal.
  apply update_fields_key in Eu as [Hi' Ho'].
  destruct Hv as (Hi0 & Ho0 & _).
  apply (find_after_save _ i _ t); [done | done | congruence | congruence].
Qed.

Lemma validate_clear_description (t : Task.t) :
  Task.validate t = true -> Task.validate (Task.set_description "" t) = true.
Proof.
  unfold Task.validate. simpl. intros H.
  repeat (apply andb_true_iff in H as [H ?]).
  repeat (apply andb_true_iff; split); done.
Qed.

(** The update with only [{description: ""}]. *)
Lemma router_put_description_only (db : DB) (user : User.view) (id : string) (t : Task.t) :
  Task.findOne (tasks db) id (User.v_id user) = Normal (Some t) ->
  Task.validate t = true ->
  router_put db user id (with_description (JStr "") empty_body) =
    (with_tasks db (update_first (Task.has_id (Task._id t))
                      (fun _ => Task.set_description "" t) (tasks db)),
     json_task 200 "Task updated successfully" (users db) (Task.set_description "" t)).
Proof.
  intros Hf Hval. unfold router_put. rewrite Hf.
  cbn [mbind Completion_bind dueDate with_description empty_body truthy].
  change (update_fields (with_description (JStr "") empty_body) t)
    with (Normal (A := Task.t) (Task.set_description "" t)).
  cbn [mbind Completion_bind]. unfold Task.save.
  by rewrite validate_clear_description.
Qed.

(** C5, as the route has it.  For a task [t] of the caller, in a store
    with unique identifiers, and any body:
    (1) a non-empty [dueDate] that does not parse is answered 400
    "Invalid due date format";
    (2) an answer other than 200 leaves the store as it was;
    (3) on 200 the answer carries the task as it is now stored, [t'],
    and field by field: a field absent from the body keeps its value,
    and so does title, dueDate, status or priority given as the empty
    string; title, status and priority given as a non-empty string are
    overwritten (the title trimmed), a non-empty dueDate by the instant
    it parses to; description is overwritten by the trimmed string
    whenever a string is given, the empty one included; identifier and
    owner stay;
    (4) a body of only [{description: ""}] on a task that satisfies the
    schema is answered 200 and stores [t] with the description empty
    and every other field as before. *)
Theorem put_overwrites_provided (db : DB) (user : User.view) (id : string)
    (body : Body) (t : Task.t) :
  unique_ids db ->
  Task.findOne (tasks db) id (User.v_id user) = Normal (Some t) ->
  let out := router_put db user id body in
  (truthy (dueDate body) = true -> Date_getTime (dueDate body) = None ->
   out = (db, json 400 "Invalid due date format"))
  /\ (statusCode out.2 <> 200 -> out.1 = db)
  /\ (statusCode out.2 = 200 ->
      exists t',
        out.2 = json_task 200 "Task updated successfully" (users db) t'
        /\ Task.findOne (tasks out.1) id (User.v_id user) = Normal (Some t')
        /\ Task._id t' = Task._id t /\ Task.userId t' = Task.userId t
        /\ (truthy (title body) = false -> Task.title t' = Task.title t)
        /\ (forall s, title body = JStr s -> s <> "" -> Task.title t' = String_trim s)
        /\ (description body = JUndefined -> Task.description t' = Task.description t)
        /\ (forall s, description body = JStr s -> Task.description t' = String_trim s)
        /\ (truthy (dueDate body) = false -> Task.dueDate t' = Task.dueDate t)
        /\ (truthy (dueDate body) = true ->
            Date_getTime (dueDate body) = Some (Task.dueDate t'))
        /\ (truthy (status body) = false -> Task.status t' = Task.status t)
        /\ (forall s, status body = JStr s -> s <> "" -> Task.status t' = s)
        /\ (truthy (priority body) = false -> Task.priority t' = Task.priority t)
        /\ (forall s, priority body = JStr s -> s <> "" -> Task.priority t' = s))
  /\ (body = with_description (JStr "") empty_body -> Task.validate t = true ->
      out.2 = json_task 200 "Task updated successfully" (users db)
                (Task.set_description "" t)
      /\ Task.findOne (tasks out.1) id (User.v_id user)
         = Normal (Some (Task.set_description "" t))).
Proof.
  intros Hu Hf out.
  assert (H4 : body = with_description (JStr "") empty_body -> Task.validate t = true ->
      out.2 = json_task 200 "Task updated successfully" (users db)
                (Task.set_description "" t)
      /\ Task.findOne (tasks out.1) id (User.v_id user)
         = Normal (Some (Task.set_description "" t))).
  { intros -> Hval. subst out. rewrite (router_put_description_only _ _ _ t) by done.
    split; [done|]. cbn [fst tasks with_tasks].
    apply findOne_inv in Hf as (i & Hc & Hf). unfold Task.findOne. rewrite Hc.
    f_equal. by apply (find_after_save _ i _ t (Task.set_description "" t)). }
  destruct (router_put_found db user id body t Hu Hf)
    as [(Hd1 & Hd2 & Hout) | [Hout | (t0 & t' & db' & Hout & Hdb & Hv & Hfind & Hupd & K)]];
    subst out; rewrite Hout in *; cbn [fst snd] in *.
  - done.
  - split; [|done].
    intros Hd1 Hd2. exfalso. revert Hout. unfold router_put. rewrite Hf.
    cbn [mbind Completion_bind]. rewrite Hd1, Hd2. done.
  - destruct K as (Hi0 & Ho0 & Ht0 & Hde0 & Hs0 & Hp0 & Hdu1 & Hdu2).
    apply update_fields_spec in Hupd
      as (Ki & Ko & Kd & Kt1 & Kt2 & Kde1 & Kde2 & Ks1 & Ks2 & Kp1 & Kp2).
    split; [|split; [done|split; [|done]]].
    + intros Hd1 Hd2. apply Hdu2 in Hd1. congruence.
    + intros _. exists t'. split; [done|]. split; [done|].
      rewrite Ki, Ko, Kd. rewrite <- Ht0, <- Hde0, <- Hs0, <- Hp0.
      repeat split; auto.
Qed.

(** The update with a body that changes nothing. *)
Lemma router_put_unchanged (db : DB) (user : User.view) (id : string) (body : Body) (t : Task.t) :
  unique_ids db ->
  Task.findOne (tasks db) id (User.v_id user) = Normal (Some t) ->
  Task.validate t = true ->
  truthy (dueDate body) = false ->
  update_fields body t = Normal t ->
  router_put db user id body = (db, json_task 200 "Task updated successfully" (users db) t).
Proof.
  intros Hu Hf Hval Hd Hupd. unfold router_put. rewrite Hf.
  cbn [mbind Completion_bind]. rewrite Hd, Hupd.
  cbn [mbind Completion_bind]. unfold Task.save. rewrite Hval.
  cbn [negb mbind Completion_bind try_catch].
  apply findOne_inv in Hf as (i & _ & Hf). apply find_owned_by in Hf as (Hin & _).
  by rewrite save_same, with_tasks_same.
Qed.

(** C9.  In the update route an empty string for title, status or
    priority is an absent field:
    (1) for every store, caller, identifier and body, the route does
    exactly the same with the field set to the empty string as with the
    field left out, so the stored field is not validated, overwritten
    or rejected;
    (2) on a task [t] of the caller that satisfies the schema, the body
    with only that field, empty, is answered 200 with [t] as it was and
    the store is unchanged;
    (3) description is different: on such a task with a non-empty
    description, the empty description and the absent description give
    different answers. *)
Theorem put_empty_string_is_absent (db : DB) (user : User.view) (id : string) (body : Body) :
  router_put db user id (with_title (JStr "") body)
    = router_put db user id (with_title JUndefined body)
  /\ router_put db user id (with_status (JStr "") body)
    = router_put db user id (with_status JUndefined body)
  /\ router_put db user id (with_priority (JStr "") body)
    = router_put db user id (with_priority JUndefined body)
  /\ (forall t,
        unique_ids db ->
        Task.findOne (tasks db) id (User.v_id user) = Normal (Some t) ->
        Task.validate t = true ->
        router_put db user id (with_title (JStr "") empty_body)
          = (db, json_task 200 "Task updated successfully" (users db) t)
        /\ router_put db user id (with_status (JStr "") empty_body)
          = (db, json_task 200 "Task updated successfully" (users db) t)
        /\ router_put db user id (with_priority (JStr "") empty_body)
          = (db, json_task 200 "Task updated successfully" (users db) t)
        /\ (Task.description t <> "" ->
            router_put db user id (with_description (JStr "") empty_body)
            <> router_put db user id (with_description JUndefined empty_body))).
Proof.
  split; [reflexivity|]. split; [reflexivity|]. split; [reflexivity|].
  intros t Hu Hf Hval.
  split; [by apply router_put_unchanged|].
  split; [by apply router_put_unchanged|].
  split; [by apply router_put_unchanged|].
  intros Hne. rewrite (router_put_description_only _ _ _ t) by done.
  change (with_description JUndefined empty_body) with empty_body.
  rewrite (router_put_unchanged _ _ _ _ t) by done.
  intros [= _ Hd]. apply Hne. by rewrite <- Hd.
Qed.

End UpdateRoute.

Lemma put_overwrites_provided_witness :
  unique_ids Sample.db
  /\ Task.findOne (rt := Sample.runtime) (tasks Sample.db) Sample.taskId 161%N
     = Normal (Some Sample.report)
  /\ Task.findOne (rt := Sample.runtime)
       (tasks (router_put (rt := Sample.runtime) Sample.db (User.select Sample.alice)
                 Sample.taskId (with_description (JStr "") empty_body)).1)
       Sample.taskId 161%N
     = Normal (Some (Task.set_description "" Sample.report)).
Proof.
  assert (Hu : unique_ids Sample.db).
  { unfold unique_ids. simpl. apply NoDup_singleton. }
  split; [exact Hu|]. split; [reflexivity|].
  destruct (put_overwrites_provided (rt := Sample.runtime) Sample.db
              (User.select Sample.alice) Sample.taskId
              (with_description (JStr "") empty_body) Sample.report Hu eq_refl)
    as (_ & _ & _ & H).
  destruct (H eq_refl eq_refl) as [_ H2]. exact H2.
Defined.

(** The claim of C5 read to the letter fails on an empty title: the
    field is provided, the call succeeds, and the stored title is not
    the provided one. *)
Lemma put_provided_empty_title_kept :
  title (with_title (JStr "") empty_body) = JStr ""
  /\ statusCode (router_put (rt := Sample.runtime) Sample.db (User.select Sample.alice)
                   Sample.taskId (with_title (JStr "") empty_body)).2 = 200
  /\ Task.title <$> tasks (router_put (rt := Sample.runtime) Sample.db
                             (User.select Sample.alice) Sample.taskId
                             (with_title (JStr "") empty_body)).1
     = ["Write report"]
  /\ Task.title <$> tasks (router_put (rt := Sample.runtime) Sample.db
                             (User.select Sample.alice) Sample.taskId
                             (with_title (JStr "") empty_body)).1
     <> [String_trim ""].
Proof. vm_compute. repeat split; discriminate. Qed.

Lemma put_empty_string_is_absent_witness :
  unique_ids Sample.db
  /\ Task.findOne (rt := Sample.runtime) (tasks Sample.db) Sample.taskId 161%N
     = Normal (Some Sample.report)
  /\ Task.validate Sample.report = true
  /\ router_put (rt := Sample.runtime) Sample.db (User.select Sample.alice)
       Sample.taskId (with_title (JStr "") empty_body)
     = (Sample.db, json_task 200 "Task updated successfully" (users Sample.db)
                     Sample.report).
Proof.
  assert (Hu : unique_ids Sample.db).
  { unfold unique_ids. simpl. apply NoDup_singleton. }
  split; [exact Hu|]. split; [reflexivity|]. split; [reflexivity|].
  destruct (put_empty_string_is_absent (rt := Sample.runtime) Sample.db
              (User.select Sample.alice) Sample.taskId empty_body)
    as (_ & _ & _ & H).
  destruct (H Sample.report Hu eq_refl eq_refl) as [H1 _]. exact H1.
Defined.

(** ** The create route *)

Section CreateRoute.
Context {rt : Runtime}.

Lemma js_or_str_or (dflt : string) (v : JsVal) :
  opt_string v -> dflt <> "" ->
  castString (js_or v (JStr dflt)) = Some (str_or dflt v).
Proof.
  intros [->|[s ->]] Hd; [done|]. unfold js_or, str_or. simpl.
  destruct (String.eqb s ""); done.
Qed.

Lemma description_str_or (v : JsVal) :
  opt_string v ->
  (if truthy v then trim v else Normal "") = Normal (String_trim (str_or "" v)).
Proof.
  intros [->|[s ->]]; [done|]. unfold str_or. simpl.
  destruct (String.eqb s ""); done.
Qed.

(** A create that is not answered 201 stores nothing. *)
Lemma router_post_failure (db : DB) (user : User.view) (newId : ObjectId) (body : Body) :
  statusCode (router_post db user newId body).2 <> 201 ->
  (router_post db user newId body).1 = db.
Proof.
  unfold router_post.
  destruct (negb (truthy (title body)) || negb (truthy (dueDate body))); [done|].
  destruct (Date_getTime (dueDate body)) as [due|]; [|done].
  destruct (trim (title body)) as [ti|]; [|done].
  cbn [mbind Completion_bind].
  destruct (if truthy (description body) then trim (description body) else Normal "")
    as [de|]; [|done].
  cbn [mbind Completion_bind].
  match goal with |- context [Task.insert ?c ?d] => destruct (Task.insert c d) end;
    done.
Qed.

(** C4, as the route has it.  For every create:
    (1) title or dueDate missing (or empty): 400 "Title and due date
    are required", store unchanged;
    (2) both given, dueDate not a valid date: 400 "Invalid due date
    format", store unchanged;
    (3) whenever the answer is not 201 the store is unchanged;
    (4) otherwise, when title is a non-empty string, description, status
    and priority are each absent or a string, the record built from
    them (title and description trimmed; description '', status
    pending and priority medium when absent or empty; owner the caller;
    the generated identifier) satisfies the schema and its identifier
    is not in the store, that record is appended to the store and
    returned, populated, with 201. *)
Theorem create_task (db : DB) (user : User.view) (newId : ObjectId) (body : Body) :
  (truthy (title body) = false \/ truthy (dueDate body) = false ->
   router_post db user newId body = (db, json 400 "Title and due date are required"))
  /\ (truthy (title body) = true -> truthy (dueDate body) = true ->
      Date_getTime (dueDate body) = None ->
      router_post db user newId body = (db, json 400 "Invalid due date format"))
  /\ (statusCode (router_post db user newId body).2 <> 201 ->
      (router_post db user newId body).1 = db)
  /\ (forall s due,
        title body = JStr s -> s <> "" ->
        truthy (dueDate body) = true -> Date_getTime (dueDate body) = Some due ->
        opt_string (description body) ->
        opt_string (status body) -> opt_string (priority body) ->
        Task.validate
          {| Task._id := newId; Task.userId := User.v_id user;
             Task.title := String_trim s;
             Task.description := String_trim (str_or "" (description body));
             Task.dueDate := due;
             Task.status := str_or "pending" (status body);
             Task.priority := str_or "medium" (priority body) |} = true ->
        existsb (Task.has_id newId) (tasks db) = false ->
        router_post db user newId body =
          (with_tasks db
             (tasks db ++
              [{| Task._id := newId; Task.userId := User.v_id user;
                  Task.title := String_trim s;
                  Task.description := String_trim (str_or "" (description body));
                  Task.dueDate := due;
                  Task.status := str_or "pending" (status body);
                  Task.priority := str_or "medium" (priority body) |}])%list,
           json_task 201 "Task created successfully" (users db)
             {| Task._id := newId; Task.userId := User.v_id user;
                Task.title := String_trim s;
                Task.description := String_trim (str_or "" (description body));
                Task.dueDate := due;
                Task.status := str_or "pending" (status body);
                Task.priority := str_or "medium" (priority body) |})).
Proof.
  split; [|split; [|split; [apply router_post_failure|]]].
  - intros H. unfold router_post.
    by destruct H as [-> | ->]; destruct (truthy _).
  - intros Ht Hd Hp. unfold router_post. by rewrite Ht, Hd, Hp.
  - intros s due Ht Hne Hd Hp Hde Hst Hpr Hval Hfresh.
    unfold router_post. rewrite Hd, Hp, Ht.
    apply String.eqb_neq in Hne. cbn [truthy trim]. rewrite Hne.
    cbn [negb orb mbind Completion_bind].
    rewrite description_str_or by done. cbn [mbind Completion_bind].
    unfold Task.new. rewrite !js_or_str_or by done.
    cbn [default from_option]. unfold id.
    unfold Task.insert. cbn [Task._id]. by rewrite Hval, Hfresh.
Qed.

End CreateRoute.

Lemma create_task_witness :
  truthy (title Sample.new_task_body) = true
  /\ truthy (dueDate Sample.new_task_body) = true
  /\ Date_getTime (Runtime := Sample.runtime) (dueDate Sample.new_task_body)
     = Some 1893542400000
  /\ router_post (rt := Sample.runtime) Sample.db (User.select Sample.alice) 7%N
       Sample.new_task_body
     = (with_tasks Sample.db
          [Sample.report;
           {| Task._id := 7%N; Task.userId := 161%N; Task.title := "Write tests";
              Task.description := ""; Task.dueDate := 1893542400000;
              Task.status := "pending"; Task.priority := "medium" |}],
        json_task 201 "Task created successfully" (users Sample.db)
          {| Task._id := 7%N; Task.userId := 161%N; Task.title := "Write tests";
             Task.description := ""; Task.dueDate := 1893542400000;
             Task.status := "pending"; Task.priority := "medium" |}).
Proof.
  split; [reflexivity|]. split; [reflexivity|]. split; [reflexivity|].
  destruct (create_task (rt := Sample.runtime) Sample.db (User.select Sample.alice)
              7%N Sample.new_task_body) as (_ & _ & _ & H).
  apply (H "  Write tests " 1893542400000);
    try reflexivity; try discriminate; by left.
Defined.

(** The claim of C4 read to the letter fails where title and dueDate
    are given and the date is valid and yet nothing is created: a title
    that is a number (its [trim] is a type error), and a status outside
    the enumeration (which the schema refuses on save). *)
Lemma create_present_valid_date_not_201 :
  truthy (title Sample.numeric_title_body) = true
  /\ truthy (dueDate Sample.numeric_title_body) = true
  /\ Date_getTime (Runtime := Sample.runtime) (dueDate Sample.numeric_title_body)
     = Some 1893542400000
  /\ router_post (rt := Sample.runtime) Sample.db (User.select Sample.alice) 7%N
       Sample.numeric_title_body
     = (Sample.db, json 500 "Server error while creating task")
  /\ truthy (title Sample.bogus_status_body) = true
  /\ truthy (dueDate Sample.bogus_status_body) = true
  /\ Date_getTime (Runtime := Sample.runtime) (dueDate Sample.bogus_status_body)
     = Some 1893542400000
  /\ router_post (rt := Sample.runtime) Sample.db (User.select Sample.alice) 7%N
       Sample.bogus_status_body
     = (Sample.db, json 500 "Server error while creating task").
Proof. repeat split; reflexivity. Qed.

(** ** The enumerations *)

Section Enumerations.
Context {rt : Runtime}.

Lemma Forall_update_first {A} (P : A -> Prop) (p : A -> bool) (f : A -> A) (l : list A) :
  (forall x, P x -> p x = true -> P (f x)) ->
  Forall P l -> Forall P (update_first p f l).
Proof.
  intros Hf. induction 1 as [|a l Ha Hl IH]; [done|]. simpl.
  destruct (p a) eqn:E; constructor; auto.
Qed.

Lemma Forall_remove_first {A} (P : A -> Prop) (p : A -> bool) (l : list A) :
  Forall P l -> Forall P (remove_first p l).
Proof.
  induction 1 as [|a l Ha Hl IH]; [done|]. simpl.
  destruct (p a); [done | by constructor].
Qed.

Lemma validate_set_status (s : string) (d : Task.t) :
  Task.member s Task.statusEnum = true ->
  Task.validate d = true -> Task.validate (Task.set_status s d) = true.
Proof.
  unfold Task.validate. cbn [Task.set_status Task.title Task.description
    Task.status Task.priority]. intros Hs H.
  repeat (apply andb_true_iff in H as [H ?]).
  repeat (apply andb_true_iff; split); done.
Qed.

(** No route stores a task that the schema refuses. *)
Lemma handle_valid_docs (db : DB) (user : User.view) (newId : ObjectId) (req : Request) :
  valid_docs db -> valid_docs (handle db user newId req).1.
Proof.
  unfold valid_docs. intros Hv.
  destruct req as [q|id|body|id body|id|id body];
    [cbn [handle]; by rewrite router_get_store | simpl ..].
  - unfold router_get_id. destruct (Task.findOne _ _ _) as [[d|]|]; done.
  - destruct (Z.eq_dec (statusCode (router_post db user newId body).2) 201) as [E|E];
      [|by rewrite router_post_failure].
    revert E. unfold router_post.
    destruct (negb (truthy (title body)) || negb (truthy (dueDate body))); [done|].
    destruct (Date_getTime (dueDate body)) as [due|]; [|done].
    destruct (trim (title body)) as [ti|]; [|done].
    cbn [mbind Completion_bind].
    destruct (if truthy (description body) then trim (description body) else Normal "")
      as [de|]; [|done].
    cbn [mbind Completion_bind]. unfold Task.insert.
    match goal with |- context [Task.validate ?x] =>
      destruct (Task.validate x) eqn:Ev end; [|done].
    cbn [negb].
    match goal with |- context [existsb ?f ?l] => destruct (existsb f l) end; [done|].
    intros _. cbn [mbind Completion_bind try_catch fst tasks with_tasks].
    apply Forall_app. split; [done|]. by constructor.
  - unfold router_put. destruct (Task.findOne _ _ _) as [[d|]|]; [|done..].
    cbn [mbind Completion_bind].
    destruct (if truthy (dueDate body) then _ else _) as [t0|]; [|done].
    destruct (update_fields body t0) as [t'|]; [|done].
    cbn [mbind Completion_bind]. unfold Task.save.
    destruct (Task.validate t') eqn:Ev; [|done].
    cbn [negb mbind Completion_bind try_catch fst tasks with_tasks].
    by apply Forall_update_first.
  - unfold router_delete, Task.findOneAndDelete.
    destruct (castObjectId id) as [i|]; [|done].
    cbn [mbind Completion_bind fst snd].
    destruct (List.find _ _); cbn [try_catch fst tasks with_tasks];
      by apply Forall_remove_first.
  - unfold router_patch_status, Task.findOneAndUpdate.
    destruct (truthy (status body)); [|done].
    destruct (castObjectId id) as [i|]; [|done].
    destruct (castString (status body)) as [s|].
    + destruct (Task.member s Task.statusEnum) eqn:Em; [|done].
      cbn [negb mbind Completion_bind fst snd].
      assert (Forall (fun d => Task.validate d = true)
                (update_first (Task.owned_by i (User.v_id user)) (Task.set_status s)
                   (tasks db))).
      { apply Forall_update_first; [|done]. intros x Hx _. by apply validate_set_status. }
      by destruct (List.find _ _).
    + cbn [mbind Completion_bind fst snd]. by destruct (List.find _ _).
Qed.

Lemma validate_bad_status (d : Task.t) :
  Task.member (Task.status d) Task.statusEnum = false -> Task.validate d = false.
Proof.
  unfold Task.validate. intros ->. by rewrite andb_false_r.
Qed.

Lemma validate_bad_priority (d : Task.t) :
  Task.member (Task.priority d) Task.priorityEnum = false -> Task.validate d = false.
Proof.
  unfold Task.validate. intros ->. by rewrite andb_false_r.
Qed.

(** A create whose record the schema refuses is not answered 201. *)
Lemma router_post_invalid (db : DB) (user : User.view) (newId : ObjectId) (body : Body) :
  (forall ti de due,
     Task.validate (Task.new newId (User.v_id user) ti de due
                      (js_or (status body) (JStr "pending"))
                      (js_or (priority body) (JStr "medium"))) = false) ->
  statusCode (router_post db user newId body).2 <> 201.
Proof.
  intros Hbad. unfold router_post.
  destruct (negb (truthy (title body)) || negb (truthy (dueDate body))); [done|].
  destruct (Date_getTime (dueDate body)) as [due|]; [|done].
  destruct (trim (title body)) as [ti|]; [|done].
  cbn [mbind Completion_bind].
  destruct (if truthy (description body) then trim (description body) else Normal "")
    as [de|]; [|done].
  cbn [mbind Completion_bind]. unfold Task.insert. by rewrite Hbad.
Qed.

Lemma truthy_nonempty (s : string) : s <> "" -> truthy (JStr s) = true.
Proof. intros H. simpl. apply String.eqb_neq in H. by rewrite H. Qed.

(** C3, as the routes have it.  status and priority are closed
    enumerations of the store:
    (1) from a store whose tasks satisfy the schema, no request leaves
    a task whose status is outside pending | in-progress | completed or
    whose priority is outside low | medium | high;
    (2) a create or a status update that supplies a non-empty string
    outside the status enumeration is not answered with success (201,
    200) and leaves the store unchanged, so the value is neither stored
    nor replaced by a member; likewise a create with such a priority;
    (3) on create an empty string for status or priority is an absent
    field (and so takes the default);
    (4) the status update answers 400 "Status is required" when status
    is missing or empty. *)
Theorem closed_enumerations (db : DB) (user : User.view) (newId : ObjectId)
    (id : string) (body : Body) :
  (valid_docs db ->
   forall req d, d ∈ tasks (handle db user newId req).1 ->
     Task.member (Task.status d) Task.statusEnum = true
     /\ Task.member (Task.priority d) Task.priorityEnum = true)
  /\ (forall s, status body = JStr s -> s <> "" ->
        Task.member s Task.statusEnum = false ->
        statusCode (router_post db user newId body).2 <> 201
        /\ (router_post db user newId body).1 = db
        /\ statusCode (router_patch_status db user id body).2 <> 200
        /\ (router_patch_status db user id body).1 = db)
  /\ (forall s, priority body = JStr s -> s <> "" ->
        Task.member s Task.priorityEnum = false ->
        statusCode (router_post db user newId body).2 <> 201
        /\ (router_post db user newId body).1 = db)
  /\ router_post db user newId (with_status (JStr "") body)
     = router_post db user newId (with_status JUndefined body)
  /\ router_post db user newId (with_priority (JStr "") body)
     = router_post db user newId (with_priority JUndefined body)
  /\ (truthy (status body) = false ->
      router_patch_status db user id body = (db, json 400 "Status is required")).
Proof.
  split; [|split; [|split; [|split; [reflexivity|split; [reflexivity|]]]]].
  - intros Hv req d Hd.
    assert (H := handle_valid_docs db user newId req Hv).
    unfold valid_docs in H. rewrite Forall_forall in H. specialize (H d Hd).
    unfold Task.validate in H.
    repeat (apply andb_true_iff in H as [H ?]). done.
  - intros s Hs Hne Hm.
    assert (Hpost : statusCode (router_post db user newId body).2 <> 201).
    { apply router_post_invalid. intros ti de due. apply validate_bad_status.
      unfold Task.new, js_or. rewrite Hs, truthy_nonempty by done. done. }
    split; [done|]. split; [by apply router_post_failure|].
    unfold router_patch_status, Task.findOneAndUpdate.
    rewrite Hs, truthy_nonempty by done. cbn [negb castString].
    destruct (castObjectId id) as [i|]; [|done]. by rewrite Hm.
  - intros s Hs Hne Hm.
    assert (Hpost : statusCode (router_post db user newId body).2 <> 201).
    { apply router_post_invalid. intros ti de due. apply validate_bad_priority.
      unfold Task.new, js_or. rewrite Hs, truthy_nonempty by done. done. }
    split; [done|]. by apply router_post_failure.
  - intros Hs. unfold router_patch_status. by rewrite Hs.
Qed.

End Enumerations.

Lemma closed_enumerations_witness :
  status Sample.bogus_status_body = JStr "bogus"
  /\ "bogus" <> ""
  /\ Task.member "bogus" Task.statusEnum = false
  /\ (router_patch_status (rt := Sample.runtime) Sample.db (User.select Sample.alice)
        Sample.taskId Sample.bogus_status_body).1 = Sample.db.
Proof.
  split; [reflexivity|]. split; [discriminate|]. split; [reflexivity|].
  destruct (closed_enumerations (rt := Sample.runtime) Sample.db
              (User.select Sample.alice) 7%N Sample.taskId Sample.bogus_status_body)
    as (_ & H & _).
  destruct (H "bogus") as (_ & _ & _ & H4); [reflexivity | discriminate | reflexivity |].
  exact H4.
Defined.

(** The claim of C3 read to the letter fails in two ways.  On create
    an empty status, which is not a member of the enumeration, is not
    rejected: the task is created with 201 and status pending.  And a
    status update with a value outside the enumeration on an existing
    task is answered 500, not 400. *)
Lemma invalid_status_not_400 :
  Task.member "" Task.statusEnum = false
  /\ status Sample.empty_status_body = JStr ""
  /\ statusCode (router_post (rt := Sample.runtime) Sample.db
                   (User.select Sample.alice) 7%N Sample.empty_status_body).2 = 201
  /\ Task.status <$> tasks (router_post (rt := Sample.runtime) Sample.db
                              (User.select Sample.alice) 7%N
                              Sample.empty_status_body).1
     = ["pending"; "pending"]
  /\ Task.member "bogus" Task.statusEnum = false
  /\ router_patch_status (rt := Sample.runtime) Sample.db (User.select Sample.alice)
       Sample.taskId Sample.bogus_status_body
     = (Sample.db, json 500 "Server error while updating task status")
  /\ statusCode (router_post (rt := Sample.runtime) Sample.db
                   (User.select Sample.alice) 7%N Sample.bogus_status_body).2 = 500.
Proof. repeat split; reflexivity. Qed.

(** * Further properties of the routes *)

(** ** [trim] *)

Lemma trimStart_clean (s : string) : starts_clean (trimStart s).
Proof.
  induction s as [|a s IH]; [done|]. simpl.
  destruct (isWhiteSpace a) eqn:E; [done | exact E].
Qed.

Lemma trimStart_fixed (s : string) : starts_clean s -> trimStart s = s.
Proof. destruct s as [|a s]; [done|]. simpl. by intros ->. Qed.

Lemma trimEnd_clean (s : string) : starts_clean s -> starts_clean (trimEnd s).
Proof.
  destruct s as [|a s]; [done|]. simpl. intros E.
  destruct (trimEnd s); [by rewrite E | done].
Qed.

Lemma trimEnd_idem (s : string) : trimEnd (trimEnd s) = trimEnd s.
Proof.
  induction s as [|a s IH]; [done|]. simpl.
  destruct (trimEnd s) as [|b r] eqn:E.
  - destruct (isWhiteSpace a) eqn:Ea; [done|]. simpl. by rewrite Ea.
  - change (trimEnd (String a (String b r))) with
      (match trimEnd (String b r) with
       | EmptyString => if isWhiteSpace a then EmptyString else String a EmptyString
       | r' => String a r'
       end).
    by rewrite IH.
Qed.

Lemma String_trim_idem (s : string) : String_trim (String_trim s) = String_trim s.
Proof.
  unfold String_trim.
  rewrite (trimStart_fixed (trimEnd (trimStart s)))
    by apply trimEnd_clean, trimStart_clean.
  apply trimEnd_idem.
Qed.

Lemma trimStart_length (s : string) : (String.length (trimStart s) <= String.length s)%nat.
Proof.
  induction s as [|a s IH]; [done|]. simpl.
  destruct (isWhiteSpace a); simpl; lia.
Qed.

Lemma trimEnd_length (s : string) : (String.length (trimEnd s) <= String.length s)%nat.
Proof.
  induction s as [|a s IH]; [done|]. simpl.
  destruct (trimEnd s); [destruct (isWhiteSpace a)|]; simpl in *; lia.
Qed.

Lemma String_trim_length (s : string) :
  (String.length (String_trim s) <= String.length s)%nat.
Proof.
  unfold String_trim. etransitivity; [apply trimEnd_length | apply trimStart_length].
Qed.

(** ** Lists *)

Lemma find_none_update_first {A} (p : A -> bool) (f : A -> A) (l : list A) :
  List.find p l = None -> update_first p f l = l.
Proof.
  induction l as [|a l IH]; [done|]. simpl. destruct (p a); [done|].
  intros H. by rewrite IH.
Qed.

Lemma find_none_remove_first {A} (p : A -> bool) (l : list A) :
  List.find p l = None -> remove_first p l = l.
Proof.
  induction l as [|a l IH]; [done|]. simpl. destruct (p a); [done|].
  intros H. by rewrite IH.
Qed.

Lemma find_app_last {A} (p : A -> bool) (l : list A) (x : A) :
  (forall y, y ∈ l -> p y = false) -> p x = true ->
  List.find p (l ++ [x]) = Some x.
Proof.
  intros Hl Hx. induction l as [|a l IH]; simpl; [by rewrite Hx|].
  rewrite (Hl a) by by left. apply IH. intros y Hy. apply Hl. by right.
Qed.

Lemma find_remove_first (l : list Task.t) (i o : ObjectId) :
  NoDup (Task._id <$> l) ->
  List.find (Task.owned_by i o) (remove_first (Task.owned_by i o) l) = None.
Proof.
  induction l as [|a l IH]; [done|]. rewrite fmap_cons. intros Hnd.
  apply NoDup_cons in Hnd as [Hnotin Hnd]. simpl.
  destruct (Task.owned_by i o a) eqn:Ea.
  - apply find_owned_by_none. intros d Hd Hi _. apply Hnotin.
    unfold Task.owned_by in Ea. apply andb_true_iff in Ea as [Ea _].
    apply N.eqb_eq in Ea. rewrite Ea, <- Hi. by apply list_elem_of_fmap_2.
  - simpl. rewrite Ea. by apply IH.
Qed.

Lemma update_first_as_map (l : list Task.t) (i o : ObjectId) (t : Task.t)
    (f : Task.t -> Task.t) :
  NoDup (Task._id <$> l) ->
  List.find (Task.owned_by i o) l = Some t ->
  update_first (Task.owned_by i o) f l
  = (fun d => if Task.has_id (Task._id t) d then f d else d) <$> l.
Proof.
  intros Hnd Hf.
  assert (Hin := Hf). apply find_owned_by in Hin as (Hin & Hi & Ho).
  assert (Huniq : forall x, x ∈ l -> Task.has_id (Task._id t) x = true -> x = t).
  { intros x Hx Hh. unfold Task.has_id in Hh. apply N.eqb_eq in Hh.
    by apply (unique_ids_eq l). }
  clear Hin. induction l as [|a l IH]; [done|]. rewrite !fmap_cons in *.
  apply NoDup_cons in Hnd as [Hnotin Hnd]. simpl in Hf |- *.
  destruct (Task.owned_by i o a) eqn:Ea.
  - injection Hf as ->. unfold Task.has_id at 1. rewrite N.eqb_refl. f_equal.
    rewrite <- (list_fmap_id l) at 1. apply list_fmap_ext. intros k x Hk. simpl.
    destruct (Task.has_id (Task._id t) x) eqn:Ex; [|done].
    exfalso. apply Hnotin. unfold Task.has_id in Ex. apply N.eqb_eq in Ex.
    rewrite <- Ex. apply list_elem_of_fmap_2. by eapply list_elem_of_lookup_2.
  - destruct (Task.has_id (Task._id t) a) eqn:Eh.
    + rewrite (Huniq a) in Ea by (by left || done).
      apply find_some in Hf as [_ Hf]. congruence.
    + f_equal. apply IH; [done | done |]. intros x Hx. apply Huniq. by right.
Qed.

(** ** What a request leaves behind *)

Section RouteEffects.
Context {rt : Runtime}.

Lemma findOne_none_inv (coll : list Task.t) (id : string) (owner : ObjectId) :
  Task.findOne coll id owner = Normal None ->
  exists i, castObjectId id = Some i /\ List.find (Task.owned_by i owner) coll = None.
Proof.
  unfold Task.findOne. destruct (castObjectId id) as [i|]; [|done].
  intros [= H]. by exists i.
Qed.

Lemma router_put_failure (db : DB) (user : User.view) (id : string) (body : Body) :
  statusCode (router_put db user id body).2 <> 200 ->
  (router_put db user id body).1 = db.
Proof.
  unfold router_put. destruct (Task.findOne _ _ _) as [[d|]|]; [|done..].
  cbn [mbind Completion_bind].
  destruct (if truthy (dueDate body) then _ else _) as [t0|]; [|done].
  destruct (update_fields body t0) as [t'|]; [|done].
  cbn [mbind Completion_bind]. unfold Task.save.
  destruct (Task.validate t'); done.
Qed.

Lemma router_delete_failure (db : DB) (user : User.view) (id : string) :
  statusCode (router_delete db user id).2 <> 200 ->
  (router_delete db user id).1 = db.
Proof.
  unfold router_delete, Task.findOneAndDelete.
  destruct (castObjectId id) as [i|]; [|done].
  cbn [mbind Completion_bind fst snd].
  destruct (List.find _ _) eqn:E; [done|]. intros _.
  cbn [try_catch fst]. by rewrite find_none_remove_first, with_tasks_same.
Qed.

Lemma router_patch_status_failure (db : DB) (user : User.view) (id : string) (body : Body) :
  statusCode (router_patch_status db user id body).2 <> 200 ->
  (router_patch_status db user id body).1 = db.
Proof.
  unfold router_patch_status, Task.findOneAndUpdate.
  destruct (truthy (status body)); [|done].
  destruct (castObjectId id) as [i|]; [|done].
  destruct (castString (status body)) as [s|].
  - destruct (Task.member s Task.statusEnum); [|done].
    cbn [negb mbind Completion_bind fst snd].
    destruct (List.find _ _) eqn:E; [done|]. intros _.
    cbn [try_catch fst]. by rewrite find_none_update_first, with_tasks_same.
  - cbn [mbind Completion_bind fst snd].
    destruct (List.find _ _); intros _; cbn [try_catch fst]; apply with_tasks_same.
Qed.

(** A request that is not answered 200 or 201 leaves the store exactly
    as it was: the gate's rejections, validation errors, 404 and 500
    have no effect on it. *)
Theorem errors_leave_store (db : DB) (authHeader : option string) (newId : ObjectId)
    (req : Request) :
  statusCode (router db authHeader newId req).2 <> 200 ->
  statusCode (router db authHeader newId req).2 <> 201 ->
  (router db authHeader newId req).1 = db.
Proof.
  unfold router. destruct (authMiddleware db authHeader) as [resp|user]; [done|].
  destruct req as [q|id|body|id body|id|id body]; cbn [handle]; intros H200 H201.
  - apply router_get_store.
  - unfold router_get_id. by destruct (Task.findOne _ _ _) as [[d|]|].
  - by apply router_post_failure.
  - by apply router_put_failure.
  - by apply router_delete_failure.
  - by apply router_patch_status_failure.
Qed.

(** Create, then read: when a create is answered 201, the task of the
    answer has the generated identifier and the caller as owner, and
    [GET /tasks/:id] with that identifier, on the store the create
    left, answers 200 with the same task. *)
Theorem create_then_read (db : DB) (user : User.view) (newId : ObjectId)
    (body : Body) (id : string) :
  statusCode (router_post db user newId body).2 = 201 ->
  castObjectId id = Some newId ->
  exists t,
    (router_post db user newId body).2
      = json_task 201 "Task created successfully" (users db) t
    /\ Task._id t = newId /\ Task.userId t = User.v_id user
    /\ router_get_id (router_post db user newId body).1 user id
       = ((router_post db user newId body).1,
          json_task 200 "Task retrieved successfully" (users db) t).
Proof.
  intros H201 Hc. revert H201. unfold router_post.
  destruct (negb (truthy (title body)) || negb (truthy (dueDate body))); [done|].
  destruct (Date_getTime (dueDate body)) as [due|]; [|done].
  destruct (trim (title body)) as [ti|]; [|done].
  cbn [mbind Completion_bind].
  destruct (if truthy (description body) then trim (description body) else Normal "")
    as [de|]; [|done].
  cbn [mbind Completion_bind]. unfold Task.insert.
  match goal with |- context [Task.validate ?x] =>
    set (t := x); destruct (Task.validate t) end; [|done].
  cbn [negb]. destruct (existsb (Task.has_id (Task._id t)) (tasks db)) eqn:Ex; [done|].
  intros _. cbn [mbind Completion_bind try_catch fst snd].
  exists t. split; [done|]. split; [done|]. split; [done|].
  unfold router_get_id, Task.findOne. rewrite Hc. cbn [tasks with_tasks].
  rewrite find_app_last; [done | | ].
  - intros y Hy. unfold Task.owned_by.
    destruct (Task._id y =? newId)%N eqn:Ey; [|done]. exfalso.
    assert (existsb (Task.has_id (Task._id t)) (tasks db) = true); [|congruence].
    apply existsb_exists. exists y. split; [by apply list_elem_of_In | exact Ey].
  - unfold Task.owned_by. subst t. simpl. by rewrite !N.eqb_refl.
Qed.

(** Delete, then read: when a delete is answered 200 in a store with
    unique identifiers, the answer carries the task that was stored
    under that identifier for the caller, the store has one task less,
    and [GET /tasks/:id] and a second delete of the same identifier
    both answer 404. *)
Theorem delete_then_read (db : DB) (user : User.view) (id : string) :
  unique_ids db ->
  statusCode (router_delete db user id).2 = 200 ->
  exists t,
    Task.findOne (tasks db) id (User.v_id user) = Normal (Some t)
    /\ payload (router_delete db user id).2 = RawTask t
    /\ S (length (tasks (router_delete db user id).1)) = length (tasks db)
    /\ router_get_id (router_delete db user id).1 user id
       = ((router_delete db user id).1, json 404 "Task not found")
    /\ router_delete (router_delete db user id).1 user id
       = ((router_delete db user id).1, json 404 "Task not found").
Proof.
  intros Hu. unfold router_delete at 1, Task.findOneAndDelete at 1.
  destruct (castObjectId id) as [i|] eqn:Hc; [|done].
  cbn [mbind Completion_bind fst snd].
  destruct (List.find (Task.owned_by i (User.v_id user)) (tasks db)) as [t|] eqn:E;
    [|done].
  intros _. exists t.
  assert (Hdel : router_delete db user id
                 = (with_tasks db (remove_first (Task.owned_by i (User.v_id user)) (tasks db)),
                    {| statusCode := 200; message := "Task deleted successfully";
                       payload := RawTask t |})).
  { unfold router_delete, Task.findOneAndDelete. rewrite Hc.
    cbn [mbind Completion_bind fst snd]. by rewrite E. }
  rewrite Hdel. cbn [fst snd payload tasks with_tasks].
  assert (Hgone : List.find (Task.owned_by i (User.v_id user))
                    (remove_first (Task.owned_by i (User.v_id user)) (tasks db)) = None)
    by by apply find_remove_first.
  split; [unfold Task.findOne; by rewrite Hc, E|]. split; [done|]. split.
  { clear -E. induction (tasks db) as [|a l IH]; [done|]. simpl in *.
    destruct (Task.owned_by i (User.v_id user) a); [done|]. simpl. f_equal. by apply IH. }
  split.
  - unfold router_get_id, Task.findOne. rewrite Hc. cbn [tasks with_tasks].
    by rewrite Hgone.
  - unfold router_delete, Task.findOneAndDelete. rewrite Hc.
    cbn [mbind Completion_bind fst snd tasks with_tasks]. rewrite Hgone.
    cbn [try_catch]. by rewrite (find_none_remove_first _ _ Hgone).
Qed.

(** A well-formed identifier under which the caller has no task: GET,
    PUT and DELETE answer 404 "Task not found" whatever the body, and
    so does the status update when the status is a member of the
    enumeration; the store is unchanged. *)
Theorem missing_task_is_404 (db : DB) (user : User.view) (id : string) (body : Body) :
  Task.findOne (tasks db) id (User.v_id user) = Normal None ->
  router_get_id db user id = (db, json 404 "Task not found")
  /\ router_put db user id body = (db, json 404 "Task not found")
  /\ router_delete db user id = (db, json 404 "Task not found")
  /\ (forall s, status body = JStr s -> Task.member s Task.statusEnum = true ->
      router_patch_status db user id body = (db, json 404 "Task not found")).
Proof.
  intros Hf. unfold router_get_id, router_put. rewrite Hf.
  split; [done|]. split; [done|].
  apply findOne_none_inv in Hf as (i & Hc & Hf). split.
  - unfold router_delete, Task.findOneAndDelete. rewrite Hc.
    cbn [mbind Completion_bind fst snd]. rewrite Hf. cbn [try_catch].
    by rewrite find_none_remove_first, with_tasks_same.
  - intros s Hs Hm. unfold router_patch_status, Task.findOneAndUpdate.
    rewrite Hs, Hc. cbn [castString]. rewrite Hm.
    assert (truthy (JStr s) = true) as ->.
    { destruct (String.eqb_spec s "") as [->|Hne]; [done|]. by apply truthy_nonempty. }
    cbn [negb mbind Completion_bind fst snd]. rewrite Hf. cbn [try_catch fmap option_fmap option_map].
    by rewrite find_none_update_first, with_tasks_same.
Qed.

(** The status route on a task it finds. *)
Lemma router_patch_status_found (db : DB) (user : User.view) (id : string) (body : Body)
    (t : Task.t) (s : string) :
  unique_ids db ->
  Task.findOne (tasks db) id (User.v_id user) = Normal (Some t) ->
  status body = JStr s ->
  Task.member s Task.statusEnum = true ->
  router_patch_status db user id body
  = (with_tasks db
       ((fun d => if Task.has_id (Task._id t) d then Task.set_status s t else d)
          <$> tasks db),
     json_task 200 "Task status updated successfully" (users db) (Task.set_status s t)).
Proof.
  intros Hu Hf Hs Hm. apply findOne_inv in Hf as (i & Hc & Hf).
  unfold router_patch_status, Task.findOneAndUpdate. rewrite Hs, Hc.
  cbn [castString]. rewrite Hm.
  assert (truthy (JStr s) = true) as ->.
  { destruct (String.eqb_spec s "") as [->|Hne]; [done|]. by apply truthy_nonempty. }
  cbn [negb mbind Completion_bind fst snd]. rewrite Hf.
  cbn [try_catch fmap option_fmap option_map]. f_equal. f_equal.
  rewrite (update_first_as_map _ i _ t) by done.
  apply list_fmap_ext. intros k d Hk. simpl.
  destruct (Task.has_id (Task._id t) d) eqn:E; [|done].
  f_equal. apply (unique_ids_eq (tasks db)); [done | | | ].
  - by eapply list_elem_of_lookup_2.
  - by apply find_owned_by in Hf as [? _].
  - unfold Task.has_id in E. by apply N.eqb_eq in E.
Qed.

(** The status update touches one field of one task: for a task [t] of
    the caller and a status [s] of the enumeration, in a store with
    unique identifiers, the answer is 200 with [t] at status [s], and
    the store afterwards is the store before with that one task
    replaced, every other task and the order being as they were. *)
Theorem status_update_frame (db : DB) (user : User.view) (id : string) (body : Body)
    (t : Task.t) (s : string) :
  unique_ids db ->
  Task.findOne (tasks db) id (User.v_id user) = Normal (Some t) ->
  status body = JStr s ->
  Task.member s Task.statusEnum = true ->
  router_patch_status db user id body
  = (with_tasks db
       ((fun d => if Task.has_id (Task._id t) d then Task.set_status s t else d)
          <$> tasks db),
     json_task 200 "Task status updated successfully" (users db) (Task.set_status s t)).
Proof. apply router_patch_status_found. Qed.

Lemma update_first_has_id_as_map (l : list Task.t) (j : ObjectId) (f : Task.t -> Task.t) :
  NoDup (Task._id <$> l) ->
  update_first (Task.has_id j) f l
  = (fun d => if Task.has_id j d then f d else d) <$> l.
Proof.
  induction l as [|a l IH]; [done|]. rewrite !fmap_cons. intros Hnd.
  apply NoDup_cons in Hnd as [Hnotin Hnd]. simpl.
  destruct (Task.has_id j a) eqn:Ea; [|by rewrite IH].
  f_equal. rewrite <- (list_fmap_id l) at 1. apply list_fmap_ext. intros k x Hk. simpl.
  destruct (Task.has_id j x) eqn:Ex; [|done].
  exfalso. apply Hnotin. unfold Task.has_id in Ea, Ex.
  apply N.eqb_eq in Ea, Ex. rewrite Ea, <- Ex.
  apply list_elem_of_fmap_2. by eapply list_elem_of_lookup_2.
Qed.

Lemma member_nonempty (s : string) (l : list string) :
  Task.member s l = true -> Forall (fun x => x <> "") l -> s <> "".
Proof.
  unfold Task.member. intros H Hl ->. apply existsb_exists in H as (x & Hx & E).
  apply String.eqb_eq in E. subst x. rewrite Forall_forall in Hl.
  by apply (Hl ""); [apply list_elem_of_In|].
Qed.

Lemma status_member_truthy (s : string) :
  Task.member s Task.statusEnum = true -> truthy (JStr s) = true.
Proof.
  intros H. apply truthy_nonempty. apply (member_nonempty _ _ H).
  repeat constructor; discriminate.
Qed.

Lemma priority_member_truthy (s : string) :
  Task.member s Task.priorityEnum = true -> truthy (JStr s) = true.
Proof.
  intros H. apply truthy_nonempty. apply (member_nonempty _ _ H).
  repeat constructor; discriminate.
Qed.

(** The status update is the update with only a status: for a task of
    the caller that satisfies the schema and a status of the
    enumeration, in a store with unique identifiers,
    [PATCH /tasks/:id/status] with [{status}] and [PUT /tasks/:id] with
    [{status}] are both answered 200 with the same task and leave the
    same store. *)
Theorem status_update_as_update (db : DB) (user : User.view) (id : string)
    (t : Task.t) (s : string) :
  unique_ids db ->
  Task.findOne (tasks db) id (User.v_id user) = Normal (Some t) ->
  Task.validate t = true ->
  Task.member s Task.statusEnum = true ->
  (router_put db user id (with_status (JStr s) empty_body)).1
  = (router_patch_status db user id (with_status (JStr s) empty_body)).1
  /\ (router_put db user id (with_status (JStr s) empty_body)).2
     = json_task 200 "Task updated successfully" (users db) (Task.set_status s t)
  /\ (router_patch_status db user id (with_status (JStr s) empty_body)).2
     = json_task 200 "Task status updated successfully" (users db) (Task.set_status s t).
Proof.
  intros Hu Hf Hval Hm.
  rewrite (router_patch_status_found db user id _ t s) by done.
  unfold router_put. rewrite Hf.
  cbn [mbind Completion_bind dueDate with_status empty_body truthy].
  unfold update_fields, update_title, update_description, update_status,
    update_priority.
  cbn [title description status priority with_status empty_body].
  rewrite (status_member_truthy s Hm).
  cbn [truthy mbind Completion_bind assign castString]. unfold Task.save.
  rewrite validate_set_status by done.
  cbn [negb mbind Completion_bind try_catch fst snd].
  split; [|done]. f_equal.
  change (Task._id (Task.set_status s t)) with (Task._id t).
  by rewrite update_first_has_id_as_map.
Qed.

(** The same update twice.  What the four assignments made of a task
    they leave as it is. *)
Lemma update_fields_fixed (body : Body) (d d' : Task.t) :
  update_fields body d = Normal d' -> update_fields body d' = Normal d'.
Proof.
  unfold update_fields, update_title, update_description, update_status,
    update_priority, assign, trim.
  destruct d as [i o ti de du st pr].
  destruct (title body) as [| |b|n|s];
    destruct (description body) as [| |b'|n'|s'];
    cbn [truthy]; try destruct b; try destruct (n =? 0);
    try destruct (String.eqb s ""); cbn [negb mbind Completion_bind];
    try discriminate;
    destruct (truthy (status body)), (castString (status body)),
      (truthy (priority body)), (castString (priority body));
    intros [= <-]; reflexivity.
Qed.

(** The update is idempotent: when [PUT /tasks/:id] is answered 200 in
    a store with unique identifiers, the same request on the store it
    left is answered with the same 200 and the same task, and leaves
    that store as it is. *)
Theorem update_idempotent (db : DB) (user : User.view) (id : string) (body : Body) :
  unique_ids db ->
  statusCode (router_put db user id body).2 = 200 ->
  router_put (router_put db user id body).1 user id body = router_put db user id body.
Proof.
  intros Hu H200.
  destruct (Task.findOne (tasks db) id (User.v_id user)) as [[t|]|e] eqn:Hf.
  2: { revert H200. unfold router_put. rewrite Hf. cbn. intros H. discriminate H. }
  2: { revert H200. unfold router_put. rewrite Hf.
       cbn [mbind Completion_bind try_catch snd]. unfold catch_id.
       destruct (String.eqb e "CastError"); cbn; intros H; discriminate H. }
  destruct (router_put_found db user id body t Hu Hf)
    as [(_ & _ & Hout) | [Hout | (t0 & t' & db' & Hout & Hdb & Hv & Hfind & Hupd & K)]];
    rewrite Hout in H200 |- *; [done..|].
  cbn [fst]. destruct K as (_ & _ & _ & _ & _ & _ & Hdu1 & Hdu2).
  assert (Hd' : Task.dueDate t' = Task.dueDate t0).
  { by apply update_fields_spec in Hupd as (_ & _ & Kd & _). }
  assert (Husers : users db' = users db) by by subst db'.
  assert (Hu' : unique_ids db').
  { subst db'. unfold unique_ids. cbn [tasks with_tasks].
    rewrite fmap_update_first; [done|]. intros x Hx.
    unfold Task.has_id in Hx. by apply N.eqb_eq in Hx. }
  unfold router_put. rewrite Hfind. cbn [mbind Completion_bind].
  assert (Hval0 : (if truthy (dueDate body)
                   then match Date_getTime (dueDate body) with
                        | Some dueDateObj => Some (Task.set_dueDate dueDateObj t')
                        | None => None
                        end
                   else Some t') = Some t').
  { destruct (truthy (dueDate body)); [|done].
    rewrite Hdu2 by done. rewrite <- Hd'. by destruct t'. }
  rewrite Hval0, (update_fields_fixed body t0 t' Hupd).
  cbn [mbind Completion_bind]. unfold Task.save. rewrite Hv.
  cbn [negb mbind Completion_bind try_catch]. rewrite Husers.
  f_equal. rewrite save_same; [apply with_tasks_same | exact Hu' |].
  apply findOne_inv in Hfind as (i & _ & Hfind).
  by apply find_owned_by in Hfind as [? _].
Qed.

(** What a create stores is trimmed: when a create is answered 201,
    the title and the description of the task it returns and stores are
    left unchanged by [trim], so they neither begin nor end with white
    space, and the task is in the store. *)
Theorem created_task_is_trimmed (db : DB) (user : User.view) (newId : ObjectId)
    (body : Body) (t : Task.t) :
  statusCode (router_post db user newId body).2 = 201 ->
  t ∈ response_tasks (router_post db user newId body).2 ->
  String_trim (Task.title t) = Task.title t
  /\ String_trim (Task.description t) = Task.description t
  /\ t ∈ tasks (router_post db user newId body).1.
Proof.
  unfold router_post.
  destruct (negb (truthy (title body)) || negb (truthy (dueDate body))); [done|].
  destruct (Date_getTime (dueDate body)) as [due|]; [|done].
  destruct (trim (title body)) as [ti|] eqn:Eti; [|done].
  cbn [mbind Completion_bind].
  destruct (if truthy (description body) then trim (description body) else Normal "")
    as [de|] eqn:Ede; [|done].
  cbn [mbind Completion_bind]. unfold Task.insert.
  match goal with |- context [Task.validate ?x] => destruct (Task.validate x) end;
    [|done].
  cbn [negb].
  match goal with |- context [existsb ?f ?l] => destruct (existsb f l) end; [done|].
  cbn [mbind Completion_bind try_catch fst snd]. intros _ Ht.
  apply list_elem_of_singleton in Ht. subst t.
  assert (Hti : String_trim ti = ti).
  { unfold trim in Eti. destruct (title body); try done.
    injection Eti as <-. apply String_trim_idem. }
  assert (Hde : String_trim de = de).
  { destruct (truthy (description body)); [|by injection Ede as <-].
    unfold trim in Ede. destruct (description body); try done.
    injection Ede as <-. apply String_trim_idem. }
  split; [exact Hti|]. split; [exact Hde|].
  cbn [tasks with_tasks]. apply elem_of_app. right. by left.
Qed.

(** The invariants over a run.  Whatever requests are served one after
    the other, with whatever headers: if the store starts with unique
    task identifiers and tasks that satisfy the schema, it ends so, and
    its users are the users it started with. *)
Theorem run_keeps_invariants (db : DB) (calls : list Call) :
  unique_ids db -> valid_docs db ->
  unique_ids (run db calls) /\ valid_docs (run db calls)
  /\ users (run db calls) = users db.
Proof.
  revert db. induction calls as [|c calls IH]; intros db Hu Hv; [done|]. simpl.
  set (out := router db (call_header c) (call_newId c) (call_request c)).
  assert (Hstep : unique_ids out.1 /\ valid_docs out.1 /\ users out.1 = users db).
  { subst out. unfold router.
    destruct (authMiddleware db (call_header c)) as [resp|user]; [done|].
    split; [by apply handle_unique_ids|]. split; [by apply handle_valid_docs|].
    by destruct (handle_isolated db user (call_newId c) (call_request c) Hu)
      as (_ & _ & ?). }
  destruct Hstep as (Hu' & Hv' & Hus).
  destruct (IH out.1 Hu' Hv') as (? & ? & ?). repeat split; congruence.
Qed.

End RouteEffects.

(** ** More on the gate *)

Section GateEffects.
Context {rt : Runtime}.

(** Who is attached.  When the gate calls [next()], the user on the
    request is a user of the store, the one whose identifier the
    verified token carries, given by identifier, username and email
    only. *)
Theorem gate_attaches_token_user (db : DB) (authHeader : option string)
    (user : User.view) :
  authMiddleware db authHeader = inr user ->
  exists token payload uid stored,
    authHeader = Some ("Bearer " ++ token)
    /\ jwt_verify token = Normal payload
    /\ jwt_userId payload = Some uid
    /\ castObjectId uid = Some (User._id stored)
    /\ stored ∈ users db
    /\ user = User.select stored.
Proof.
  intros H. apply authMiddleware_next in H as (token & payload & -> & _ & Hj & Hu).
  unfold User.findById in Hu.
  destruct (jwt_userId payload) as [uid|] eqn:Euid; [|done].
  destruct (castObjectId uid) as [i|] eqn:Ec; [|done].
  destruct (List.find (User.has_id i) (users db)) as [stored|] eqn:Ef; [|done].
  injection Hu as <-. apply find_some in Ef as [Hin Hid].
  unfold User.has_id in Hid. apply N.eqb_eq in Hid. subst i.
  exists token, payload, uid, stored. repeat split; try done.
  by apply list_elem_of_In.
Qed.

(** How the gate fails.  A rejection is answered 401 or 500 and
    nothing else; it is 500 exactly when the header carries a token
    and either its verification throws an error that is neither
    JsonWebTokenError nor TokenExpiredError, or it verifies and the
    store cannot cast the user identifier in it. *)
Theorem gate_rejections (db : DB) (authHeader : option string) (resp : Response) :
  authMiddleware db authHeader = inl resp ->
  (statusCode resp = 401 \/ statusCode resp = 500)
  /\ (statusCode resp = 500 <->
      exists token,
        authHeader = Some ("Bearer " ++ token) /\ token <> ""
        /\ ((exists e, jwt_verify token = Throw e
                       /\ e <> "JsonWebTokenError" /\ e <> "TokenExpiredError")
            \/ (exists payload uid, jwt_verify token = Normal payload
                       /\ jwt_userId payload = Some uid
                       /\ castObjectId uid = None))).
Proof.
  intros H.
  destruct authHeader as [h|]; [|injection H as <-; split; [by left|]; split;
    [done | by intros (? & ? & _)]].
  destruct (String.eqb_spec h "") as [->|Hh].
  { injection H as <-. split; [by left|]. split; [done|].
    by intros (? & ? & _). }
  destruct (startsWith h "Bearer ") eqn:Hs.
  2:{ unfold authMiddleware in H. apply String.eqb_neq in Hh. rewrite Hh, Hs in H.
      injection H as <-. split; [by left|]. split; [done|].
      intros (token & [= ->] & _).
      destruct (bearer_token token) as [E _]. by rewrite E in Hs. }
  apply startsWith_split in Hs. cbn [String.length] in Hs.
  set (token := substring h 7) in *. clearbody token. subst h.
  destruct (String.eqb_spec token "") as [->|Ht].
  { injection H as <-. split; [by left|]. split; [done|].
    intros (token & Heq & Hne & _). injection Heq as Heq.
    destruct token; [done | discriminate]. }
  rewrite authMiddleware_bearer in H by done.
  assert (Hinj : forall t', Some ("Bearer " ++ token) = Some ("Bearer " ++ t') -> t' = token).
  { intros t' [= E]. done. }
  destruct (jwt_verify token) as [payload|e] eqn:Ej; cbn [mbind Completion_bind] in H.
  - unfold User.findById in H.
    destruct (jwt_userId payload) as [uid|] eqn:Euid.
    + destruct (castObjectId uid) as [i|] eqn:Ec.
      * destruct (List.find _ _); cbn [fmap option_fmap option_map] in H; [done|].
        injection H as <-. split; [by left|]. split; [done|].
        intros (t' & Heq & _ & [(e & He & _) | (p & u & Hp & Hu & Hcu)]);
          apply Hinj in Heq; subst t'; congruence.
      * cbn in H. injection H as <-. split; [by right|]. split; [|done].
        intros _. exists token. split; [done|]. split; [done|]. right.
        by exists payload, uid.
    + injection H as <-. split; [by left|]. split; [done|].
      intros (t' & Heq & _ & [(e & He & _) | (p & u & Hp & Hu & Hcu)]);
        apply Hinj in Heq; subst t'; congruence.
  - destruct (String.eqb_spec e "JsonWebTokenError") as [->|He1].
    { injection H as <-. split; [by left|]. split; [done|].
      intros (t' & Heq & _ & [(e & He & Hn1 & _) | (p & u & Hp & _)]);
        apply Hinj in Heq; subst t'; congruence. }
    destruct (String.eqb_spec e "TokenExpiredError") as [->|He2].
    { injection H as <-. split; [by left|]. split; [done|].
      intros (t' & Heq & _ & [(e & He & _ & Hn2) | (p & u & Hp & _)]);
        apply Hinj in Heq; subst t'; congruence. }
    injection H as <-. split; [by right|]. split; [|done].
    intros _. exists token. split; [done|]. split; [done|]. left. by exists e.
Qed.

End GateEffects.

(** ** Create, then list *)

Section CreateAndList.
Context {rt : Runtime}.

(** The create route when it answers 201. *)
Lemma router_post_created (db : DB) (user : User.view) (newId : ObjectId) (body : Body) :
  statusCode (router_post db user newId body).2 = 201 ->
  exists t,
    router_post db user newId body
    = (with_tasks db (tasks db ++ [t])%list,
       json_task 201 "Task created successfully" (users db) t)
    /\ Task._id t = newId /\ Task.userId t = User.v_id user
    /\ Task.validate t = true.
Proof.
  unfold router_post.
  destruct (negb (truthy (title body)) || negb (truthy (dueDate body))); [done|].
  destruct (Date_getTime (dueDate body)) as [due|]; [|done].
  destruct (trim (title body)) as [ti|]; [|done].
  cbn [mbind Completion_bind].
  destruct (if truthy (description body) then trim (description body) else Normal "")
    as [de|]; [|done].
  cbn [mbind Completion_bind]. unfold Task.insert.
  match goal with |- context [Task.validate ?x] =>
    set (t := x); destruct (Task.validate t) eqn:Ev end; [|done].
  cbn [negb]. destruct (existsb (Task.has_id (Task._id t)) (tasks db)); [done|].
  intros _. by exists t.
Qed.

Lemma router_get_tasks (db : DB) (user : User.view) (q : ListQuery) :
  Task.sortable (default "dueDate" (lq_sortBy q)) = true ->
  lq_status q = None ->
  response_tasks (router_get db user q).2
  ≡ₚ List.filter (fun d => (Task.userId d =? User.v_id user)%N) (tasks db).
Proof.
  intros Hp Hq. destruct (router_get_accepted db user q Hp) as (ts & -> & Hperm & _).
  unfold response_tasks. cbn [snd payload].
  rewrite <- list_fmap_compose.
  rewrite (list_fmap_ext (Task.doc ∘ Task.populate (users db)) id); [|done].
  rewrite list_fmap_id, Hperm, Hq.
  erewrite filter_ext_bool; [done|]. intros d. apply andb_true_r.
Qed.

(** A created task is listed.  When a create is answered 201, the list
    route without a status filter and with a sort path the store takes,
    on the store the create left, returns the caller's earlier tasks
    and the new one: the new task is in the list and the list is one
    longer than before. *)
Theorem created_task_is_listed (db : DB) (user : User.view) (newId : ObjectId)
    (body : Body) (q : ListQuery) :
  statusCode (router_post db user newId body).2 = 201 ->
  lq_status q = None ->
  Task.sortable (default "dueDate" (lq_sortBy q)) = true ->
  (forall t, t ∈ response_tasks (router_post db user newId body).2 ->
             t ∈ response_tasks (router_get (router_post db user newId body).1 user q).2)
  /\ length (response_tasks (router_get (router_post db user newId body).1 user q).2)
     = S (length (response_tasks (router_get db user q).2)).
Proof.
  intros H201 Hq Hp. apply router_post_created in H201 as (t & -> & _ & Ho & _).
  cbn [fst snd].
  assert (Hnew : response_tasks (router_get (with_tasks db (tasks db ++ [t])) user q).2
                 ≡ₚ response_tasks (router_get db user q).2 ++ [t]).
  { rewrite !(router_get_tasks _ user q Hp Hq). cbn [tasks with_tasks].
    rewrite List.filter_app. cbn [List.filter]. by rewrite Ho, N.eqb_refl. }
  split.
  - intros t' Ht'. apply list_elem_of_singleton in Ht'. subst t'.
    rewrite Hnew. apply elem_of_app. right. by left.
  - rewrite Hnew, length_app. simpl. lia.
Qed.

End CreateAndList.

(** * The server entry point *)

Section ServerEntry.

Lemma serve_connected (mongoURI : option string) (connects : list (string -> option string)) :
  Server.serve true mongoURI connects
  = (replicate (length connects) (0%nat, Server.Served), true).
Proof.
  induction connects as [|c cs IH]; [done|]. simpl. by rewrite IH.
Qed.

(** Once connected, always served.  Over the requests of one process,
    whatever [mongoose.connect] would do at each of them: after a
    request that was handed to the application, every later request is
    handed to the application too, without a call of
    [mongoose.connect]. *)
Theorem served_once_served_after (isConnected : bool) (mongoURI : option string)
    (connects : list (string -> option string)) (i j calls : nat) (later : nat * Server.Reply) :
  (i < j)%nat ->
  (Server.serve isConnected mongoURI connects).1 !! i = Some (calls, Server.Served) ->
  (Server.serve isConnected mongoURI connects).1 !! j = Some later ->
  later = (0%nat, Server.Served).
Proof.
  revert isConnected i j. induction connects as [|c cs IH]; intros st i j Hij Hi Hj;
    [done|].
  simpl in Hi, Hj.
  destruct (Server.handler st mongoURI c) as [[flag n] reply] eqn:Eh.
  destruct (Server.serve flag mongoURI cs) as [replies final] eqn:Es.
  destruct j as [|j]; [lia|]. simpl in Hi, Hj.
  destruct i as [|i].
  - simpl in Hi. injection Hi as -> ->.
    assert (flag = true) as ->.
    { revert Eh. unfold Server.handler, Server.connectDB.
      destruct st; [by inversion 1|].
      destruct mongoURI as [uri|]; [|by inversion 1].
      destruct (String.eqb uri ""); [by inversion 1|].
      destruct (c uri); by inversion 1. }
    rewrite serve_connected in Es. injection Es as <- _.
    apply lookup_replicate in Hj as [-> _]. done.
  - simpl in Hi. apply (IH flag i j); [lia | by rewrite Es..].
Qed.

(** Without a connection string nothing is served.  When
    [MONGODB_URI] is not set (or empty), a process that is not
    connected answers every request 500 "Internal server error" with
    the error "MONGODB_URI environment variable is not defined", never
    calls [mongoose.connect], and stays unconnected. *)
Theorem missing_uri_serves_nothing (mongoURI : option string)
    (connects : list (string -> option string)) :
  mongoURI = None \/ mongoURI = Some "" ->
  Server.serve false mongoURI connects
  = (replicate (length connects)
       (0%nat, Server.InternalError "Internal server error"
                 "MONGODB_URI environment variable is not defined"),
     false).
Proof.
  intros H. induction connects as [|c cs IH]; [done|]. simpl.
  destruct H as [-> | ->]; simpl; by rewrite IH; [|auto..].
Qed.

End ServerEntry.

Lemma served_once_served_after_witness :
  (0 < 2)%nat
  /\ (Server.serve false (Some "mongodb://localhost:27017/taskify")
        [fun _ => None; fun _ => Some "down"; fun _ => Some "down"]).1 !! 0%nat
     = Some (1%nat, Server.Served)
  /\ (Server.serve false (Some "mongodb://localhost:27017/taskify")
        [fun _ => None; fun _ => Some "down"; fun _ => Some "down"]).1 !! 2%nat
     = Some (0%nat, Server.Served)
  /\ (0%nat, Server.Served) = (0%nat, Server.Served).
Proof.
  split; [lia|]. split; [reflexivity|]. split; [reflexivity|].
  apply (served_once_served_after false (Some "mongodb://localhost:27017/taskify")
           [fun _ => None; fun _ => Some "down"; fun _ => Some "down"]
           0 2 1 (0%nat, Server.Served)); [lia | reflexivity | reflexivity].
Defined.

Lemma missing_uri_serves_nothing_witness :
  (@None string = None \/ @None string = Some "")
  /\ (Server.serve false None [fun _ => None; fun _ => None]).2 = false.
Proof.
  split; [by left|].
  by rewrite (missing_uri_serves_nothing None [fun _ => None; fun _ => None]
                (or_introl eq_refl)).
Defined.

(** * The client *)

Section ClientSession.
Context {rt : Runtime}.

(** From the stored token to the gate.  With a non-empty token in
    [localStorage] (as [setToken] leaves it), the request interceptor
    sends "Bearer " followed by that token whatever header the
    configuration had; on that header the gate never answers that the
    token is missing or the format invalid, and it lets the request
    through exactly when the token verifies and its user exists. *)
Theorem stored_token_reaches_verification (db : DB) (st : Client.Api) (token : string)
    (authorization : option string) :
  token <> "" ->
  Client.getToken (Client.setToken token st) = Some token
  /\ (Client.getToken st = Some token ->
      Client.request_interceptor st authorization = Some ("Bearer " ++ token)
      /\ authMiddleware db (Client.request_interceptor st authorization)
         <> inl (json 401 "No token provided, authorization denied")
      /\ authMiddleware db (Client.request_interceptor st authorization)
         <> inl (json 401 "Invalid token format")
      /\ forall user,
           authMiddleware db (Client.request_interceptor st authorization) = inr user
           <-> exists payload,
                 jwt_verify token = Normal payload
                 /\ User.findById (users db) (jwt_userId payload) = Normal (Some user)).
Proof.
  intros Hne. split.
  { unfold Client.getToken, Client.setToken. simpl. apply lookup_insert_eq. }
  intros Hst. unfold Client.getToken in Hst.
  assert (Hreq : Client.request_interceptor st authorization = Some ("Bearer " ++ token)).
  { unfold Client.request_interceptor. rewrite Hst.
    apply String.eqb_neq in Hne. by rewrite Hne. }
  rewrite Hreq. split; [done|]. rewrite authMiddleware_bearer by done.
  destruct (jwt_verify token) as [payload|e]; cbn [mbind Completion_bind].
  - destruct (User.findById (users db) (jwt_userId payload)) as [[u|]|e] eqn:Ef.
    + split; [done|]. split; [done|]. intros user. split.
      * intros [= <-]. by exists payload.
      * intros (p & [= <-] & Hp). rewrite Ef in Hp. by injection Hp as ->.
    + split; [done|]. split; [done|]. intros user. split; [done|].
      intros (p & [= <-] & Hp). by rewrite Ef in Hp.
    + split; [by repeat destruct (String.eqb e _)|].
      split; [by repeat destruct (String.eqb e _)|].
      intros user. split; [by repeat destruct (String.eqb e _)|].
      intros (p & [= <-] & Hp). by rewrite Ef in Hp.
  - split; [by repeat destruct (String.eqb e _)|].
    split; [by repeat destruct (String.eqb e _)|].
    intros user. split; [by repeat destruct (String.eqb e _)|].
    by intros (p & Hp & _).
Qed.

End ClientSession.

Lemma stored_token_reaches_verification_witness :
  "ok.0000000000000000000000a1" <> ""
  /\ Client.request_interceptor
       (Client.setToken "ok.0000000000000000000000a1"
          {| Client.localStorage := ∅; Client.defaultAuthorization := None |})
       None
     = Some ("Bearer " ++ "ok.0000000000000000000000a1").
Proof.
  split; [discriminate|].
  destruct (stored_token_reaches_verification (rt := Sample.runtime) Sample.db
              (Client.setToken "ok.0000000000000000000000a1"
                 {| Client.localStorage := ∅; Client.defaultAuthorization := None |})
              "ok.0000000000000000000000a1" None) as [H1 H2]; [discriminate|].
  destruct H2 as [H _]; [|exact H].
  exact (lookup_insert_eq _ _ _).
Defined.

Section ClientStorage.

(** A 401 signs the user out.  When a response carries status 401 the
    interceptor removes the token and the user from [localStorage] and
    nothing else, so the user is no longer authenticated and the
    dashboard route redirects to the login route; it assigns "/login"
    to the location exactly when the page is neither "/login" nor
    "/signup".  With any other status, or no response, it changes
    nothing. *)
Theorem unauthorized_signs_out (st : Client.Api) (status : option Z) (pathname : string) :
  (status = Some 401 ->
   Client.isAuthenticated (Client.response_error_interceptor st status pathname).1 = false
   /\ Client.localStorage (Client.response_error_interceptor st status pathname).1
        !! "user" = None
   /\ Client.render Client.DashboardRoute
        (Client.response_error_interceptor st status pathname).1
      = Client.Navigate Client.LoginRoute
   /\ (forall k, k <> "token" -> k <> "user" ->
       Client.localStorage (Client.response_error_interceptor st status pathname).1 !! k
       = Client.localStorage st !! k)
   /\ ((Client.response_error_interceptor st status pathname).2 = Some "/login"
       <-> pathname <> "/login" /\ pathname <> "/signup"))
  /\ (status <> Some 401 ->
      Client.response_error_interceptor st status pathname = (st, None)).
Proof.
  split.
  - intros ->. cbn [Client.response_error_interceptor fst snd].
    assert (Hauth : Client.isAuthenticated
                      {| Client.localStorage :=
                           delete "user" (delete "token" (Client.localStorage st));
                         Client.defaultAuthorization := Client.defaultAuthorization st |}
                    = false).
    { unfold Client.isAuthenticated, Client.has_item. cbn [Client.localStorage].
      rewrite lookup_delete_ne by done. by rewrite lookup_delete_eq. }
    split; [exact Hauth|]. split; [apply lookup_delete_eq|].
    split; [unfold Client.render, Client.ProtectedRoute; by rewrite Hauth|].
    split.
    + intros k Hk1 Hk2. cbn [Client.localStorage]. by rewrite !lookup_delete_ne.
    + destruct (String.eqb_spec pathname "/login") as [E1|H1];
        destruct (String.eqb_spec pathname "/signup") as [E2|H2];
        cbn [negb andb]; split; try done; try (by intros [? ?]).
  - intros H. unfold Client.response_error_interceptor.
    destruct status as [z|]; [|done].
    destruct z as [|p|p]; try done.
    destruct (decide (p = 401%positive)) as [->|Hp]; [done|].
    repeat (destruct p as [p|p|]; try done).
Qed.

(** Redirects settle.  Whatever [localStorage] holds, every route
    either renders its page or navigates to a route that renders its
    page: signed in, everything ends on the dashboard; signed out, on
    the login or signup page.  No redirect leads to another redirect. *)
Theorem redirects_settle (r : Client.Route) (st : Client.Api) :
  Client.render r st = Client.Page
  \/ exists r', Client.render r st = Client.Navigate r'
                /\ Client.render r' st = Client.Page
                /\ r' = (if Client.isAuthenticated st then Client.DashboardRoute
                         else Client.LoginRoute).
Proof.
  unfold Client.render, Client.PublicRoute, Client.ProtectedRoute.
  destruct r, (Client.isAuthenticated st) eqn:E; cbn [negb];
    first [by left | right; eexists; rewrite ?E; cbn [negb]; by repeat split].
Qed.

End ClientStorage.

Lemma unauthorized_signs_out_witness :
  Some 401 = Some 401
  /\ Client.isAuthenticated
       (Client.response_error_interceptor
          (Client.setToken "ok.0000000000000000000000a1"
             {| Client.localStorage := ∅; Client.defaultAuthorization := None |})
          (Some 401) "/dashboard").1 = false.
Proof.
  split; [reflexivity|].
  destruct (unauthorized_signs_out
              (Client.setToken "ok.0000000000000000000000a1"
                 {| Client.localStorage := ∅; Client.defaultAuthorization := None |})
              (Some 401) "/dashboard") as [H _].
  destruct (H eq_refl) as [H1 _]. exact H1.
Defined.

(** * The task list *)

Section TaskListView.
Context {rt : Runtime}.

(** Rounding to binary64 gives a zero, a finite number or an infinity. *)
Lemma shr_1_nonneg (mrs : shr_record) : 0 <= shr_m mrs -> 0 <= shr_m (shr_1 mrs).
Proof. destruct mrs as [[|[p|p|]|p] r s]; simpl; lia. Qed.

Lemma iter_shr_1_nonneg (n : positive) (mrs : shr_record) :
  0 <= shr_m mrs -> 0 <= shr_m (SpecFloat.iter_pos shr_1 n mrs).
Proof.
  revert mrs. induction n as [n IH|n IH|]; intros mrs H; simpl.
  - by apply IH, IH, shr_1_nonneg.
  - by apply IH, IH.
  - by apply shr_1_nonneg.
Qed.

Lemma shr_fexp_nonneg (m e : Z) (l : location) :
  0 <= m -> 0 <= shr_m (shr_fexp 53 1024 m e l).1.
Proof.
  intros H. unfold shr_fexp, shr.
  assert (H0 : 0 <= shr_m (shr_record_of_loc m l)) by (by destruct l as [|[]]).
  destruct (_ - e) as [|n|n]; cbn [fst]; [done | by apply iter_shr_1_nonneg | done].
Qed.

Lemma round_nearest_even_nonneg (m : Z) (l : location) :
  0 <= m -> 0 <= round_nearest_even m l.
Proof. intros H. destruct l as [|[]]; simpl; [done| |done|]; try destruct (Z.even m); lia. Qed.

Lemma binary_normalize_number (m e : Z) (szero : bool) :
  binary_normalize 53 1024 m e szero <> S754_nan.
Proof.
  assert (Haux : forall sx mx ex lx, 0 <= mx ->
            binary_round_aux 53 1024 sx mx ex lx <> S754_nan).
  { intros sx mx ex lx H. unfold binary_round_aux.
    pose proof (shr_fexp_nonneg mx ex lx H) as H1.
    destruct (shr_fexp 53 1024 mx ex lx) as [mrs' e']. cbn [fst] in H1.
    pose proof (shr_fexp_nonneg _ e' loc_Exact
                  (round_nearest_even_nonneg _ (loc_of_shr_record mrs') H1)) as H2.
    destruct (shr_fexp 53 1024 _ e' loc_Exact) as [mrs'' e'']. cbn [fst] in H2.
    destruct (shr_m mrs'') as [|n|n]; [done | by destruct (_ <=? _) | lia]. }
  unfold binary_normalize, binary_round.
  destruct m as [|m|m]; [done| |]; destruct (shl_align _ _ _) as [mz ez]; by apply Haux.
Qed.

(** Adding or subtracting a finite number never makes a number NaN. *)
Lemma Number_sub_finite (x y : spec_float) :
  (if y is S754_finite _ _ _ then true else false) = true ->
  x <> S754_nan -> TaskList.Number_sub x y <> S754_nan.
Proof.
  intros Hy Hx. unfold TaskList.Number_sub.
  destruct y as [| | |s m e]; try done.
  destruct x as [sx|sx| |sx mx ex]; try done. apply binary_normalize_number.
Qed.

Lemma Number_add_finite (x y : spec_float) :
  (if y is S754_finite _ _ _ then true else false) = true ->
  x <> S754_nan -> TaskList.Number_add x y <> S754_nan.
Proof.
  intros Hy Hx. unfold TaskList.Number_add.
  destruct y as [| | |s m e]; try done.
  destruct x as [sx|sx| |sx mx ex]; try done. apply binary_normalize_number.
Qed.

(** A number that is not below 10 is at least 10, unless it is NaN. *)
Lemma not_below_ten (x : spec_float) :
  x <> S754_nan ->
  TaskList.Number_lt x (TaskList.num 10) = false -> SFleb (TaskList.num 10) x = true.
Proof.
  change (TaskList.num 10) with (S754_finite false 5629499534213120 (-49)).
  unfold TaskList.Number_lt, SFltb, SFleb.
  destruct x as [s|[]| |[] m e]; try done. cbn [SFcompare].
  rewrite (Z.compare_antisym (-49) e), <- (Pos.compare_cont_antisym _ _ Eq).
  destruct (-49 ?= e); cbn [CompOpp]; try done.
  by destruct (Pos.compare_cont Eq 5629499534213120 m).
Qed.

(** The menu never leaves the top-left margin: whatever the button's
    rectangle and the viewport, neither coordinate of the position
    given to the menu is below 10; and when the rectangle and the
    viewport are numbers (not NaN), both coordinates are at least 10. *)
Theorem menu_keeps_margin (left right top viewportWidth viewportHeight : spec_float) :
  let position := TaskList.handleMenuOpen left right top viewportWidth viewportHeight in
  TaskList.Number_lt position.1 (TaskList.num 10) = false
  /\ TaskList.Number_lt position.2 (TaskList.num 10) = false
  /\ (left <> S754_nan -> right <> S754_nan -> viewportWidth <> S754_nan ->
      SFleb (TaskList.num 10) position.1 = true)
  /\ (top <> S754_nan -> viewportHeight <> S754_nan ->
      SFleb (TaskList.num 10) position.2 = true).
Proof.
  assert (Hten : TaskList.Number_lt (TaskList.num 10) (TaskList.num 10) = false)
    by reflexivity.
  assert (Hnum : TaskList.num 10 <> S754_nan) by done.
  unfold TaskList.handleMenuOpen. cbv zeta. cbn [fst snd].
  split; [|split; [|split]].
  1-2: match goal with
       | |- TaskList.Number_lt (if ?c then _ else _) _ = false => by destruct c eqn:E
       end.
  - intros Hl Hr Hw.
    match goal with
    | |- SFleb _ (if ?c then _ else _) = true => destruct c eqn:E; [reflexivity|]
    end.
    apply not_below_ten; [|exact E].
    repeat match goal with
      | |- (if ?c then _ else _) <> _ => destruct c
      end;
      repeat first [apply Number_sub_finite; [reflexivity|]
                   | apply Number_add_finite; [reflexivity|]]; done.
  - intros Ht Hh.
    match goal with
    | |- SFleb _ (if ?c then _ else _) = true => destruct c eqn:E; [reflexivity|]
    end.
    apply not_below_ten; [|exact E].
    repeat match goal with
      | |- (if ?c then _ else _) <> _ => destruct c
      end;
      repeat first [apply Number_sub_finite; [reflexivity|]
                   | apply Number_add_finite; [reflexivity|]]; done.
Qed.

(** The tests of [handleMenuOpen] are on rounded sums.  A button from
    100 to 890 + 2^-43 in a viewport 1060 wide: the menu does not fit on
    the left and goes to 900 + 2^-43; that plus 150 rounds to 1050,
    which is not above 1060 - 10, so the menu stays there, above the
    position 900 that the margin asks for. *)
Example menu_on_a_rounded_sum :
  (TaskList.handleMenuOpen (TaskList.num 100)
     (S754_finite false (890 * 2 ^ 43 + 1) (-43)) (TaskList.num 100)
     (TaskList.num 1060) (TaskList.num 800)).1
  = S754_finite false (900 * 2 ^ 43 + 1) (-43)
  /\ TaskList.Number_sub (TaskList.Number_sub (TaskList.num 1060) (TaskList.num 150))
       (TaskList.num 10) = TaskList.num 900
  /\ TaskList.Number_lt (TaskList.num 900)
       (S754_finite false (900 * 2 ^ 43 + 1) (-43)) = true.
Proof. by vm_compute. Qed.

(** The actions the menu offers are accepted by the server.  An action
    offered for a task never keeps its status, its target is a member
    of the status enumeration, and the request it sends for a task [t]
    of the caller, in a store with unique identifiers, is answered 200
    with [t] at the target status. *)
Theorem status_actions_are_accepted (db : DB) (user : User.view) (newId : ObjectId)
    (id : string) (t : Task.t) (label target : string) :
  unique_ids db ->
  Task.findOne (tasks db) id (User.v_id user) = Normal (Some t) ->
  (label, target) ∈ TaskList.getStatusActions (Task.status t) ->
  target <> Task.status t
  /\ Task.member target Task.statusEnum = true
  /\ (handle db user newId (TaskList.updateTaskStatus id target)).2
     = json_task 200 "Task status updated successfully" (users db)
         (Task.set_status target t).
Proof.
  intros Hu Hf Hin.
  assert (H : target <> Task.status t /\ Task.member target Task.statusEnum = true).
  { revert Hin. unfold TaskList.getStatusActions.
    destruct (String.eqb_spec (Task.status t) "pending") as [->|?];
      [|destruct (String.eqb_spec (Task.status t) "in-progress") as [->|?];
        [|destruct (String.eqb_spec (Task.status t) "completed") as [->|?]]];
      intros Hin;
      repeat (apply elem_of_cons in Hin as [[= -> ->]|Hin];
              [split; [discriminate | reflexivity]|]);
      by apply elem_of_nil in Hin. }
  destruct H as [Hne Hm]. split; [done|]. split; [done|].
  unfold TaskList.updateTaskStatus. cbn [handle].
  by rewrite (router_patch_status_found db user id _ t target).
Qed.

Lemma groups_partition (ts : list Task.t) :
  Forall (fun t => Task.member (Task.status t) Task.statusEnum = true) ts ->
  TaskList.pending (TaskList.groupedTasks (TaskList.filteredTasks ts "all"))
  ++ TaskList.in_progress (TaskList.groupedTasks (TaskList.filteredTasks ts "all"))
  ++ TaskList.completed (TaskList.groupedTasks (TaskList.filteredTasks ts "all"))
  ≡ₚ ts.
Proof.
  unfold TaskList.groupedTasks, TaskList.filteredTasks.
  cbn [TaskList.pending TaskList.in_progress TaskList.completed].
  induction 1 as [|t ts Ht Hts IH]; [done|].
  cbn [List.filter String.eqb Ascii.eqb Bool.eqb orb].
  unfold Task.member in Ht. cbn [existsb Task.statusEnum] in Ht.
  repeat (apply orb_true_iff in Ht as [Ht|Ht]); try done;
    apply String.eqb_eq in Ht; rewrite Ht; cbn [String.eqb Ascii.eqb Bool.eqb List.filter].
  - cbn [app]. by constructor.
  - cbn [app]. rewrite <- Permutation_middle. by constructor.
  - rewrite List.app_assoc, <- Permutation_middle, <- List.app_assoc. by constructor.
Qed.

(** The grouped view shows every task once.  On the tasks the list
    route returns from a store whose tasks satisfy the schema, with the
    filter on "all", the three groups pending, in-progress and
    completed together hold exactly those tasks, each once. *)
Theorem grouped_view_shows_every_task (db : DB) (user : User.view) (q : ListQuery) :
  valid_docs db ->
  TaskList.pending
    (TaskList.groupedTasks
       (TaskList.filteredTasks (response_tasks (router_get db user q).2) "all"))
  ++ TaskList.in_progress
       (TaskList.groupedTasks
          (TaskList.filteredTasks (response_tasks (router_get db user q).2) "all"))
  ++ TaskList.completed
       (TaskList.groupedTasks
          (TaskList.filteredTasks (response_tasks (router_get db user q).2) "all"))
  ≡ₚ response_tasks (router_get db user q).2.
Proof.
  intros Hv. apply groups_partition. apply Forall_forall. intros t Ht.
  unfold router_get, try_catch in Ht. cbv zeta in Ht.
  destruct (Task.find _ _ _ _) as [ts|e] eqn:E;
    unfold response_tasks in Ht; cbn [mbind Completion_bind snd payload json] in Ht;
    [|by apply elem_of_nil in Ht].
  rewrite <- list_fmap_compose in Ht.
  apply list_elem_of_fmap in Ht as (x & -> & Hx). cbn [compose Task.populate Task.doc].
  apply (find_elem _ _ _ _ _ _ E) in Hx as [Hx _].
  unfold valid_docs in Hv. rewrite Forall_forall in Hv. specialize (Hv x Hx).
  unfold Task.validate in Hv. repeat (apply andb_true_iff in Hv as [Hv ?]). done.
Qed.

End TaskListView.

(** * The task dialog *)

Section TaskDialogForm.
Context {rt : Runtime}.

Lemma valid_form_inv (form : TaskDialog.FormData) :
  TaskDialog.valid form = true ->
  String_trim (TaskDialog.title form) <> ""
  /\ (String.length (String_trim (TaskDialog.title form)) <= 200)%nat
  /\ (String.length (TaskDialog.description form) <= 1000)%nat
  /\ exists d, TaskDialog.dueDate form = Some d /\ TaskDialog.isValid d = true.
Proof.
  unfold TaskDialog.valid, TaskDialog.validateForm.
  destruct (String.eqb_spec (String_trim (TaskDialog.title form)) "") as [|Hne]; [done|].
  destruct (Nat.ltb_spec 200 (String.length (String_trim (TaskDialog.title form))));
    [done|].
  destruct (String.eqb_spec (TaskDialog.description form) "") as [He|Hd]; cbn [negb andb].
  - destruct (TaskDialog.dueDate form) as [d|]; [|done].
    destruct (TaskDialog.isValid d) eqn:Ev; [|done]. intros _.
    rewrite He. repeat split; [done | lia | simpl; lia | by exists d].
  - destruct (Nat.ltb_spec 1000 (String.length (TaskDialog.description form))); [done|].
    destruct (TaskDialog.dueDate form) as [d|]; [|done].
    destruct (TaskDialog.isValid d) eqn:Ev; [|done]. intros _.
    repeat split; [done | lia | lia | by exists d].
Qed.

(** The record a valid form describes satisfies the schema. *)
Lemma valid_form_validates (form : TaskDialog.FormData) (id owner : ObjectId) (due : Z) :
  TaskDialog.valid form = true ->
  Task.member (TaskDialog.status form) Task.statusEnum = true ->
  Task.member (TaskDialog.priority form) Task.priorityEnum = true ->
  Task.validate
    {| Task._id := id; Task.userId := owner;
       Task.title := String_trim (TaskDialog.title form);
       Task.description := String_trim (TaskDialog.description form);
       Task.dueDate := due;
       Task.status := TaskDialog.status form;
       Task.priority := TaskDialog.priority form |} = true.
Proof.
  intros Hv Hs Hp. apply valid_form_inv in Hv as (Hne & Ht & Hd & _).
  unfold Task.validate. cbn [Task.title Task.description Task.status Task.priority].
  rewrite Hs, Hp.
  assert (Hd' := String_trim_length (TaskDialog.description form)).
  repeat (apply andb_true_iff; split); try done.
  - apply Nat.ltb_lt. destruct (String_trim (TaskDialog.title form)); [done | simpl; lia].
  - apply Nat.leb_le. lia.
  - apply Nat.leb_le. lia.
Qed.

(** What the dialog accepts, the create route accepts.  For a form
    that passes [validateForm], whose status and priority are members
    of the enumerations and whose date prints to a non-empty string the
    server parses, with a fresh identifier: the dialog sends the
    create, and the route answers 201 and appends the task with the
    form's values, title and description trimmed, owned by the
    caller. *)
Theorem valid_form_is_created (db : DB) (user : User.view) (newId : ObjectId)
    (form : TaskDialog.FormData) (d : TaskDialog.Dayjs) (due : Z) :
  TaskDialog.valid form = true ->
  TaskDialog.dueDate form = Some d ->
  TaskDialog.toISOString d <> "" ->
  Date_getTime (JStr (TaskDialog.toISOString d)) = Some due ->
  Task.member (TaskDialog.status form) Task.statusEnum = true ->
  Task.member (TaskDialog.priority form) Task.priorityEnum = true ->
  existsb (Task.has_id newId) (tasks db) = false ->
  TaskDialog.handleSubmit form None = Some (POST_task (TaskDialog.taskData form d))
  /\ handle db user newId (POST_task (TaskDialog.taskData form d)) =
       (with_tasks db
          (tasks db ++
           [{| Task._id := newId; Task.userId := User.v_id user;
               Task.title := String_trim (TaskDialog.title form);
               Task.description := String_trim (TaskDialog.description form);
               Task.dueDate := due;
               Task.status := TaskDialog.status form;
               Task.priority := TaskDialog.priority form |}])%list,
        json_task 201 "Task created successfully" (users db)
          {| Task._id := newId; Task.userId := User.v_id user;
             Task.title := String_trim (TaskDialog.title form);
             Task.description := String_trim (TaskDialog.description form);
             Task.dueDate := due;
             Task.status := TaskDialog.status form;
             Task.priority := TaskDialog.priority form |}).
Proof.
  intros Hv Hd Hiso Hdate Hs Hp Hfresh.
  split; [unfold TaskDialog.handleSubmit; by rewrite Hv, Hd|].
  assert (Hval := valid_form_validates form newId (User.v_id user) due Hv Hs Hp).
  apply valid_form_inv in Hv as (Hne & _).
  cbn [handle]. unfold router_post, TaskDialog.taskData.
  cbn [title description dueDate status priority with_title with_description
       with_dueDate with_status with_priority empty_body trim].
  rewrite (truthy_nonempty _ Hne), (truthy_nonempty _ Hiso), Hdate.
  cbn [negb orb mbind Completion_bind]. rewrite String_trim_idem.
  assert (Hde : (if truthy (JStr (String_trim (TaskDialog.description form)))
                 then Normal (String_trim (String_trim (TaskDialog.description form)))
                 else Normal "")
                = Normal (String_trim (TaskDialog.description form))).
  { rewrite String_trim_idem. cbn [truthy].
    by destruct (String.eqb_spec (String_trim (TaskDialog.description form)) "") as [->|]. }
  rewrite Hde. cbn [mbind Completion_bind].
  unfold Task.new, js_or.
  rewrite (status_member_truthy _ Hs), (priority_member_truthy _ Hp).
  cbn [castString default from_option]. unfold id. unfold Task.insert.
  cbn [Task._id]. by rewrite Hval, Hfresh.
Qed.

(** What the dialog saves is what is stored.  For a form that passes
    [validateForm] as above, editing a task [t] of the caller in a
    store with unique identifiers: the dialog sends the update, the
    route answers 200, and the task stored afterwards has the
    identifier and owner of [t] and all five fields from the form,
    title and description trimmed. *)
Theorem valid_form_is_saved (db : DB) (user : User.view) (newId : ObjectId)
    (id : string) (t : Task.t) (form : TaskDialog.FormData) (d : TaskDialog.Dayjs)
    (due : Z) :
  unique_ids db ->
  Task.findOne (tasks db) id (User.v_id user) = Normal (Some t) ->
  TaskDialog.valid form = true ->
  TaskDialog.dueDate form = Some d ->
  TaskDialog.toISOString d <> "" ->
  Date_getTime (JStr (TaskDialog.toISOString d)) = Some due ->
  Task.member (TaskDialog.status form) Task.statusEnum = true ->
  Task.member (TaskDialog.priority form) Task.priorityEnum = true ->
  TaskDialog.handleSubmit form (Some id)
    = Some (PUT_task id (TaskDialog.taskData form d))
  /\ (handle db user newId (PUT_task id (TaskDialog.taskData form d))).2
     = json_task 200 "Task updated successfully" (users db)
         {| Task._id := Task._id t; Task.userId := Task.userId t;
            Task.title := String_trim (TaskDialog.title form);
            Task.description := String_trim (TaskDialog.description form);
            Task.dueDate := due;
            Task.status := TaskDialog.status form;
            Task.priority := TaskDialog.priority form |}
  /\ Task.findOne (tasks (handle db user newId
                            (PUT_task id (TaskDialog.taskData form d))).1)
       id (User.v_id user)
     = Normal (Some
         {| Task._id := Task._id t; Task.userId := Task.userId t;
            Task.title := String_trim (TaskDialog.title form);
            Task.description := String_trim (TaskDialog.description form);
            Task.dueDate := due;
            Task.status := TaskDialog.status form;
            Task.priority := TaskDialog.priority form |}).
Proof.
  intros Hu Hf Hv Hd Hiso Hdate Hs Hp.
  split; [unfold TaskDialog.handleSubmit; by rewrite Hv, Hd|].
  assert (Hval := valid_form_validates form (Task._id t) (Task.userId t) due Hv Hs Hp).
  apply valid_form_inv in Hv as (Hne & _).
  set (t' := {| Task._id := Task._id t; Task.userId := Task.userId t;
                Task.title := String_trim (TaskDialog.title form);
                Task.description := String_trim (TaskDialog.description form);
                Task.dueDate := due;
                Task.status := TaskDialog.status form;
                Task.priority := TaskDialog.priority form |}) in *.
  assert (Hput : router_put db user id (TaskDialog.taskData form d)
                 = (with_tasks db (update_first (Task.has_id (Task._id t'))
                                     (fun _ => t') (tasks db)),
                    json_task 200 "Task updated successfully" (users db) t')).
  { unfold router_put. rewrite Hf. cbn [mbind Completion_bind].
    unfold TaskDialog.taskData, update_fields, update_title, update_description,
      update_status, update_priority, assign.
    cbn [title description dueDate status priority with_title with_description
         with_dueDate with_status with_priority empty_body trim castString].
    rewrite (truthy_nonempty _ Hne), (truthy_nonempty _ Hiso), Hdate,
      (status_member_truthy _ Hs), (priority_member_truthy _ Hp).
    cbn [mbind Completion_bind]. rewrite !String_trim_idem.
    change (Task.set_priority _ _) with t'.
    unfold Task.save. rewrite Hval. reflexivity. }
  cbn [handle]. rewrite Hput. cbn [fst snd tasks with_tasks]. split; [done|].
  apply findOne_inv in Hf as (i & Hc & Hf). unfold Task.findOne. rewrite Hc. f_equal.
  by apply (find_after_save _ i _ t t').
Qed.

End TaskDialogForm.

(** * The further properties on the sample data *)

Lemma sample_unique_ids : unique_ids Sample.db.
Proof. unfold unique_ids. simpl. apply NoDup_singleton. Qed.

Lemma sample_valid_docs : valid_docs Sample.db.
Proof. unfold valid_docs. simpl. by repeat constructor. Qed.

Lemma errors_leave_store_witness :
  statusCode (router (rt := Sample.runtime) Sample.db Demo.aliceHeader 7%N
                (POST_task Sample.bogus_status_body)).2 <> 200
  /\ statusCode (router (rt := Sample.runtime) Sample.db Demo.aliceHeader 7%N
                   (POST_task Sample.bogus_status_body)).2 <> 201
  /\ (router (rt := Sample.runtime) Sample.db Demo.aliceHeader 7%N
        (POST_task Sample.bogus_status_body)).1 = Sample.db.
Proof.
  split; [by vm_compute|]. split; [by vm_compute|].
  apply (errors_leave_store (rt := Sample.runtime)); by vm_compute.
Defined.

Lemma create_then_read_witness :
  statusCode (router_post (rt := Sample.runtime) Sample.db Demo.alice 7%N
                Sample.new_task_body).2 = 201
  /\ castObjectId (Runtime := Sample.runtime) "000000000000000000000007" = Some 7%N
  /\ exists t,
       router_get_id (rt := Sample.runtime)
         (router_post (rt := Sample.runtime) Sample.db Demo.alice 7%N
            Sample.new_task_body).1 Demo.alice "000000000000000000000007"
       = ((router_post (rt := Sample.runtime) Sample.db Demo.alice 7%N
             Sample.new_task_body).1,
          json_task 200 "Task retrieved successfully" (users Sample.db) t).
Proof.
  split; [reflexivity|]. split; [reflexivity|].
  destruct (create_then_read (rt := Sample.runtime) Sample.db Demo.alice 7%N
              Sample.new_task_body "000000000000000000000007" eq_refl eq_refl)
    as (t & _ & _ & _ & H).
  by exists t.
Defined.

Lemma delete_then_read_witness :
  unique_ids Sample.db
  /\ statusCode (router_delete (rt := Sample.runtime) Sample.db Demo.alice
                   Sample.taskId).2 = 200
  /\ router_get_id (rt := Sample.runtime)
       (router_delete (rt := Sample.runtime) Sample.db Demo.alice Sample.taskId).1
       Demo.alice Sample.taskId
     = ((router_delete (rt := Sample.runtime) Sample.db Demo.alice Sample.taskId).1,
        json 404 "Task not found").
Proof.
  split; [exact sample_unique_ids|]. split; [reflexivity|].
  destruct (delete_then_read (rt := Sample.runtime) Sample.db Demo.alice Sample.taskId
              sample_unique_ids eq_refl) as (t & _ & _ & _ & H & _).
  exact H.
Defined.

Lemma missing_task_is_404_witness :
  Task.findOne (rt := Sample.runtime) (tasks Sample.db) "00000000000000000000f002" 161%N
  = Normal None
  /\ router_put (rt := Sample.runtime) Sample.db Demo.alice "00000000000000000000f002"
       Demo.rename_body
     = (Sample.db, json 404 "Task not found").
Proof.
  split; [reflexivity|].
  by destruct (missing_task_is_404 (rt := Sample.runtime) Sample.db Demo.alice
                 "00000000000000000000f002" Demo.rename_body eq_refl) as (_ & H & _).
Defined.

Lemma status_update_frame_witness :
  unique_ids Sample.db
  /\ Task.findOne (rt := Sample.runtime) (tasks Sample.db) Sample.taskId 161%N
     = Normal (Some Sample.report)
  /\ status Demo.completed_body = JStr "completed"
  /\ Task.member "completed" Task.statusEnum = true
  /\ tasks (router_patch_status (rt := Sample.runtime) Sample.db Demo.alice
              Sample.taskId Demo.completed_body).1
     = [Task.set_status "completed" Sample.report].
Proof.
  split; [exact sample_unique_ids|]. do 3 (split; [reflexivity|]).
  by rewrite (status_update_frame (rt := Sample.runtime) Sample.db Demo.alice
                Sample.taskId Demo.completed_body Sample.report "completed"
                sample_unique_ids eq_refl eq_refl eq_refl).
Defined.

Lemma status_update_as_update_witness :
  unique_ids Sample.db
  /\ Task.findOne (rt := Sample.runtime) (tasks Sample.db) Sample.taskId 161%N
     = Normal (Some Sample.report)
  /\ Task.validate Sample.report = true
  /\ Task.member "completed" Task.statusEnum = true
  /\ (router_put (rt := Sample.runtime) Sample.db Demo.alice Sample.taskId
        (with_status (JStr "completed") empty_body)).1
     = (router_patch_status (rt := Sample.runtime) Sample.db Demo.alice Sample.taskId
          (with_status (JStr "completed") empty_body)).1.
Proof.
  split; [exact sample_unique_ids|]. do 3 (split; [reflexivity|]).
  by destruct (status_update_as_update (rt := Sample.runtime) Sample.db Demo.alice
                 Sample.taskId Sample.report "completed" sample_unique_ids
                 eq_refl eq_refl eq_refl) as [H _].
Defined.

Lemma update_idempotent_witness :
  unique_ids Sample.db
  /\ statusCode (router_put (rt := Sample.runtime) Sample.db Demo.alice Sample.taskId
                   Demo.rename_body).2 = 200
  /\ router_put (rt := Sample.runtime)
       (router_put (rt := Sample.runtime) Sample.db Demo.alice Sample.taskId
          Demo.rename_body).1 Demo.alice Sample.taskId Demo.rename_body
     = router_put (rt := Sample.runtime) Sample.db Demo.alice Sample.taskId
         Demo.rename_body.
Proof.
  split; [exact sample_unique_ids|]. split; [reflexivity|].
  apply (update_idempotent (rt := Sample.runtime)); [exact sample_unique_ids | reflexivity].
Defined.

Lemma created_task_is_trimmed_witness :
  statusCode (router_post (rt := Sample.runtime) Sample.db Demo.alice 7%N
                Sample.new_task_body).2 = 201
  /\ Demo.created ∈ response_tasks (router_post (rt := Sample.runtime) Sample.db
                                      Demo.alice 7%N Sample.new_task_body).2
  /\ String_trim (Task.title Demo.created) = Task.title Demo.created.
Proof.
  split; [reflexivity|].
  assert (Hin : Demo.created
                ∈ response_tasks (router_post (rt := Sample.runtime) Sample.db
                                    Demo.alice 7%N Sample.new_task_body).2).
  { vm_compute. left. }
  split; [exact Hin|].
  exact (proj1 (created_task_is_trimmed (rt := Sample.runtime) Sample.db Demo.alice 7%N
                  Sample.new_task_body Demo.created eq_refl Hin)).
Defined.

Lemma run_keeps_invariants_witness :
  unique_ids Sample.db /\ valid_docs Sample.db
  /\ unique_ids
       (run (rt := Sample.runtime) Sample.db
          [{| call_header := Demo.aliceHeader; call_newId := 7%N;
              call_request := POST_task Sample.new_task_body |};
           {| call_header := None; call_newId := 8%N;
              call_request := DELETE_task Sample.taskId |}]).
Proof.
  split; [exact sample_unique_ids|]. split; [exact sample_valid_docs|].
  by destruct (run_keeps_invariants (rt := Sample.runtime) Sample.db
                 [{| call_header := Demo.aliceHeader; call_newId := 7%N;
                     call_request := POST_task Sample.new_task_body |};
                  {| call_header := None; call_newId := 8%N;
                     call_request := DELETE_task Sample.taskId |}]
                 sample_unique_ids sample_valid_docs) as [H _].
Defined.

Lemma gate_attaches_token_user_witness :
  authMiddleware (rt := Sample.runtime) Sample.db Demo.aliceHeader = inr Demo.alice
  /\ exists stored, stored ∈ users Sample.db /\ Demo.alice = User.select stored.
Proof.
  split; [reflexivity|].
  destruct (gate_attaches_token_user (rt := Sample.runtime) Sample.db Demo.aliceHeader
              Demo.alice eq_refl) as (tk & pl & uid & stored & _ & _ & _ & _ & Hin & Hsel).
  by exists stored.
Defined.

Lemma gate_rejections_witness :
  authMiddleware (rt := Sample.runtime) Sample.db (Some "Bearer ok.not-an-id")
  = inl (json 500 "Server error in authentication")
  /\ (statusCode (json 500 "Server error in authentication") = 401
      \/ statusCode (json 500 "Server error in authentication") = 500).
Proof.
  split; [reflexivity|].
  by destruct (gate_rejections (rt := Sample.runtime) Sample.db
                 (Some "Bearer ok.not-an-id")
                 (json 500 "Server error in authentication") eq_refl) as [H _].
Defined.

Lemma menu_keeps_margin_witness :
  TaskList.num 100 <> S754_nan
  /\ TaskList.num 140 <> S754_nan
  /\ TaskList.num 1280 <> S754_nan
  /\ SFleb (TaskList.num 10)
       (TaskList.handleMenuOpen (TaskList.num 100) (TaskList.num 140) (TaskList.num 700)
          (TaskList.num 1280) (TaskList.num 720)).1 = true
  /\ SFleb (TaskList.num 10)
       (TaskList.handleMenuOpen (TaskList.num 100) (TaskList.num 140) (TaskList.num 700)
          (TaskList.num 1280) (TaskList.num 720)).2 = true.
Proof.
  split; [done|]. split; [done|]. split; [done|].
  destruct (menu_keeps_margin (TaskList.num 100) (TaskList.num 140) (TaskList.num 700)
              (TaskList.num 1280) (TaskList.num 720)) as (_ & _ & Hx & Hy).
  split; [by apply Hx | by apply Hy].
Defined.

Lemma status_actions_are_accepted_witness :
  unique_ids Sample.db
  /\ Task.findOne (rt := Sample.runtime) (tasks Sample.db) Sample.taskId 161%N
     = Normal (Some Sample.report)
  /\ ("Start Task", "in-progress") ∈ TaskList.getStatusActions (Task.status Sample.report)
  /\ (handle (rt := Sample.runtime) Sample.db Demo.alice 7%N
        (TaskList.updateTaskStatus Sample.taskId "in-progress")).2
     = json_task 200 "Task status updated successfully" (users Sample.db)
         (Task.set_status "in-progress" Sample.report).
Proof.
  split; [exact sample_unique_ids|]. split; [reflexivity|].
  assert (Hin : ("Start Task", "in-progress")
                ∈ TaskList.getStatusActions (Task.status Sample.report))
    by (vm_compute; left).
  split; [exact Hin|].
  by destruct (status_actions_are_accepted (rt := Sample.runtime) Sample.db Demo.alice
                 7%N Sample.taskId Sample.report "Start Task" "in-progress"
                 sample_unique_ids eq_refl Hin) as (_ & _ & H).
Defined.

Lemma grouped_view_shows_every_task_witness :
  valid_docs Sample.db
  /\ TaskList.pending
       (TaskList.groupedTasks
          (TaskList.filteredTasks
             (response_tasks
                (router_get (rt := Sample.runtime) Sample.db Demo.alice
                   {| lq_status := None; lq_sortBy := None; lq_order := None |}).2)
             "all"))
     ++ TaskList.in_progress
          (TaskList.groupedTasks
             (TaskList.filteredTasks
                (response_tasks
                   (router_get (rt := Sample.runtime) Sample.db Demo.alice
                      {| lq_status := None; lq_sortBy := None; lq_order := None |}).2)
                "all"))
     ++ TaskList.completed
          (TaskList.groupedTasks
             (TaskList.filteredTasks
                (response_tasks
                   (router_get (rt := Sample.runtime) Sample.db Demo.alice
                      {| lq_status := None; lq_sortBy := None; lq_order := None |}).2)
                "all"))
     ≡ₚ response_tasks
          (router_get (rt := Sample.runtime) Sample.db Demo.alice
             {| lq_status := None; lq_sortBy := None; lq_order := None |}).2.
Proof.
  split; [exact sample_valid_docs|].
  apply (grouped_view_shows_every_task (rt := Sample.runtime)). exact sample_valid_docs.
Defined.

Lemma valid_form_is_created_witness :
  TaskDialog.valid Demo.form = true
  /\ TaskDialog.dueDate Demo.form = Some Demo.day
  /\ TaskDialog.toISOString Demo.day <> ""
  /\ Date_getTime (Runtime := Sample.runtime) (JStr (TaskDialog.toISOString Demo.day))
     = Some 1893542400000
  /\ existsb (Task.has_id 7%N) (tasks Sample.db) = false
  /\ statusCode (handle (rt := Sample.runtime) Sample.db Demo.alice 7%N
                   (POST_task (TaskDialog.taskData Demo.form Demo.day))).2 = 201.
Proof.
  do 2 (split; [reflexivity|]). split; [discriminate|]. do 2 (split; [reflexivity|]).
  assert (Hiso : TaskDialog.toISOString Demo.day <> "") by discriminate.
  destruct (valid_form_is_created (rt := Sample.runtime) Sample.db Demo.alice 7%N
              Demo.form Demo.day 1893542400000 eq_refl eq_refl Hiso eq_refl eq_refl
              eq_refl eq_refl) as [_ H].
  by rewrite H.
Defined.

Lemma valid_form_is_saved_witness :
  unique_ids Sample.db
  /\ Task.findOne (rt := Sample.runtime) (tasks Sample.db) Sample.taskId 161%N
     = Normal (Some Sample.report)
  /\ TaskDialog.valid Demo.form = true
  /\ (handle (rt := Sample.runtime) Sample.db Demo.alice 7%N
        (PUT_task Sample.taskId (TaskDialog.taskData Demo.form Demo.day))).2
     = json_task 200 "Task updated successfully" (users Sample.db) Demo.saved.
Proof.
  split; [exact sample_unique_ids|]. do 2 (split; [reflexivity|]).
  assert (Hiso : TaskDialog.toISOString Demo.day <> "") by discriminate.
  destruct (valid_form_is_saved (rt := Sample.runtime) Sample.db Demo.alice 7%N
              Sample.taskId Sample.report Demo.form Demo.day 1893542400000
              sample_unique_ids eq_refl eq_refl eq_refl Hiso eq_refl eq_refl eq_refl)
    as (_ & H & _).
  exact H.
Defined.

Lemma created_task_is_listed_witness :
  statusCode (router_post (rt := Sample.runtime) Sample.db Demo.alice 7%N
                Sample.new_task_body).2 = 201
  /\ lq_status {| lq_status := None; lq_sortBy := Some "title"; lq_order := None |} = None
  /\ Task.sortable (rt := Sample.runtime) "title" = true
  /\ length (response_tasks
               (router_get (rt := Sample.runtime)
                  (router_post (rt := Sample.runtime) Sample.db Demo.alice 7%N
                     Sample.new_task_body).1 Demo.alice
                  {| lq_status := None; lq_sortBy := Some "title"; lq_order := None |}).2)
     = S (length (response_tasks
                    (router_get (rt := Sample.runtime) Sample.db Demo.alice
                       {| lq_status := None; lq_sortBy := Some "title";
                          lq_order := None |}).2)).
Proof.
  split; [reflexivity|]. split; [reflexivity|]. split; [reflexivity|].
  exact (proj2 (created_task_is_listed (rt := Sample.runtime) Sample.db Demo.alice 7%N
                  Sample.new_task_body
                  {| lq_status := None; lq_sortBy := Some "title"; lq_order := None |}
                  eq_refl eq_refl eq_refl)).
Defined.
